(** * MAX17048 fuel-gauge driver: a shallow embedding of
    [drivers/power/max17048_battery.c] and the properties of its register
    transport, model loader, sampler, thermal compensator and alert handler.

    Conventions of the embedding.
    - C integers are [Z]; every narrowing conversion of the source is written
      out ([to_u8], [to_u16], [to_s32], [to_s64]).  [int] and [long] are 32
      bits wide (the ARMv7 target of the board), [s64] is 64 bits wide.
    - The driver context ([struct max17048_chip]) and the trace of everything
      the driver does to the outside world (bus transactions, delays,
      notifications, callbacks) form the state that the driver functions
      thread through a state monad.  Locking a mutex that is already held
      never returns, which the monad renders as [None].
    - The I2C adapter, the thermal zone and the board identification are
      external: they are the fields of an [environment], whose answers may
      depend on the whole history of the trace.
    - Kernel logging ([dev_err], [dev_info]) is not an effect any property
      below depends on and is left out. *)

From Stdlib Require Import ZArith List Bool Lia.
Import ListNotations.
Local Open Scope Z_scope.

(** ** Fixed-width integers *)

Definition to_u8 (x : Z) : Z := x mod 2 ^ 8.
Definition to_u16 (x : Z) : Z := x mod 2 ^ 16.
Definition to_u32 (x : Z) : Z := x mod 2 ^ 32.
Definition to_s32 (x : Z) : Z := (x + 2 ^ 31) mod 2 ^ 32 - 2 ^ 31.
Definition to_s64 (x : Z) : Z := (x + 2 ^ 63) mod 2 ^ 64 - 2 ^ 63.

(** [swab16]: exchange the two bytes of a 16-bit word. *)
Definition swab16 (x : Z) : Z :=
  Z.lor (Z.shiftl (Z.land x 0xff) 8) (Z.land (Z.shiftr x 8) 0xff).

(** [div64_s64]: signed 64-bit division, truncating toward zero. *)
Definition div64_s64 (a b : Z) : Z := to_s64 (Z.quot a b).

(** [abs] on a [long]. *)
Definition abs_long (x : Z) : Z := if x <? 0 then to_s32 (- x) else x.

(** ** Register map and constants of the source *)

Definition MAX17048_VCELL : Z := 0x02.
Definition MAX17048_SOC : Z := 0x04.
Definition MAX17048_VER : Z := 0x08.
Definition MAX17048_HIBRT : Z := 0x0A.
Definition MAX17048_CONFIG : Z := 0x0C.
Definition MAX17048_OCV : Z := 0x0E.
Definition MAX17048_VALRT : Z := 0x14.
Definition MAX17048_VRESET : Z := 0x18.
Definition MAX17048_STATUS : Z := 0x1A.
Definition MAX17048_UNLOCK : Z := 0x3E.
Definition MAX17048_TABLE : Z := 0x40.
Definition MAX17048_RCOMPSEG1 : Z := 0x80.
Definition MAX17048_RCOMPSEG2 : Z := 0x90.
Definition MAX17048_UNLOCK_VALUE : Z := 0x4a57.
Definition HZ : Z := 100.
Definition MAX17048_DELAY : Z := 10 * HZ.
Definition MAX17048_BATTERY_FULL : Z := 100.
Definition MAX17048_BATTERY_LOW : Z := 15.
Definition MAX17048_BATTERY_HOT : Z := 60 * 1000.
Definition MAX17048_BATTERY_COLD : Z := -10 * 1000.
Definition MAX17048_VERSION_NO_11 : Z := 0x11.
Definition MAX17048_VERSION_NO_12 : Z := 0x12.

Definition MAX17048_STATUS_RI : Z := 0x0100.
Definition MAX17048_STATUS_VH : Z := 0x0200.
Definition MAX17048_STATUS_VL : Z := 0x0400.
Definition MAX17048_STATUS_VR : Z := 0x0800.
Definition MAX17048_STATUS_HD : Z := 0x1000.
Definition MAX17048_STATUS_SC : Z := 0x2000.
Definition MAX17048_STATUS_ENVR : Z := 0x4000.
Definition MAX17048_CONFIG_ALRT : Z := 0x0020.

(** Kernel constants the source takes from headers outside the repository
    excerpt: the errno values of [errno-base.h], [ULONG_MAX] of a 32-bit
    target and [IRQ_HANDLED] of [irqreturn.h]. *)
Definition ENODEV : Z := 19.
Definition EIO : Z := 5.
Definition ULONG_MAX : Z := 2 ^ 32 - 1.
Definition IRQ_HANDLED : Z := 1.

(** The enumerations of [linux/power_supply.h] that the driver stores in
    [status], [health] and [capacity_level]; the first constructor of each
    is the value 0 that a freshly zeroed context holds. *)
Inductive power_supply_status : Type :=
| POWER_SUPPLY_STATUS_UNKNOWN
| POWER_SUPPLY_STATUS_CHARGING
| POWER_SUPPLY_STATUS_DISCHARGING
| POWER_SUPPLY_STATUS_NOT_CHARGING
| POWER_SUPPLY_STATUS_FULL.

Inductive power_supply_health : Type :=
| POWER_SUPPLY_HEALTH_UNKNOWN
| POWER_SUPPLY_HEALTH_GOOD
| POWER_SUPPLY_HEALTH_OVERHEAT
| POWER_SUPPLY_HEALTH_DEAD
| POWER_SUPPLY_HEALTH_OVERVOLTAGE
| POWER_SUPPLY_HEALTH_UNSPEC_FAILURE
| POWER_SUPPLY_HEALTH_COLD.

Inductive power_supply_capacity_level : Type :=
| POWER_SUPPLY_CAPACITY_LEVEL_UNKNOWN
| POWER_SUPPLY_CAPACITY_LEVEL_CRITICAL
| POWER_SUPPLY_CAPACITY_LEVEL_LOW
| POWER_SUPPLY_CAPACITY_LEVEL_NORMAL
| POWER_SUPPLY_CAPACITY_LEVEL_HIGH
| POWER_SUPPLY_CAPACITY_LEVEL_FULL.

Definition status_eqb (a b : power_supply_status) : bool :=
  match a, b with
  | POWER_SUPPLY_STATUS_UNKNOWN, POWER_SUPPLY_STATUS_UNKNOWN
  | POWER_SUPPLY_STATUS_CHARGING, POWER_SUPPLY_STATUS_CHARGING
  | POWER_SUPPLY_STATUS_DISCHARGING, POWER_SUPPLY_STATUS_DISCHARGING
  | POWER_SUPPLY_STATUS_NOT_CHARGING, POWER_SUPPLY_STATUS_NOT_CHARGING
  | POWER_SUPPLY_STATUS_FULL, POWER_SUPPLY_STATUS_FULL => true
  | _, _ => false
  end.

(** ** The outside world *)

(** What the driver does to the outside world, oldest event first.  A bus
    event carries the arguments handed to the SMBus primitive and the value
    the primitive returned. *)
Inductive event : Type :=
| I2cReadWord (reg ret : Z)
| I2cWriteWord (reg data ret : Z)
| I2cWriteBlock (command length : Z) (values : list Z) (ret : Z)
| Mdelay (ms : Z)
| PowerSupplyChanged
| SetCurrentThreshold (threshold min_cpu ret : Z)
| SysedpThrottle (power : Z)
| ThermalZoneGetTemp
| ScheduleDelayedWork (delay : Z)
| CancelDelayedWorkSync
| DisableIrq.

(** [struct max17048_battery_model] of [linux/max17048_battery.h]. *)
Record max17048_battery_model : Type := {
  rcomp : Z;
  soccheck_A : Z;
  soccheck_B : Z;
  bits : Z;
  alert_threshold : Z;
  one_percent_alerts : Z;
  rcomp_seg : Z;
  hibernate : Z;
  vreset : Z;
  valert : Z;
  ocvtest : Z;
  t_co_hot : Z;
  t_co_cold : Z;
  data_tbl : list Z
}.

(** [struct max17048_platform_data].  A function pointer is [None] (or
    [false]) when it is [NULL]; the threshold callback answers with its
    return value.  The array the source calls [current_threshold] is
    [current_threshold_tbl] here, because the driver context has a field
    of the same name. *)
Record max17048_platform_data : Type := {
  model_data : max17048_battery_model;
  set_current_threshold : option (list event -> Z -> Z -> Z);
  current_normal : Z;
  current_threshold_num : Z;
  current_threshold_soc : list Z;
  current_threshold_tbl : list Z;
  sysedp_throttle : bool;
  sysedp_throttle_num : Z;
  sysedp_throttle_soc : list Z;
  sysedp_throttle_power : list Z
}.

(** [struct max17048_chip]; [mutex] is [true] while the mutex is held. *)
Record max17048_chip : Type := {
  pdata : max17048_platform_data;
  vcell : Z;
  soc : Z;
  status : power_supply_status;
  health : power_supply_health;
  capacity_level : power_supply_capacity_level;
  temperature : Z;
  current_threshold : Z;
  internal_soc : Z;
  lasttime_soc : Z;
  lasttime_status : power_supply_status;
  lasttime_temperature : Z;
  lasttime_current_threshold : Z;
  shutdown_complete : Z;
  mutex : bool
}.

Record environment : Type := {
  i2c_smbus_read_word_data : list event -> Z -> Z;
  i2c_smbus_write_word_data : list event -> Z -> Z -> Z;
  i2c_smbus_write_i2c_block_data : list event -> Z -> Z -> list Z -> Z;
  machine_is_tegratab : bool;
  machine_is_tegranote7c : bool;
  (** the temperature the zone [therm_est] reports; [None] when the zone
      is missing or its [get_temp] fails *)
  therm_est : list event -> option Z
}.

Record state : Type := {
  chip : max17048_chip;
  trace : list event
}.

(** Field updates of the driver context. *)
Definition set_vcell (v : Z) (c : max17048_chip) : max17048_chip :=
  {| pdata := pdata c; vcell := v; soc := soc c; status := status c;
     health := health c; capacity_level := capacity_level c;
     temperature := temperature c; current_threshold := current_threshold c;
     internal_soc := internal_soc c; lasttime_soc := lasttime_soc c;
     lasttime_status := lasttime_status c;
     lasttime_temperature := lasttime_temperature c;
     lasttime_current_threshold := lasttime_current_threshold c;
     shutdown_complete := shutdown_complete c; mutex := mutex c |}.

Definition set_soc (v : Z) (c : max17048_chip) : max17048_chip :=
  {| pdata := pdata c; vcell := vcell c; soc := v; status := status c;
     health := health c; capacity_level := capacity_level c;
     temperature := temperature c; current_threshold := current_threshold c;
     internal_soc := internal_soc c; lasttime_soc := lasttime_soc c;
     lasttime_status := lasttime_status c;
     lasttime_temperature := lasttime_temperature c;
     lasttime_current_threshold := lasttime_current_threshold c;
     shutdown_complete := shutdown_complete c; mutex := mutex c |}.

Definition set_status (v : power_supply_status) (c : max17048_chip)
  : max17048_chip :=
  {| pdata := pdata c; vcell := vcell c; soc := soc c; status := v;
     health := health c; capacity_level := capacity_level c;
     temperature := temperature c; current_threshold := current_threshold c;
     internal_soc := internal_soc c; lasttime_soc := lasttime_soc c;
     lasttime_status := lasttime_status c;
     lasttime_temperature := lasttime_temperature c;
     lasttime_current_threshold := lasttime_current_threshold c;
     shutdown_complete := shutdown_complete c; mutex := mutex c |}.

Definition set_health (v : power_supply_health) (c : max17048_chip)
  : max17048_chip :=
  {| pdata := pdata c; vcell := vcell c; soc := soc c; status := status c;
     health := v; capacity_level := capacity_level c;
     temperature := temperature c; current_threshold := current_threshold c;
     internal_soc := internal_soc c; lasttime_soc := lasttime_soc c;
     lasttime_status := lasttime_status c;
     lasttime_temperature := lasttime_temperature c;
     lasttime_current_threshold := lasttime_current_threshold c;
     shutdown_complete := shutdown_complete c; mutex := mutex c |}.

Definition set_capacity_level (v : power_supply_capacity_level)
  (c : max17048_chip) : max17048_chip :=
  {| pdata := pdata c; vcell := vcell c; soc := soc c; status := status c;
     health := health c; capacity_level := v;
     temperature := temperature c; current_threshold := current_threshold c;
     internal_soc := internal_soc c; lasttime_soc := lasttime_soc c;
     lasttime_status := lasttime_status c;
     lasttime_temperature := lasttime_temperature c;
     lasttime_current_threshold := lasttime_current_threshold c;
     shutdown_complete := shutdown_complete c; mutex := mutex c |}.

Definition set_temperature (v : Z) (c : max17048_chip) : max17048_chip :=
  {| pdata := pdata c; vcell := vcell c; soc := soc c; status := status c;
     health := health c; capacity_level := capacity_level c;
     temperature := v; current_threshold := current_threshold c;
     internal_soc := internal_soc c; lasttime_soc := lasttime_soc c;
     lasttime_status := lasttime_status c;
     lasttime_temperature := lasttime_temperature c;
     lasttime_current_threshold := lasttime_current_threshold c;
     shutdown_complete := shutdown_complete c; mutex := mutex c |}.

Definition set_current_threshold_field (v : Z) (c : max17048_chip)
  : max17048_chip :=
  {| pdata := pdata c; vcell := vcell c; soc := soc c; status := status c;
     health := health c; capacity_level := capacity_level c;
     temperature := temperature c; current_threshold := v;
     internal_soc := internal_soc c; lasttime_soc := lasttime_soc c;
     lasttime_status := lasttime_status c;
     lasttime_temperature := lasttime_temperature c;
     lasttime_current_threshold := lasttime_current_threshold c;
     shutdown_complete := shutdown_complete c; mutex := mutex c |}.

Definition set_internal_soc (v : Z) (c : max17048_chip) : max17048_chip :=
  {| pdata := pdata c; vcell := vcell c; soc := soc c; status := status c;
     health := health c; capacity_level := capacity_level c;
     temperature := temperature c; current_threshold := current_threshold c;
     internal_soc := v; lasttime_soc := lasttime_soc c;
     lasttime_status := lasttime_status c;
     lasttime_temperature := lasttime_temperature c;
     lasttime_current_threshold := lasttime_current_threshold c;
     shutdown_complete := shutdown_complete c; mutex := mutex c |}.

Definition set_lasttime_soc (v : Z) (c : max17048_chip) : max17048_chip :=
  {| pdata := pdata c; vcell := vcell c; soc := soc c; status := status c;
     health := health c; capacity_level := capacity_level c;
     temperature := temperature c; current_threshold := current_threshold c;
     internal_soc := internal_soc c; lasttime_soc := v;
     lasttime_status := lasttime_status c;
     lasttime_temperature := lasttime_temperature c;
     lasttime_current_threshold := lasttime_current_threshold c;
     shutdown_complete := shutdown_complete c; mutex := mutex c |}.

Definition set_lasttime_status (v : power_supply_status) (c : max17048_chip)
  : max17048_chip :=
  {| pdata := pdata c; vcell := vcell c; soc := soc c; status := status c;
     health := health c; capacity_level := capacity_level c;
     temperature := temperature c; current_threshold := current_threshold c;
     internal_soc := internal_soc c; lasttime_soc := lasttime_soc c;
     lasttime_status := v;
     lasttime_temperature := lasttime_temperature c;
     lasttime_current_threshold := lasttime_current_threshold c;
     shutdown_complete := shutdown_complete c; mutex := mutex c |}.

Definition set_lasttime_temperature (v : Z) (c : max17048_chip)
  : max17048_chip :=
  {| pdata := pdata c; vcell := vcell c; soc := soc c; status := status c;
     health := health c; capacity_level := capacity_level c;
     temperature := temperature c; current_threshold := current_threshold c;
     internal_soc := internal_soc c; lasttime_soc := lasttime_soc c;
     lasttime_status := lasttime_status c;
     lasttime_temperature := v;
     lasttime_current_threshold := lasttime_current_threshold c;
     shutdown_complete := shutdown_complete c; mutex := mutex c |}.

Definition set_lasttime_current_threshold (v : Z) (c : max17048_chip)
  : max17048_chip :=
  {| pdata := pdata c; vcell := vcell c; soc := soc c; status := status c;
     health := health c; capacity_level := capacity_level c;
     temperature := temperature c; current_threshold := current_threshold c;
     internal_soc := internal_soc c; lasttime_soc := lasttime_soc c;
     lasttime_status := lasttime_status c;
     lasttime_temperature := lasttime_temperature c;
     lasttime_current_threshold := v;
     shutdown_complete := shutdown_complete c; mutex := mutex c |}.

Definition set_shutdown_complete (v : Z) (c : max17048_chip)
  : max17048_chip :=
  {| pdata := pdata c; vcell := vcell c; soc := soc c; status := status c;
     health := health c; capacity_level := capacity_level c;
     temperature := temperature c; current_threshold := current_threshold c;
     internal_soc := internal_soc c; lasttime_soc := lasttime_soc c;
     lasttime_status := lasttime_status c;
     lasttime_temperature := lasttime_temperature c;
     lasttime_current_threshold := lasttime_current_threshold c;
     shutdown_complete := v; mutex := mutex c |}.

Definition set_mutex (v : bool) (c : max17048_chip) : max17048_chip :=
  {| pdata := pdata c; vcell := vcell c; soc := soc c; status := status c;
     health := health c; capacity_level := capacity_level c;
     temperature := temperature c; current_threshold := current_threshold c;
     internal_soc := internal_soc c; lasttime_soc := lasttime_soc c;
     lasttime_status := lasttime_status c;
     lasttime_temperature := lasttime_temperature c;
     lasttime_current_threshold := lasttime_current_threshold c;
     shutdown_complete := shutdown_complete c; mutex := v |}.

(** ** The driver monad *)

Definition M (A : Type) : Type := state -> option (A * state).

Definition ret {A : Type} (a : A) : M A := fun s => Some (a, s).

Definition bind {A B : Type} (m : M A) (k : A -> M B) : M B :=
  fun s => match m s with
           | Some (a, s') => k a s'
           | None => None
           end.

Declare Scope drv_scope.
Delimit Scope drv_scope with drv.
Notation "x <- m ;; k" := (bind m (fun x => k))
  (at level 61, m at next level, right associativity) : drv_scope.
Notation "m ;; k" := (bind m (fun _ => k))
  (at level 61, right associativity) : drv_scope.
Local Open Scope drv_scope.

Definition get_chip : M max17048_chip := fun s => Some (chip s, s).

Definition update (f : max17048_chip -> max17048_chip) : M unit :=
  fun s => Some (tt, {| chip := f (chip s); trace := trace s |}).

Definition emit (e : event) : M unit :=
  fun s => Some (tt, {| chip := chip s; trace := trace s ++ [e] |}).

Definition mutex_lock : M unit :=
  fun s => if mutex (chip s) then None
           else Some (tt, {| chip := set_mutex true (chip s);
                             trace := trace s |}).

Definition mutex_unlock : M unit := update (set_mutex false).

Definition mdelay (ms : Z) : M unit := emit (Mdelay ms).

Definition power_supply_changed : M unit := emit PowerSupplyChanged.

(** ** The power-supply property interface *)

(** More constants of headers outside the repository excerpt: [EINVAL]
    of [errno-base.h] and the lithium-ion technology of
    [linux/power_supply.h]. *)
Definition EINVAL : Z := 22.
Definition POWER_SUPPLY_TECHNOLOGY_LION : Z := 2.

(** The properties [max17048_battery_props] lists; any other enumerator of
    [enum power_supply_property] is [POWER_SUPPLY_PROP_OTHER]. *)
Inductive power_supply_property : Type :=
| POWER_SUPPLY_PROP_TECHNOLOGY
| POWER_SUPPLY_PROP_STATUS
| POWER_SUPPLY_PROP_VOLTAGE_NOW
| POWER_SUPPLY_PROP_CAPACITY
| POWER_SUPPLY_PROP_HEALTH
| POWER_SUPPLY_PROP_CAPACITY_LEVEL
| POWER_SUPPLY_PROP_VOLTAGE_OCV
| POWER_SUPPLY_PROP_TEMP
| POWER_SUPPLY_PROP_TEMP_AMBIENT
| POWER_SUPPLY_PROP_OTHER.

(** The integers behind the enumerators, in the order of the header. *)
Definition status_value (x : power_supply_status) : Z :=
  match x with
  | POWER_SUPPLY_STATUS_UNKNOWN => 0
  | POWER_SUPPLY_STATUS_CHARGING => 1
  | POWER_SUPPLY_STATUS_DISCHARGING => 2
  | POWER_SUPPLY_STATUS_NOT_CHARGING => 3
  | POWER_SUPPLY_STATUS_FULL => 4
  end.

Definition health_value (x : power_supply_health) : Z :=
  match x with
  | POWER_SUPPLY_HEALTH_UNKNOWN => 0
  | POWER_SUPPLY_HEALTH_GOOD => 1
  | POWER_SUPPLY_HEALTH_OVERHEAT => 2
  | POWER_SUPPLY_HEALTH_DEAD => 3
  | POWER_SUPPLY_HEALTH_OVERVOLTAGE => 4
  | POWER_SUPPLY_HEALTH_UNSPEC_FAILURE => 5
  | POWER_SUPPLY_HEALTH_COLD => 6
  end.

Definition capacity_level_value (x : power_supply_capacity_level) : Z :=
  match x with
  | POWER_SUPPLY_CAPACITY_LEVEL_UNKNOWN => 0
  | POWER_SUPPLY_CAPACITY_LEVEL_CRITICAL => 1
  | POWER_SUPPLY_CAPACITY_LEVEL_LOW => 2
  | POWER_SUPPLY_CAPACITY_LEVEL_NORMAL => 3
  | POWER_SUPPLY_CAPACITY_LEVEL_HIGH => 4
  | POWER_SUPPLY_CAPACITY_LEVEL_FULL => 5
  end.

(** The calls that arm and disarm the interrupt line as a wake source;
    the power-management entry points return the calls they made. *)
Inductive irq_wake_call : Type :=
| EnableIrqWake
| DisableIrqWake.

(** ** The driver *)

Section Driver.

Variable E : environment.

(** The three SMBus primitives of the adapter: the answer is an [s32].
    Their register argument is the [u8 command] of the SMBus interface;
    the transport functions below convert their [int reg] to it. *)
Definition smbus_read_word_data (reg : Z) : M Z :=
  fun s =>
    let r := to_s32 (i2c_smbus_read_word_data E (trace s) reg) in
    Some (r, {| chip := chip s; trace := trace s ++ [I2cReadWord reg r] |}).

Definition smbus_write_word_data (reg data : Z) : M Z :=
  fun s =>
    let r := to_s32 (i2c_smbus_write_word_data E (trace s) reg data) in
    Some (r, {| chip := chip s;
                trace := trace s ++ [I2cWriteWord reg data r] |}).

Definition smbus_write_i2c_block_data (command length : Z) (values : list Z)
  : M Z :=
  fun s =>
    let r := to_s32 (i2c_smbus_write_i2c_block_data E (trace s)
                       command length values) in
    Some (r, {| chip := chip s;
                trace := trace s ++ [I2cWriteBlock command length values r] |}).

(** *** Register transport *)

Definition max17048_write_word (reg value : Z) : M Z :=
  mutex_lock ;;
  c <- get_chip ;;
  if negb (shutdown_complete c =? 0) then
    mutex_unlock ;;
    ret (- ENODEV)
  else
    r <- smbus_write_word_data (to_u8 reg) (swab16 (to_u16 value)) ;;
    mutex_unlock ;;
    ret r.

Definition max17048_write_block (command length : Z) (values : list Z)
  : M Z :=
  mutex_lock ;;
  c <- get_chip ;;
  if negb (shutdown_complete c =? 0) then
    mutex_unlock ;;
    ret (- ENODEV)
  else
    r <- smbus_write_i2c_block_data (to_u8 command) (to_u8 length) values ;;
    mutex_unlock ;;
    ret r.

Definition max17048_read_word (reg : Z) : M Z :=
  mutex_lock ;;
  c <- get_chip ;;
  if negb (shutdown_complete c =? 0) then
    mutex_unlock ;;
    ret (- ENODEV)
  else
    r <- smbus_read_word_data (to_u8 reg) ;;
    if r <? 0 then
      mutex_unlock ;;
      ret r
    else
      mutex_unlock ;;
      ret (swab16 (to_u16 (Z.land r 0x0000ffff))).

(** *** State sampler *)

Definition max17048_get_vcell : M unit :=
  vcell_word <- max17048_read_word MAX17048_VCELL ;;
  if vcell_word <? 0 then ret tt
  else update (set_vcell (to_u16 (Z.quot (Z.shiftr vcell_word 4 * 125) 100))).

Definition max17048_get_soc : M unit :=
  c <- get_chip ;;
  let mdata := model_data (pdata c) in
  soc_word <- max17048_read_word MAX17048_SOC ;;
  (if soc_word <? 0 then ret tt
   else if bits mdata =? 18
        then update (set_internal_soc (Z.shiftr (to_u16 soc_word) 8))
        else update (set_internal_soc (Z.shiftr (to_u16 soc_word) 9))) ;;
  c <- get_chip ;;
  update (set_soc (internal_soc c)) ;;
  c <- get_chip ;;
  if internal_soc c >=? MAX17048_BATTERY_FULL then
    (if status_eqb (status c) POWER_SUPPLY_STATUS_CHARGING
     then update (set_status POWER_SUPPLY_STATUS_FULL)
     else ret tt) ;;
    update (set_soc MAX17048_BATTERY_FULL) ;;
    update (set_capacity_level POWER_SUPPLY_CAPACITY_LEVEL_FULL) ;;
    update (set_health POWER_SUPPLY_HEALTH_GOOD)
  else if soc c <? MAX17048_BATTERY_LOW then
    update (set_status (lasttime_status c)) ;;
    update (set_health POWER_SUPPLY_HEALTH_DEAD) ;;
    update (set_capacity_level POWER_SUPPLY_CAPACITY_LEVEL_CRITICAL)
  else
    update (set_status (lasttime_status c)) ;;
    update (set_health POWER_SUPPLY_HEALTH_GOOD) ;;
    update (set_capacity_level POWER_SUPPLY_CAPACITY_LEVEL_NORMAL).

(** The [for] loop of [max17048_set_current_threshold], started at index
    [i] with [n] iterations left: the threshold of the first entry that
    passes the test, where the loop breaks, or [None] when it runs out. *)
Fixpoint current_threshold_loop (p : max17048_platform_data)
  (isoc : Z) (n i : nat) : option Z :=
  match n with
  | O => None
  | S n' =>
      if (isoc <=? nth i (current_threshold_soc p) 0)
         && negb (nth i (current_threshold_tbl p) 0 =? 0)
      then Some (nth i (current_threshold_tbl p) 0)
      else current_threshold_loop p isoc n' (S i)
  end.

(** A call through the pointer [pdata->set_current_threshold]; the answer
    is an [s32]. *)
Definition call_set_current_threshold (callback : list event -> Z -> Z -> Z)
  (threshold min_cpu : Z) : M Z :=
  fun s =>
    let r := to_s32 (callback (trace s) threshold min_cpu) in
    Some (r, {| chip := chip s;
                trace := trace s ++
                  [SetCurrentThreshold threshold min_cpu r] |}).

Definition max17048_set_current_threshold : M unit :=
  c <- get_chip ;;
  let p := pdata c in
  match set_current_threshold p with
  | Some callback =>
      if negb (current_threshold_num p =? 0)
         && negb (current_normal p =? 0)
      then
        let found :=
          current_threshold_loop p (internal_soc c)
            (Z.to_nat (current_threshold_num p)) 0 in
        let min_cpu := match found with Some _ => 1 | None => 2 end in
        update (set_current_threshold_field
                  (match found with
                   | Some t => t
                   | None => current_normal p
                   end)) ;;
        c <- get_chip ;;
        if negb (current_threshold c =? lasttime_current_threshold c) then
          r <- call_set_current_threshold callback
                 (current_threshold c) min_cpu ;;
          if r <? 0 then ret tt
          else update (set_lasttime_current_threshold (current_threshold c))
        else ret tt
      else ret tt
  | None => ret tt
  end.

Fixpoint sysedp_throttle_loop (p : max17048_platform_data)
  (isoc : Z) (n i : nat) : option Z :=
  match n with
  | O => None
  | S n' =>
      if (isoc <=? nth i (sysedp_throttle_soc p) 0)
         && negb (nth i (sysedp_throttle_power p) 0 =? 0)
      then Some (nth i (sysedp_throttle_power p) 0)
      else sysedp_throttle_loop p isoc n' (S i)
  end.

Definition max17048_sysedp_throttle : M unit :=
  c <- get_chip ;;
  let p := pdata c in
  if sysedp_throttle p then
    let power :=
      match sysedp_throttle_loop p (internal_soc c)
              (Z.to_nat (sysedp_throttle_num p)) 0 with
      | Some w => w
      | None => to_u32 ULONG_MAX
      end in
    emit (SysedpThrottle power)
  else ret tt.

Definition max17048_get_version : M Z :=
  r <- max17048_read_word MAX17048_VER ;;
  ret (to_u16 r).

Definition max17048_thz_get_temp : M Z :=
  fun s =>
    Some (match therm_est E (trace s) with
          | Some t => t
          | None => 20000
          end,
          {| chip := chip s; trace := trace s ++ [ThermalZoneGetTemp] |}).

(** *** Thermal compensator *)

(** The value [max17048_update_rcomp] computes for [new_rcomp]. *)
Definition new_rcomp (mdata : max17048_battery_model) (temp : Z) : Z :=
  let curr_temp := temp in
  let hot_temp := t_co_hot mdata in
  let cold_temp := t_co_cold mdata in
  let hot_temp :=
    div64_s64 (to_s64 (to_s64 (curr_temp - 20000) * hot_temp)) 1000000 in
  let cold_temp :=
    div64_s64 (to_s64 (to_s64 (curr_temp - 20000) * cold_temp)) 1000000 in
  let new_rcomp :=
    if temp >? 20000 then to_s32 (rcomp mdata + to_s32 hot_temp)
    else if temp <? 20000 then to_s32 (rcomp mdata + to_s32 cold_temp)
    else rcomp mdata in
  if new_rcomp >? 0xFF then 0xFF
  else if new_rcomp <? 0 then 0
  else new_rcomp.

Definition max17048_update_rcomp (temp : Z) : M unit :=
  c <- get_chip ;;
  let mdata := model_data (pdata c) in
  let new_rcomp := new_rcomp mdata temp in
  val <- max17048_read_word MAX17048_CONFIG ;;
  if val <? 0 then ret tt
  else
    let val := Z.land val 0xFF in
    let val := Z.lor val (Z.shiftl new_rcomp 8) in
    r <- max17048_write_word MAX17048_CONFIG val ;;
    ret tt.

(** The last test of [max17048_work]: the change report against the
    shadow values. *)
Definition max17048_work_report : M unit :=
  c <- get_chip ;;
  if negb (soc c =? lasttime_soc c)
     || negb (status_eqb (status c) (lasttime_status c))
  then
    update (set_lasttime_soc (soc c)) ;;
    power_supply_changed
  else ret tt.

Definition max17048_work : M unit :=
  (if machine_is_tegratab E || machine_is_tegranote7c E then
     temp <- max17048_thz_get_temp ;;
     update (set_temperature temp)
   else ret tt) ;;
  c <- get_chip ;;
  (if abs_long (to_s32 (temperature c - lasttime_temperature c)) >=? 1500
   then
     update (set_lasttime_temperature (temperature c)) ;;
     max17048_update_rcomp (temperature c) ;;
     power_supply_changed
   else ret tt) ;;
  max17048_get_vcell ;;
  max17048_get_soc ;;
  max17048_set_current_threshold ;;
  max17048_sysedp_throttle ;;
  c <- get_chip ;;
  (if temperature c >? MAX17048_BATTERY_HOT then
     update (set_health POWER_SUPPLY_HEALTH_OVERHEAT) ;;
     power_supply_changed
   else if temperature c <? MAX17048_BATTERY_COLD then
     update (set_health POWER_SUPPLY_HEALTH_COLD) ;;
     power_supply_changed
   else ret tt) ;;
  max17048_work_report ;;
  emit (ScheduleDelayedWork MAX17048_DELAY).

(** *** Model loader and initialization *)

Definition max17048_write_rcomp_seg (rcomp_seg : Z) : M Z :=
  let rs1 := to_u8 (Z.land (Z.shiftr rcomp_seg 8) 0xff) in
  let rs2 := to_u8 (Z.land rcomp_seg 0xff) in
  let rcomp_seg_table :=
    [rs1; rs2; rs1; rs2; rs1; rs2; rs1; rs2;
     rs1; rs2; rs1; rs2; rs1; rs2; rs1; rs2] in
  r <- max17048_write_block MAX17048_RCOMPSEG1 16 rcomp_seg_table ;;
  if r <? 0 then ret r
  else
    r <- max17048_write_block MAX17048_RCOMPSEG2 16 rcomp_seg_table ;;
    if r <? 0 then ret r
    else ret 0.

(** The [for] loop that writes the four blocks of the model table, with
    [n] iterations left at index [i]; [false] when a write failed and the
    function leaves with [-1]. *)
Fixpoint write_model_data_loop (mdata : max17048_battery_model)
  (n : nat) (i : Z) : M bool :=
  match n with
  | O => ret true
  | S n' =>
      r <- max17048_write_block (MAX17048_TABLE + i * 16) 16
             (firstn 16 (skipn (Z.to_nat (i * 0x10)) (data_tbl mdata))) ;;
      if r <? 0 then ret false
      else write_model_data_loop mdata n' (i + 1)
  end.

Definition max17048_load_model_data : M Z :=
  c <- get_chip ;;
  let mdata := model_data (pdata c) in
  r <- max17048_read_word MAX17048_OCV ;;
  if r <? 0 then ret r
  else
    let ocv := to_u16 r in
    if ocv =? 0xffff then ret (-1)
    else
      written <- write_model_data_loop mdata 4 0 ;;
      if negb written then ret (-1)
      else
        r <- max17048_write_word MAX17048_OCV (ocvtest mdata) ;;
        if r <? 0 then ret r
        else
          r <- max17048_write_rcomp_seg (to_u16 (rcomp_seg mdata)) ;;
          if r <? 0 then ret r
          else
            r <- max17048_write_word MAX17048_HIBRT 0x0000 ;;
            if r <? 0 then ret r
            else
              r <- max17048_write_word MAX17048_UNLOCK 0x0000 ;;
              if r <? 0 then ret r
              else
                mdelay 200 ;;
                r <- max17048_read_word MAX17048_SOC ;;
                if r <? 0 then ret r
                else
                  let soc_tst := to_u16 r in
                  if negb ((Z.shiftr soc_tst 8 >=? soccheck_A mdata)
                           && (Z.shiftr soc_tst 8 <=? soccheck_B mdata))
                  then ret r
                  else
                    r <- max17048_write_word MAX17048_UNLOCK
                           MAX17048_UNLOCK_VALUE ;;
                    if r <? 0 then ret r
                    else
                      r <- max17048_write_word MAX17048_OCV ocv ;;
                      if r <? 0 then ret r
                      else ret r.

(** [max17048_initialize] keeps every intermediate result in a local
    [uint8_t ret]; the conversions are the [to_u8] below. *)
Definition max17048_initialize : M Z :=
  c <- get_chip ;;
  let mdata := model_data (pdata c) in
  let config := 0 in
  r <- max17048_write_word MAX17048_UNLOCK MAX17048_UNLOCK_VALUE ;;
  let r := to_u8 r in
  if r <? 0 then ret r
  else
    r <- max17048_load_model_data ;;
    let r := to_u8 r in
    if r <? 0 then ret r
    else
      let config :=
        if bits mdata =? 19 then to_u8 (32 - alert_threshold mdata * 2)
        else if bits mdata =? 18 then to_u8 (32 - alert_threshold mdata)
        else config in
      let config := to_u8 (Z.lor (one_percent_alerts mdata) config) in
      r <- max17048_write_word MAX17048_CONFIG
             (Z.lor (Z.shiftl (rcomp mdata) 8) config) ;;
      let r := to_u8 r in
      if r <? 0 then ret r
      else
        r <- max17048_write_word MAX17048_VALRT (valert mdata) ;;
        let r := to_u8 r in
        if r <? 0 then ret r
        else
          r <- max17048_write_word MAX17048_VRESET (vreset mdata) ;;
          let r := to_u8 r in
          if r <? 0 then ret r
          else
            r <- max17048_write_word MAX17048_UNLOCK 0x0000 ;;
            let r := to_u8 r in
            if r <? 0 then ret r
            else
              mdelay 200 ;;
              ret 0.

(** *** Alert handler *)

(** The part of [max17048_irq] from the label [clear_irq] on. *)
Definition max17048_irq_clear_irq : M Z :=
  r <- max17048_read_word MAX17048_CONFIG ;;
  let val := to_u16 r in
  if val <? 0 then ret IRQ_HANDLED
  else
    let val := to_u16 (Z.land val (Z.lnot MAX17048_CONFIG_ALRT)) in
    r <- max17048_write_word MAX17048_CONFIG val ;;
    ret IRQ_HANDLED.

(** The three branches of [max17048_irq] that change the driver context:
    voltage low, SOC low and 1% SOC change. *)
Definition max17048_irq_status_vl (mdata : max17048_battery_model)
  : M unit :=
  update (set_soc 0) ;;
  c <- get_chip ;;
  update (set_lasttime_soc (soc c)) ;;
  update (set_status (lasttime_status c)) ;;
  update (set_health POWER_SUPPLY_HEALTH_DEAD) ;;
  update (set_capacity_level POWER_SUPPLY_CAPACITY_LEVEL_CRITICAL) ;;
  power_supply_changed ;;
  let valrt := to_u16 (Z.land (valert mdata) 0x00FF) in
  r <- max17048_write_word MAX17048_VALRT valrt ;;
  ret tt.

Definition max17048_irq_status_hd : M unit :=
  max17048_get_vcell ;;
  max17048_get_soc ;;
  c <- get_chip ;;
  update (set_lasttime_soc (soc c)) ;;
  power_supply_changed.

Definition max17048_irq_status_sc (mdata : max17048_battery_model)
  : M unit :=
  max17048_get_vcell ;;
  max17048_get_soc ;;
  max17048_set_current_threshold ;;
  max17048_sysedp_throttle ;;
  c <- get_chip ;;
  update (set_lasttime_soc (soc c)) ;;
  power_supply_changed ;;
  c <- get_chip ;;
  if internal_soc c >=? 1 then
    r <- max17048_write_word MAX17048_VALRT (valert mdata) ;;
    ret tt
  else ret tt.

(** [max17048_irq] past its first test: the flags of the status word
    [val] in the order of the source (the flags RI, VH, VR and ENVR are
    only logged), then the clearing of the status register and of the
    alert bit. *)
Definition max17048_irq_dispatch (mdata : max17048_battery_model)
  (val : Z) : M Z :=
  (if negb (Z.land val MAX17048_STATUS_VL =? 0)
   then max17048_irq_status_vl mdata else ret tt) ;;
  (if negb (Z.land val MAX17048_STATUS_HD =? 0)
   then max17048_irq_status_hd else ret tt) ;;
  (if negb (Z.land val MAX17048_STATUS_SC =? 0)
   then max17048_irq_status_sc mdata else ret tt) ;;
  r <- max17048_write_word MAX17048_STATUS 0x0000 ;;
  max17048_irq_clear_irq.

(** The status word is kept in a local [u16 val]. *)
Definition max17048_irq : M Z :=
  c <- get_chip ;;
  let mdata := model_data (pdata c) in
  r <- max17048_read_word MAX17048_STATUS ;;
  let val := to_u16 r in
  if val <? 0 then max17048_irq_clear_irq
  else max17048_irq_dispatch mdata val.

(** *** Shutdown *)

Definition max17048_shutdown (client_irq : Z) : M unit :=
  c <- get_chip ;;
  let mdata := model_data (pdata c) in
  val <- max17048_read_word MAX17048_CONFIG ;;
  (if val <? 0 then ret tt
   else
     let val := Z.land val 0xFF in
     let val := Z.lor val (Z.shiftl (rcomp mdata) 8) in
     r <- max17048_write_word MAX17048_CONFIG val ;;
     ret tt) ;;
  (if negb (client_irq =? 0) then emit DisableIrq else ret tt) ;;
  emit CancelDelayedWorkSync ;;
  mutex_lock ;;
  update (set_shutdown_complete 1) ;;
  mutex_unlock.

(** *** Property queries *)

(** [max17048_get_ocv]: the open-circuit voltage in microvolts, read with
    the model unlocked. *)
Definition max17048_get_ocv : M Z :=
  r <- max17048_write_word MAX17048_UNLOCK MAX17048_UNLOCK_VALUE ;;
  if negb (r =? 0) then ret r
  else
    reg <- max17048_read_word MAX17048_OCV ;;
    let ocv := to_s32 (Z.shiftr reg 4 * 1250) in
    r <- max17048_write_word MAX17048_UNLOCK 0 ;;
    ret ocv.

(** [max17048_get_property]: the return value and what it stored in
    [val->intval], if anything. *)
Definition max17048_get_property (psp : power_supply_property)
  : M (Z * option Z) :=
  c <- get_chip ;;
  match psp with
  | POWER_SUPPLY_PROP_TECHNOLOGY =>
      ret (0, Some POWER_SUPPLY_TECHNOLOGY_LION)
  | POWER_SUPPLY_PROP_STATUS => ret (0, Some (status_value (status c)))
  | POWER_SUPPLY_PROP_VOLTAGE_NOW => ret (0, Some (to_s32 (vcell c * 1000)))
  | POWER_SUPPLY_PROP_CAPACITY => ret (0, Some (soc c))
  | POWER_SUPPLY_PROP_HEALTH => ret (0, Some (health_value (health c)))
  | POWER_SUPPLY_PROP_CAPACITY_LEVEL =>
      ret (0, Some (capacity_level_value (capacity_level c)))
  | POWER_SUPPLY_PROP_VOLTAGE_OCV =>
      ocv <- max17048_get_ocv ;;
      ret (0, Some ocv)
  | POWER_SUPPLY_PROP_TEMP =>
      ret (0, Some (to_s32 (Z.quot (temperature c) 100)))
  | POWER_SUPPLY_PROP_TEMP_AMBIENT =>
      ret (0, Some (to_s32 (Z.quot (temperature c) 100)))
  | POWER_SUPPLY_PROP_OTHER => ret (- EINVAL, None)
  end.

(** *** Suspend and resume *)

(** [device_may_wakeup] is the argument [may_wakeup]. *)
Definition max17048_suspend (may_wakeup : bool)
  : M (Z * list irq_wake_call) :=
  c <- get_chip ;;
  let mdata := model_data (pdata c) in
  (if negb (one_percent_alerts mdata =? 0) then
     r <- max17048_read_word MAX17048_CONFIG ;;
     let val := to_u16 r in
     if val <? 0 then ret tt
     else
       let val :=
         to_u16 (Z.land val (Z.lnot (one_percent_alerts mdata))) in
       r <- max17048_write_word MAX17048_CONFIG val ;;
       ret tt
   else ret tt) ;;
  let wake := if may_wakeup then [EnableIrqWake] else [] in
  emit CancelDelayedWorkSync ;;
  r <- max17048_write_word MAX17048_HIBRT 0xffff ;;
  if r <? 0 then ret (r, wake)
  else ret (0, wake).

Definition max17048_resume (may_wakeup : bool)
  : M (Z * list irq_wake_call) :=
  c <- get_chip ;;
  let mdata := model_data (pdata c) in
  r <- max17048_write_word MAX17048_HIBRT (hibernate mdata) ;;
  if r <? 0 then ret (r, [])
  else
    emit (ScheduleDelayedWork MAX17048_DELAY) ;;
    let wake := if may_wakeup then [DisableIrqWake] else [] in
    (if negb (one_percent_alerts mdata =? 0) then
       r <- max17048_read_word MAX17048_CONFIG ;;
       let val := to_u16 r in
       if val <? 0 then ret tt
       else
         let val := to_u16 (Z.lor val (one_percent_alerts mdata)) in
         r <- max17048_write_word MAX17048_CONFIG val ;;
         ret tt
     else ret tt) ;;
    ret (0, wake).

(** *** Global entry points *)

(** The module-wide pointer [max17048_data] ([None] when it is [NULL])
    together with the history of the outside world. *)
Record driver : Type := {
  max17048_data : option max17048_chip;
  history : list event
}.

(** [progress] is the enumerator of the charger interface the source
    compares its argument [status] with. *)
Definition max17048_battery_status (progress status_arg : Z) (d : driver)
  : driver :=
  match max17048_data d with
  | None => d
  | Some c =>
      let c := if status_arg =? progress
               then set_status POWER_SUPPLY_STATUS_CHARGING c
               else set_status POWER_SUPPLY_STATUS_DISCHARGING c in
      {| max17048_data := Some (set_lasttime_status (status c) c);
         history := history d ++ [PowerSupplyChanged] |}
  end.

Definition max17048_check_vcell (d : driver) : Z * driver :=
  match max17048_data d with
  | None => (-1, d)
  | Some c => (vcell c, d)
  end.

Definition max17048_check_soc (d : driver) : Z * driver :=
  match max17048_data d with
  | None => (-1, d)
  | Some c => (internal_soc c, d)
  end.

Definition max17048_check_battery (d : driver) : option (Z * driver) :=
  match max17048_data d with
  | None => Some (- ENODEV, d)
  | Some c =>
      match max17048_get_version {| chip := c; trace := history d |} with
      | None => None
      | Some (version, s) =>
          Some (if negb (version =? MAX17048_VERSION_NO_11)
                   && negb (version =? MAX17048_VERSION_NO_12)
                then - ENODEV
                else 0,
                {| max17048_data := Some (chip s); history := trace s |})
      end
  end.

End Driver.

(** ** Concrete boards used to exercise the driver *)

(** An adapter whose word reads answer with [reads reg] (as the wire
    carries it, low byte first), whose writes all answer [wret], on a
    board of kind tegratab whose thermal zone reports [temp]. *)
Definition board (reads : Z -> Z) (wret : Z) (temp : option Z)
  : environment :=
  {| i2c_smbus_read_word_data := fun _ reg => reads reg;
     i2c_smbus_write_word_data := fun _ _ _ => wret;
     i2c_smbus_write_i2c_block_data := fun _ _ _ _ => wret;
     machine_is_tegratab := true;
     machine_is_tegranote7c := false;
     therm_est := fun _ => temp |}.

Definition sample_model : max17048_battery_model :=
  {| rcomp := 105; soccheck_A := 240; soccheck_B := 242; bits := 19;
     alert_threshold := 4; one_percent_alerts := 0x40;
     rcomp_seg := 0x0080; hibernate := 0x3080; vreset := 0x3c00;
     valert := 0x96D7; ocvtest := 55952;
     t_co_hot := -1125; t_co_cold := -5825;
     data_tbl := repeat 0xAA 64 |}.

Definition sample_pdata : max17048_platform_data :=
  {| model_data := sample_model;
     set_current_threshold := Some (fun _ _ _ => 0);
     current_normal := 1200;
     current_threshold_num := 2;
     current_threshold_soc := [30; 60];
     current_threshold_tbl := [500; 900];
     sysedp_throttle := true;
     sysedp_throttle_num := 2;
     sysedp_throttle_soc := [30; 60];
     sysedp_throttle_power := [500; 900] |}.

(** The driver context as [max17048_probe] leaves it before the first
    sampling pass. *)
Definition sample_chip : max17048_chip :=
  {| pdata := sample_pdata; vcell := 0; soc := 0;
     status := POWER_SUPPLY_STATUS_DISCHARGING;
     health := POWER_SUPPLY_HEALTH_UNKNOWN;
     capacity_level := POWER_SUPPLY_CAPACITY_LEVEL_UNKNOWN;
     temperature := 0; current_threshold := 1200; internal_soc := 0;
     lasttime_soc := 0; lasttime_status := POWER_SUPPLY_STATUS_DISCHARGING;
     lasttime_temperature := 0; lasttime_current_threshold := 1200;
     shutdown_complete := 0; mutex := false |}.

Definition sample_state : state := {| chip := sample_chip; trace := [] |}.

(** The boards of the examples: every write succeeds and a register reads
    the word that [registers] lists for it, [0x0000] when it lists none. *)
Fixpoint register_value (registers : list (Z * Z)) (reg : Z) : Z :=
  match registers with
  | [] => 0
  | (reg', word) :: rest =>
      if reg =? reg' then word else register_value rest reg
  end.

Definition registers_board (registers : list (Z * Z)) : environment :=
  board (fun reg => swab16 (register_value registers reg)) 0 None.

Definition soc_board (soc_word : Z) : environment :=
  registers_board [(MAX17048_SOC, soc_word)].

(** A board whose adapter fails every transaction with [-EIO]. *)
Definition failing_board : environment :=
  board (fun _ => - EIO) (- EIO) None.

(** A context that the charger interface has reported as charging. *)
Definition charging_chip : max17048_chip :=
  set_lasttime_status POWER_SUPPLY_STATUS_CHARGING
    (set_status POWER_SUPPLY_STATUS_CHARGING sample_chip).

Definition charging_state : state := {| chip := charging_chip; trace := [] |}.

(** The configuration of [sample_pdata] with no normal threshold. *)
Definition pdata_without_normal : max17048_platform_data :=
  {| model_data := sample_model;
     set_current_threshold := Some (fun _ _ _ => 0);
     current_normal := 0;
     current_threshold_num := 2;
     current_threshold_soc := [30; 60];
     current_threshold_tbl := [500; 900];
     sysedp_throttle := true;
     sysedp_throttle_num := 2;
     sysedp_throttle_soc := [30; 60];
     sysedp_throttle_power := [500; 900] |}.

(** A context with internal charge state [isoc] under configuration [p],
    its threshold and shadow threshold at [threshold]. *)
Definition chip_at (p : max17048_platform_data) (isoc threshold : Z)
  : max17048_chip :=
  {| pdata := p; vcell := 0; soc := isoc;
     status := POWER_SUPPLY_STATUS_DISCHARGING;
     health := POWER_SUPPLY_HEALTH_GOOD;
     capacity_level := POWER_SUPPLY_CAPACITY_LEVEL_NORMAL;
     temperature := 0; current_threshold := threshold;
     internal_soc := isoc; lasttime_soc := isoc;
     lasttime_status := POWER_SUPPLY_STATUS_DISCHARGING;
     lasttime_temperature := 0; lasttime_current_threshold := threshold;
     shutdown_complete := 0; mutex := false |}.

Definition state_at (p : max17048_platform_data) (isoc threshold : Z)
  : state :=
  {| chip := chip_at p isoc threshold; trace := [] |}.

(** The context after [max17048_shutdown]. *)
Definition shutdown_state : state :=
  {| chip := set_shutdown_complete 1 sample_chip; trace := [] |}.

(** A model whose hot coefficient is the least [int], on a context that
    is otherwise [sample_chip]. *)
Definition steep_model : max17048_battery_model :=
  {| rcomp := 100; soccheck_A := 240; soccheck_B := 242; bits := 19;
     alert_threshold := 4; one_percent_alerts := 0x40;
     rcomp_seg := 0x0080; hibernate := 0x3080; vreset := 0x3c00;
     valert := 0x96D7; ocvtest := 55952;
     t_co_hot := - 2147483648; t_co_cold := -5825;
     data_tbl := repeat 0xAA 64 |}.

Definition steep_state : state :=
  {| chip := chip_at
               {| model_data := steep_model;
                  set_current_threshold := None;
                  current_normal := 0;
                  current_threshold_num := 0;
                  current_threshold_soc := [];
                  current_threshold_tbl := [];
                  sysedp_throttle := false;
                  sysedp_throttle_num := 0;
                  sysedp_throttle_soc := [];
                  sysedp_throttle_power := [] |} 50 0;
     trace := [] |}.

(** What a run returned and what it did to the outside world. *)
Definition outcome {A : Type} (o : option (A * state))
  : option (A * list event) :=
  match o with
  | Some (a, s) => Some (a, trace s)
  | None => None
  end.

(** ** Specification vocabulary *)

(** [steady s s']: a run from [s] to [s'] has released the mutex, kept the
    shutdown flag, the configuration and the shadow status, and has only
    added events to the trace. *)
Definition steady (s s' : state) : Prop :=
  mutex (chip s') = false /\
  shutdown_complete (chip s') = shutdown_complete (chip s) /\
  pdata (chip s') = pdata (chip s) /\
  lasttime_status (chip s') = lasttime_status (chip s) /\
  exists t, trace s' = trace s ++ t.

(** [runs m]: started with the mutex free, [m] returns, steadily. *)
Definition runs {A : Type} (m : M A) : Prop :=
  forall s, mutex (chip s) = false ->
    exists a s', m s = Some (a, s') /\ steady s s'.

(** [keeps f]: the field update [f] touches none of the fields that
    [steady] watches. *)
Definition keeps (f : max17048_chip -> max17048_chip) : Prop :=
  forall c, mutex (f c) = mutex c /\
            shutdown_complete (f c) = shutdown_complete c /\
            pdata (f c) = pdata c /\
            lasttime_status (f c) = lasttime_status c.

(** The register word that a word on the wire stands for. *)
Definition register_word (wire : Z) : Z := swab16 wire.

Definition clamp (x lo hi : Z) : Z :=
  if x >? hi then hi else if x <? lo then lo else x.

(** The compensation of the thermal compensator as the specification
    words it, over unbounded integers: the hot coefficient above 20 degrees,
    the cold one below, no change at exactly 20 degrees. *)
Definition spec_delta (coefficient_hot coefficient_cold temp : Z) : Z :=
  if temp >? 20000 then Z.quot ((temp - 20000) * coefficient_hot) 1000000
  else if temp <? 20000
       then Z.quot ((temp - 20000) * coefficient_cold) 1000000
       else 0.

Definition spec_rcomp (mdata : max17048_battery_model) (temp : Z) : Z :=
  clamp (rcomp mdata + spec_delta (t_co_hot mdata) (t_co_cold mdata) temp)
    0 255.

(** The current-threshold table of a configuration as a sequence of
    (SOC bound, threshold) pairs, and the selection as the specification
    words it: the threshold of the first pair whose bound is at least the
    charge state and whose threshold is not zero, else the normal one. *)
Definition threshold_table (p : max17048_platform_data) : list (Z * Z) :=
  combine
    (firstn (Z.to_nat (current_threshold_num p)) (current_threshold_soc p))
    (firstn (Z.to_nat (current_threshold_num p)) (current_threshold_tbl p)).

Definition threshold_matches (isoc : Z) (entry : Z * Z) : bool :=
  (isoc <=? fst entry) && negb (snd entry =? 0).

Definition spec_selected_threshold (table : list (Z * Z)) (normal isoc : Z)
  : Z :=
  match find (threshold_matches isoc) table with
  | Some entry => snd entry
  | None => normal
  end.

(** The priority hint handed to the callback with the selection. *)
Definition spec_min_cpu (table : list (Z * Z)) (isoc : Z) : Z :=
  match find (threshold_matches isoc) table with
  | Some _ => 1
  | None => 2
  end.

(** The policy is in force when the callback, the table length and the
    normal threshold are all set. *)
Definition threshold_policy_enabled (p : max17048_platform_data) : bool :=
  match set_current_threshold p with
  | Some _ =>
      negb (current_threshold_num p =? 0) && negb (current_normal p =? 0)
  | None => false
  end.

(** ** Reasoning about runs *)

(** [triple P m Q]: started with the mutex free in a state that satisfies
    [P], the program [m] returns, with the mutex free, in a state that
    satisfies [Q]. *)
Definition triple {A : Type} (P : state -> Prop) (m : M A)
  (Q : state -> Prop) : Prop :=
  forall s, mutex (chip s) = false -> P s ->
    exists a s', m s = Some (a, s') /\ mutex (chip s') = false /\ Q s'.

(** An invariant of the driver context alone that no transport call can
    disturb: it does not look at the mutex. *)
Definition on_chip (P : max17048_chip -> Prop) (s : state) : Prop :=
  P (chip s).

Definition is_bus_event (e : event) : bool :=
  match e with
  | I2cReadWord _ _ | I2cWriteWord _ _ _ | I2cWriteBlock _ _ _ _ => true
  | _ => false
  end.

(** [behind_fence t0 s]: the shutdown flag is set and the trace of [s] is
    [t0] followed by events none of which is a bus transaction. *)
Definition behind_fence (t0 : list event) (s : state) : Prop :=
  shutdown_complete (chip s) <> 0 /\
  exists t, trace s = t0 ++ t /\ existsb is_bus_event t = false.

(** The reported charge is a percentage and the internal charge state is
    not negative. *)
Definition soc_in_range (c : max17048_chip) : Prop :=
  0 <= internal_soc c /\ 0 <= soc c <= 100.

(** The health and the capacity level that [max17048_get_soc] derives
    from an internal charge state. *)
Definition derived_health (isoc : Z) : power_supply_health :=
  if isoc <? MAX17048_BATTERY_LOW then POWER_SUPPLY_HEALTH_DEAD
  else POWER_SUPPLY_HEALTH_GOOD.

Definition derived_capacity_level (isoc : Z) : power_supply_capacity_level :=
  if isoc >=? MAX17048_BATTERY_FULL then POWER_SUPPLY_CAPACITY_LEVEL_FULL
  else if isoc <? MAX17048_BATTERY_LOW
       then POWER_SUPPLY_CAPACITY_LEVEL_CRITICAL
       else POWER_SUPPLY_CAPACITY_LEVEL_NORMAL.

(** [bus_silent m]: behind the fence, [m] still returns and adds no bus
    transaction to the trace. *)
Definition bus_silent {A : Type} (m : M A) : Prop :=
  forall s, mutex (chip s) = false -> shutdown_complete (chip s) <> 0 ->
    exists a s' t,
      m s = Some (a, s') /\ trace s' = trace s ++ t /\
      existsb is_bus_event t = false.

(** The throttle table of a configuration as a sequence of (SOC bound,
    power) pairs cut to its declared length, and the power the scan selects:
    that of the first pair whose bound is at least the charge state and
    whose power is not zero, else no limit. *)
Definition throttle_table (p : max17048_platform_data) : list (Z * Z) :=
  combine
    (firstn (Z.to_nat (sysedp_throttle_num p)) (sysedp_throttle_soc p))
    (firstn (Z.to_nat (sysedp_throttle_num p)) (sysedp_throttle_power p)).

Definition selected_power (table : list (Z * Z)) (isoc : Z) : Z :=
  match find (threshold_matches isoc) table with
  | Some entry => snd entry
  | None => 2 ^ 32 - 1
  end.

Definition is_rearm (e : event) : bool :=
  match e with
  | ScheduleDelayedWork _ => true
  | _ => false
  end.

(** [since t0 test s]: the trace of [s] is [t0] followed by events that
    all fail [test]. *)
Definition since (t0 : list event) (test : event -> bool) (s : state)
  : Prop :=
  exists t, trace s = t0 ++ t /\ existsb test t = false.

(** The temperature a sampling pass works with: the answer of the thermal
    zone on the two boards that have one (20 degrees when the zone fails),
    the stored temperature elsewhere. *)
Definition pass_temperature (E : environment) (s : state) : Z :=
  if machine_is_tegratab E || machine_is_tegranote7c E
  then match therm_est E (trace s) with
       | Some t => t
       | None => 20000
       end
  else temperature (chip s).

(** The health a sampling pass ends with. *)
Definition pass_health (temp isoc : Z) : power_supply_health :=
  if temp >? MAX17048_BATTERY_HOT then POWER_SUPPLY_HEALTH_OVERHEAT
  else if temp <? MAX17048_BATTERY_COLD then POWER_SUPPLY_HEALTH_COLD
       else derived_health isoc.

(** The bus transactions that touch the config register. *)
Definition is_config_access (e : event) : bool :=
  match e with
  | I2cReadWord reg _ | I2cWriteWord reg _ _ => reg =? MAX17048_CONFIG
  | _ => false
  end.

(** ** Transport and arithmetic lemmas *)

Lemma to_u8_range (x : Z) : 0 <= to_u8 x < 256.
Proof. unfold to_u8. apply Z.mod_pos_bound. reflexivity. Qed.

Lemma to_u16_range (x : Z) : 0 <= to_u16 x < 65536.
Proof. unfold to_u16. apply Z.mod_pos_bound. reflexivity. Qed.

Lemma to_u8_ltb0 (x : Z) : (to_u8 x <? 0) = false.
Proof. apply Z.ltb_ge. apply to_u8_range. Qed.

Lemma to_u16_ltb0 (x : Z) : (to_u16 x <? 0) = false.
Proof. apply Z.ltb_ge. apply to_u16_range. Qed.

Lemma to_u16_small (x : Z) : 0 <= x < 65536 -> to_u16 x = x.
Proof. intros H. unfold to_u16. apply Z.mod_small. exact H. Qed.

Lemma to_s32_small (x : Z) : - 2 ^ 31 <= x < 2 ^ 31 -> to_s32 x = x.
Proof.
  intros H. unfold to_s32. rewrite Z.mod_small; lia.
Qed.

Lemma to_s64_small (x : Z) : - 2 ^ 63 <= x < 2 ^ 63 -> to_s64 x = x.
Proof.
  intros H. unfold to_s64. rewrite Z.mod_small; lia.
Qed.

Lemma status_eqb_eq (a b : power_supply_status) :
  status_eqb a b = true <-> a = b.
Proof. destruct a, b; simpl; split; congruence. Qed.

Lemma status_eqb_refl (a : power_supply_status) : status_eqb a a = true.
Proof. destruct a; reflexivity. Qed.

Lemma bind_some {A B : Type} (m : M A) (k : A -> M B) s a s' :
  m s = Some (a, s') -> bind m k s = k a s'.
Proof. intros H. unfold bind. rewrite H. reflexivity. Qed.

Lemma bind_inv {A B : Type} (m : M A) (k : A -> M B) s b s'' :
  bind m k s = Some (b, s'') ->
  exists a s', m s = Some (a, s') /\ k a s' = Some (b, s'').
Proof.
  unfold bind. destruct (m s) as [[a s']|]; [|discriminate].
  intros H. exists a, s'. split; [reflexivity|exact H].
Qed.

Lemma steady_refl s : mutex (chip s) = false -> steady s s.
Proof.
  intros H. unfold steady. repeat split; try assumption.
  exists []. rewrite app_nil_r. reflexivity.
Qed.

Lemma steady_trans s1 s2 s3 : steady s1 s2 -> steady s2 s3 -> steady s1 s3.
Proof.
  intros (_ & H2 & H3 & H4 & t & H5) (K1 & K2 & K3 & K4 & u & K5).
  unfold steady. repeat split; try congruence.
  exists (t ++ u). rewrite K5, H5, app_assoc. reflexivity.
Qed.

Lemma runs_ret {A : Type} (a : A) : runs (ret a).
Proof.
  intros s H. exists a, s. split; [reflexivity|apply steady_refl; exact H].
Qed.

Lemma runs_bind {A B : Type} (m : M A) (k : A -> M B) :
  runs m -> (forall a, runs (k a)) -> runs (bind m k).
Proof.
  intros Hm Hk s H.
  destruct (Hm s H) as (a & s1 & E1 & S1).
  destruct (Hk a s1 (proj1 S1)) as (b & s2 & E2 & S2).
  exists b, s2. split.
  - rewrite (bind_some _ _ _ _ _ E1). exact E2.
  - eapply steady_trans; eassumption.
Qed.

Lemma runs_get_chip : runs get_chip.
Proof.
  intros s H. exists (chip s), s. split; [reflexivity|].
  apply steady_refl; exact H.
Qed.

Lemma runs_update f : keeps f -> runs (update f).
Proof.
  intros Hf s H. destruct (Hf (chip s)) as (F1 & F2 & F3 & F4).
  eexists tt, _. split; [reflexivity|].
  unfold steady; simpl. repeat split; try congruence.
  exists []. rewrite app_nil_r. reflexivity.
Qed.

Lemma runs_emit e : runs (emit e).
Proof.
  intros s H. eexists tt, _. split; [reflexivity|].
  unfold steady; simpl. repeat split; try assumption.
  exists [e]. reflexivity.
Qed.

Lemma runs_if {A : Type} (b : bool) (m1 m2 : M A) :
  runs m1 -> runs m2 -> runs (if b then m1 else m2).
Proof. destruct b; auto. Qed.

Lemma keeps_set_vcell v : keeps (set_vcell v).
Proof. intros c; repeat split. Qed.
Lemma keeps_set_soc v : keeps (set_soc v).
Proof. intros c; repeat split. Qed.
Lemma keeps_set_status v : keeps (set_status v).
Proof. intros c; repeat split. Qed.
Lemma keeps_set_health v : keeps (set_health v).
Proof. intros c; repeat split. Qed.
Lemma keeps_set_capacity_level v : keeps (set_capacity_level v).
Proof. intros c; repeat split. Qed.
Lemma keeps_set_temperature v : keeps (set_temperature v).
Proof. intros c; repeat split. Qed.
Lemma keeps_set_current_threshold_field v :
  keeps (set_current_threshold_field v).
Proof. intros c; repeat split. Qed.
Lemma keeps_set_internal_soc v : keeps (set_internal_soc v).
Proof. intros c; repeat split. Qed.
Lemma keeps_set_lasttime_soc v : keeps (set_lasttime_soc v).
Proof. intros c; repeat split. Qed.
Lemma keeps_set_lasttime_temperature v : keeps (set_lasttime_temperature v).
Proof. intros c; repeat split. Qed.
Lemma keeps_set_lasttime_current_threshold v :
  keeps (set_lasttime_current_threshold v).
Proof. intros c; repeat split. Qed.

Create HintDb drv discriminated.
#[local] Hint Resolve runs_ret runs_get_chip runs_emit runs_update
  keeps_set_vcell keeps_set_soc keeps_set_status keeps_set_health
  keeps_set_capacity_level keeps_set_temperature
  keeps_set_current_threshold_field keeps_set_internal_soc
  keeps_set_lasttime_soc keeps_set_lasttime_temperature
  keeps_set_lasttime_current_threshold : drv.

(** Breaks a [runs] goal down along the structure of the program. *)
Ltac runs_tac :=
  repeat first
    [ solve [auto with drv]
    | match goal with
      | |- runs (bind _ _) => apply runs_bind; [|intros ?]
      | |- runs (if _ then _ else _) => apply runs_if
      | |- runs (match ?x with _ => _ end) => destruct x
      | |- runs (let _ := _ in _) => cbv zeta
      end ].

(** One step of a program that [runs]. *)
Ltac run_step R Hm a s' Heq Hst :=
  destruct (R _ Hm) as (a & s' & Heq & Hst);
  rewrite (bind_some _ _ _ _ _ Heq).

Section Properties.

Variable E : environment.

(** What a transport call does when the mutex is free: behind the fence
    nothing but the error; otherwise exactly one bus transaction, and the
    driver context is left as it was. *)
Lemma max17048_read_word_eq (reg : Z) (s : state) :
  mutex (chip s) = false ->
  max17048_read_word E reg s =
    if negb (shutdown_complete (chip s) =? 0) then Some (- ENODEV, s)
    else
      let r := to_s32 (i2c_smbus_read_word_data E (trace s) (to_u8 reg)) in
      Some (if r <? 0 then r else swab16 (to_u16 (Z.land r 0x0000ffff)),
            {| chip := chip s;
               trace := trace s ++ [I2cReadWord (to_u8 reg) r] |}).
Proof.
  destruct s as [c t]. destruct c. simpl. intros ->.
  unfold max17048_read_word, bind, mutex_lock, get_chip, mutex_unlock,
    update, smbus_read_word_data, ret; simpl.
  destruct (shutdown_complete0 =? 0); simpl; [|reflexivity].
  destruct (to_s32 (i2c_smbus_read_word_data E t (to_u8 reg)) <? 0);
    reflexivity.
Qed.

Lemma max17048_write_word_eq (reg value : Z) (s : state) :
  mutex (chip s) = false ->
  max17048_write_word E reg value s =
    if negb (shutdown_complete (chip s) =? 0) then Some (- ENODEV, s)
    else
      let data := swab16 (to_u16 value) in
      let r := to_s32 (i2c_smbus_write_word_data E (trace s) (to_u8 reg)
                         data) in
      Some (r, {| chip := chip s;
                  trace := trace s ++ [I2cWriteWord (to_u8 reg) data r] |}).
Proof.
  destruct s as [c t]. destruct c. simpl. intros ->.
  unfold max17048_write_word, bind, mutex_lock, get_chip, mutex_unlock,
    update, smbus_write_word_data, ret; simpl.
  destruct (shutdown_complete0 =? 0); reflexivity.
Qed.

Lemma max17048_write_block_eq (command length : Z) (values : list Z)
  (s : state) :
  mutex (chip s) = false ->
  max17048_write_block E command length values s =
    if negb (shutdown_complete (chip s) =? 0) then Some (- ENODEV, s)
    else
      let r := to_s32 (i2c_smbus_write_i2c_block_data E (trace s)
                         (to_u8 command) (to_u8 length) values) in
      Some (r, {| chip := chip s;
                  trace := trace s ++
                    [I2cWriteBlock (to_u8 command) (to_u8 length)
                       values r] |}).
Proof.
  destruct s as [c t]. destruct c. simpl. intros ->.
  unfold max17048_write_block, bind, mutex_lock, get_chip, mutex_unlock,
    update, smbus_write_i2c_block_data, ret; simpl.
  destruct (shutdown_complete0 =? 0); reflexivity.
Qed.

(** A transport call leaves the driver context alone and adds at most its
    own transaction to the trace. *)
Lemma max17048_read_word_frame reg s r s' :
  mutex (chip s) = false ->
  max17048_read_word E reg s = Some (r, s') ->
  chip s' = chip s /\ exists t, trace s' = trace s ++ t.
Proof.
  intros H. rewrite (max17048_read_word_eq reg s H).
  destruct (negb (shutdown_complete (chip s) =? 0)); cbv zeta;
    intros K; inversion K; subst; simpl; split; try reflexivity.
  - exists []. rewrite app_nil_r. reflexivity.
  - eexists. reflexivity.
Qed.

Lemma max17048_write_word_frame reg value s r s' :
  mutex (chip s) = false ->
  max17048_write_word E reg value s = Some (r, s') ->
  chip s' = chip s /\ exists t, trace s' = trace s ++ t.
Proof.
  intros H. rewrite (max17048_write_word_eq reg value s H).
  destruct (negb (shutdown_complete (chip s) =? 0)); cbv zeta;
    intros K; inversion K; subst; simpl; split; try reflexivity.
  - exists []. rewrite app_nil_r. reflexivity.
  - eexists. reflexivity.
Qed.

Lemma runs_max17048_read_word reg : runs (max17048_read_word E reg).
Proof.
  intros s H. rewrite (max17048_read_word_eq reg s H).
  destruct (negb (shutdown_complete (chip s) =? 0)); cbv zeta.
  - eexists _, _. split; [reflexivity|]. apply steady_refl; exact H.
  - eexists _, _. split; [reflexivity|].
    unfold steady; simpl. repeat split; try assumption.
    eexists. reflexivity.
Qed.

Lemma runs_max17048_write_word reg value :
  runs (max17048_write_word E reg value).
Proof.
  intros s H. rewrite (max17048_write_word_eq reg value s H).
  destruct (negb (shutdown_complete (chip s) =? 0)); cbv zeta.
  - eexists _, _. split; [reflexivity|]. apply steady_refl; exact H.
  - eexists _, _. split; [reflexivity|].
    unfold steady; simpl. repeat split; try assumption.
    eexists. reflexivity.
Qed.

Lemma runs_max17048_write_block command length values :
  runs (max17048_write_block E command length values).
Proof.
  intros s H. rewrite (max17048_write_block_eq command length values s H).
  destruct (negb (shutdown_complete (chip s) =? 0)); cbv zeta.
  - eexists _, _. split; [reflexivity|]. apply steady_refl; exact H.
  - eexists _, _. split; [reflexivity|].
    unfold steady; simpl. repeat split; try assumption.
    eexists. reflexivity.
Qed.

#[local] Hint Resolve runs_max17048_read_word runs_max17048_write_word
  runs_max17048_write_block : drv.

Lemma runs_max17048_get_vcell : runs (max17048_get_vcell E).
Proof. unfold max17048_get_vcell. runs_tac. Qed.

Lemma runs_max17048_get_soc : runs (max17048_get_soc E).
Proof. unfold max17048_get_soc, power_supply_changed. runs_tac. Qed.

Lemma runs_call_set_current_threshold callback threshold min_cpu :
  runs (call_set_current_threshold callback threshold min_cpu).
Proof.
  intros s H. eexists _, _. split; [reflexivity|].
  unfold steady; simpl. repeat split; try assumption.
  eexists. reflexivity.
Qed.

#[local] Hint Resolve runs_call_set_current_threshold : drv.

Lemma runs_max17048_set_current_threshold :
  runs max17048_set_current_threshold.
Proof. unfold max17048_set_current_threshold. runs_tac. Qed.

Lemma runs_max17048_sysedp_throttle : runs max17048_sysedp_throttle.
Proof. unfold max17048_sysedp_throttle. runs_tac. Qed.

Lemma runs_max17048_update_rcomp temp : runs (max17048_update_rcomp E temp).
Proof. unfold max17048_update_rcomp. runs_tac. Qed.

Lemma runs_max17048_thz_get_temp : runs (max17048_thz_get_temp E).
Proof.
  intros s H. eexists _, _. split; [reflexivity|].
  unfold steady; simpl. repeat split; try assumption.
  eexists. reflexivity.
Qed.

Lemma runs_max17048_work_report : runs max17048_work_report.
Proof. unfold max17048_work_report, power_supply_changed. runs_tac. Qed.

#[local] Hint Resolve runs_max17048_get_vcell runs_max17048_get_soc
  runs_max17048_set_current_threshold runs_max17048_sysedp_throttle
  runs_max17048_update_rcomp runs_max17048_thz_get_temp
  runs_max17048_work_report : drv.

(** A sampling pass always runs to its end and re-arms itself. *)
Lemma runs_max17048_work : runs (max17048_work E).
Proof. unfold max17048_work, power_supply_changed. runs_tac. Qed.

Lemma runs_max17048_write_rcomp_seg rcomp_seg :
  runs (max17048_write_rcomp_seg E rcomp_seg).
Proof. unfold max17048_write_rcomp_seg. runs_tac. Qed.

Lemma runs_write_model_data_loop mdata n :
  forall i, runs (write_model_data_loop E mdata n i).
Proof.
  induction n as [|n IH]; intros i; simpl.
  - apply runs_ret.
  - runs_tac.
Qed.

#[local] Hint Resolve runs_max17048_write_rcomp_seg
  runs_write_model_data_loop : drv.

Lemma runs_max17048_load_model_data : runs (max17048_load_model_data E).
Proof. unfold max17048_load_model_data, mdelay. runs_tac. Qed.

Lemma runs_max17048_irq_clear_irq : runs (max17048_irq_clear_irq E).
Proof. unfold max17048_irq_clear_irq. runs_tac. Qed.

Lemma runs_max17048_irq_status_vl mdata :
  runs (max17048_irq_status_vl E mdata).
Proof. unfold max17048_irq_status_vl, power_supply_changed. runs_tac. Qed.

Lemma runs_max17048_irq_status_hd : runs (max17048_irq_status_hd E).
Proof. unfold max17048_irq_status_hd, power_supply_changed. runs_tac. Qed.

Lemma runs_max17048_irq_status_sc mdata :
  runs (max17048_irq_status_sc E mdata).
Proof. unfold max17048_irq_status_sc, power_supply_changed. runs_tac. Qed.

#[local] Hint Resolve runs_max17048_load_model_data
  runs_max17048_irq_clear_irq runs_max17048_irq_status_vl
  runs_max17048_irq_status_hd runs_max17048_irq_status_sc : drv.

(** The alert handler always returns. *)
Lemma runs_max17048_irq_dispatch mdata val :
  runs (max17048_irq_dispatch E mdata val).
Proof. unfold max17048_irq_dispatch. runs_tac. Qed.

#[local] Hint Resolve runs_max17048_irq_dispatch : drv.

Lemma runs_max17048_irq : runs (max17048_irq E).
Proof. unfold max17048_irq. runs_tac. Qed.


(** Symbolic execution of the monadic primitives, leaving the arithmetic
    of the program untouched. *)
Ltac drv_step :=
  cbn [bind ret get_chip update emit power_supply_changed mdelay
       chip trace pdata vcell soc status health capacity_level temperature
       current_threshold internal_soc lasttime_soc lasttime_status
       lasttime_temperature lasttime_current_threshold shutdown_complete
       mutex set_vcell set_soc set_status set_health set_capacity_level
       set_temperature set_current_threshold_field set_internal_soc
       set_lasttime_soc set_lasttime_status set_lasttime_temperature
       set_lasttime_current_threshold set_shutdown_complete set_mutex].

(** C4: after a successful read of the charge-state register,
    [max17048_get_soc] derives the reported state from the internal charge
    state.  At 100 or more a charging status is promoted to full and any
    other status is left as it is, the reported charge is 100, the level is
    full and the health good.  Below 15 the status is restored from the
    shadow, the health is dead and the level critical.  Otherwise the status
    is restored from the shadow, the health is good and the level normal.
    In the last two cases the reported charge is the internal one. *)
Theorem max17048_get_soc_derived_state (s s1 : state) (r : Z) :
  mutex (chip s) = false ->
  max17048_read_word E MAX17048_SOC s = Some (r, s1) ->
  0 <= r ->
  exists s',
    max17048_get_soc E s = Some (tt, s') /\
    trace s' = trace s1 /\
    let c := chip s in
    let c' := chip s' in
    let isoc := if bits (model_data (pdata c)) =? 18
                then Z.shiftr (to_u16 r) 8
                else Z.shiftr (to_u16 r) 9 in
    internal_soc c' = isoc /\
    (100 <= isoc ->
       (status c = POWER_SUPPLY_STATUS_CHARGING ->
        status c' = POWER_SUPPLY_STATUS_FULL) /\
       (status c <> POWER_SUPPLY_STATUS_CHARGING -> status c' = status c) /\
       soc c' = 100 /\
       capacity_level c' = POWER_SUPPLY_CAPACITY_LEVEL_FULL /\
       health c' = POWER_SUPPLY_HEALTH_GOOD) /\
    (isoc < 15 ->
       status c' = lasttime_status c /\
       health c' = POWER_SUPPLY_HEALTH_DEAD /\
       capacity_level c' = POWER_SUPPLY_CAPACITY_LEVEL_CRITICAL /\
       soc c' = isoc) /\
    (15 <= isoc < 100 ->
       status c' = lasttime_status c /\
       health c' = POWER_SUPPLY_HEALTH_GOOD /\
       capacity_level c' = POWER_SUPPLY_CAPACITY_LEVEL_NORMAL /\
       soc c' = isoc).
Proof.
  intros Hm Hread Hr.
  destruct (max17048_read_word_frame _ _ _ _ Hm Hread) as [Hc _].
  unfold max17048_get_soc.
  unfold bind at 1. cbn [get_chip].
  rewrite (bind_some _ _ _ _ _ Hread).
  destruct (Z.ltb_spec r 0) as [?|_]; [lia|].
  destruct s1 as [c1 t1]. cbn [chip] in Hc. subst c1.
  set (isoc := if bits (model_data (pdata (chip s))) =? 18
               then Z.shiftr (to_u16 r) 8 else Z.shiftr (to_u16 r) 9).
  assert (Hstep :
    (if bits (model_data (pdata (chip s))) =? 18
     then update (set_internal_soc (Z.shiftr (to_u16 r) 8))
     else update (set_internal_soc (Z.shiftr (to_u16 r) 9)))
    = update (set_internal_soc isoc)).
  { unfold isoc. destruct (bits (model_data (pdata (chip s))) =? 18);
      reflexivity. }
  rewrite Hstep. clearbody isoc. clear Hstep.
  drv_step.
  unfold MAX17048_BATTERY_FULL, MAX17048_BATTERY_LOW.
  destruct (Z.geb_spec isoc 100) as [Hfull|Hfull].
  - destruct (status_eqb (status (chip s)) POWER_SUPPLY_STATUS_CHARGING)
      eqn:Hch; drv_step; eexists; (split; [reflexivity|]); drv_step;
      (split; [reflexivity|]); (split; [reflexivity|]);
      (split; [|split; intros; lia]); intros _; repeat split;
      try reflexivity.
    + intros K. apply status_eqb_eq in Hch. contradiction.
    + intros K. rewrite K in Hch. discriminate.
  - destruct (Z.ltb_spec isoc 15) as [Hlow|Hlow]; drv_step;
      eexists; (split; [reflexivity|]); drv_step;
      (split; [reflexivity|]); (split; [reflexivity|]);
      (split; [intros; lia|]); split; intros; try lia; repeat split.
Qed.

(** C3: in every state whose shutdown flag is set, [max17048_read_word],
    [max17048_write_word] and [max17048_write_block] return [-ENODEV]; the
    state they leave is the state they found, so the trace has no new bus
    transaction and the mutex is free again. *)
Theorem transport_fenced_after_shutdown (s : state) :
  mutex (chip s) = false ->
  shutdown_complete (chip s) <> 0 ->
  (forall reg, max17048_read_word E reg s = Some (- ENODEV, s)) /\
  (forall reg value,
      max17048_write_word E reg value s = Some (- ENODEV, s)) /\
  (forall command length values,
      max17048_write_block E command length values s
      = Some (- ENODEV, s)).
Proof.
  intros Hm Hs.
  assert (Hf : negb (shutdown_complete (chip s) =? 0) = true).
  { apply negb_true_iff. apply Z.eqb_neq. exact Hs. }
  repeat split; intros.
  - rewrite max17048_read_word_eq, Hf by exact Hm. reflexivity.
  - rewrite max17048_write_word_eq, Hf by exact Hm. reflexivity.
  - rewrite max17048_write_block_eq, Hf by exact Hm. reflexivity.
Qed.

(** [max17048_shutdown] raises the fence: it returns with the flag set and
    the mutex free. *)
Lemma max17048_shutdown_sets_flag (client_irq : Z) (s : state) :
  mutex (chip s) = false ->
  exists s', max17048_shutdown E client_irq s = Some (tt, s') /\
             shutdown_complete (chip s') = 1 /\
             mutex (chip s') = false.
Proof.
  intros Hm. unfold max17048_shutdown.
  unfold bind at 1. cbn [get_chip].
  assert (R1 : runs
    (val <- max17048_read_word E MAX17048_CONFIG ;;
     (if val <? 0 then ret tt
      else
        r <- max17048_write_word E MAX17048_CONFIG
               (Z.lor (Z.land val 0xFF)
                  (Z.shiftl (rcomp (model_data (pdata (chip s)))) 8)) ;;
        ret tt) ;;
     (if negb (client_irq =? 0) then emit DisableIrq else ret tt) ;;
     emit CancelDelayedWorkSync)) by runs_tac.
  destruct (R1 s Hm) as ([] & s1 & E1 & F1 & _).
  apply bind_inv in E1. destruct E1 as (val & s2 & E2 & E1).
  rewrite (bind_some _ _ _ _ _ E2).
  apply bind_inv in E1. destruct E1 as ([] & s3 & E3 & E1).
  rewrite (bind_some _ _ _ _ _ E3).
  apply bind_inv in E1. destruct E1 as ([] & s4 & E4 & E1).
  rewrite (bind_some _ _ _ _ _ E4).
  rewrite (bind_some _ _ _ _ _ E1).
  unfold mutex_lock, mutex_unlock. unfold bind at 1. cbv beta.
  rewrite F1. drv_step.
  eexists. split; [reflexivity|]. split; reflexivity.
Qed.

(** C10: while the module-wide pointer is null, [max17048_check_vcell] and
    [max17048_check_soc] return -1 and [max17048_check_battery] returns
    [-ENODEV]; none of them changes the driver or adds to the history of
    bus transactions. *)
Theorem global_queries_guard_null (d : driver) :
  max17048_data d = None ->
  max17048_check_vcell d = (-1, d) /\
  max17048_check_soc d = (-1, d) /\
  max17048_check_battery E d = Some (- ENODEV, d).
Proof.
  intros H.
  unfold max17048_check_vcell, max17048_check_soc, max17048_check_battery.
  rewrite H. repeat split.
Qed.

(** With a device attached the version probe accepts exactly the two
    supported revisions. *)
Lemma max17048_check_battery_attached (d : driver) (c : max17048_chip) :
  max17048_data d = Some c ->
  mutex c = false ->
  exists r d', max17048_check_battery E d = Some (r, d') /\
               (r = 0 \/ r = - ENODEV).
Proof.
  intros H Hm. unfold max17048_check_battery. rewrite H.
  assert (R : runs (max17048_get_version E)).
  { unfold max17048_get_version. runs_tac. }
  destruct (R {| chip := c; trace := history d |} Hm) as (v & s' & Ev & _).
  rewrite Ev. eexists _, _. split; [reflexivity|].
  destruct (negb (v =? MAX17048_VERSION_NO_11)
            && negb (v =? MAX17048_VERSION_NO_12)); auto.
Qed.

(** C8, as the code has it: when the reported charge or the status
    differs from its shadow at the end of a sampling pass, the shadow charge
    takes the reported charge and a change notification is raised, while the
    shadow status stays as it was; when neither differs, nothing is changed
    and nothing is raised. *)
Theorem max17048_work_report_shadow (s : state) :
  exists s',
    max17048_work_report s = Some (tt, s') /\
    lasttime_status (chip s') = lasttime_status (chip s) /\
    soc (chip s') = soc (chip s) /\
    status (chip s') = status (chip s) /\
    (soc (chip s) <> lasttime_soc (chip s) \/
     status (chip s) <> lasttime_status (chip s) ->
     lasttime_soc (chip s') = soc (chip s) /\
     trace s' = trace s ++ [PowerSupplyChanged]) /\
    (soc (chip s) = lasttime_soc (chip s) ->
     status (chip s) = lasttime_status (chip s) ->
     s' = s).
Proof.
  unfold max17048_work_report. drv_step.
  destruct (Z.eqb_spec (soc (chip s)) (lasttime_soc (chip s))) as [Hs|Hs];
    destruct (status_eqb (status (chip s)) (lasttime_status (chip s)))
      eqn:Ht; cbn [negb orb]; drv_step;
    eexists; (split; [reflexivity|]); drv_step; repeat split;
    try tauto; try congruence.
  - apply status_eqb_eq in Ht. tauto.
  - intros _ K. rewrite K, status_eqb_refl in Ht. discriminate.
Qed.

(** A whole sampling pass never writes the shadow status. *)
Lemma max17048_work_keeps_shadow_status (s : state) :
  mutex (chip s) = false ->
  exists s', max17048_work E s = Some (tt, s') /\
             lasttime_status (chip s') = lasttime_status (chip s).
Proof.
  intros Hm. destruct (runs_max17048_work s Hm) as ([] & s' & H & S).
  exists s'. split; [exact H|]. apply S.
Qed.

(** A sampling pass ends with the change report and re-arms itself: the
    report runs on the state [s_mid] that sampling has reached and nothing
    but the re-arming follows it. *)
Lemma max17048_work_ends_with_report (s : state) :
  mutex (chip s) = false ->
  exists s_mid s_end,
    steady s s_mid /\
    max17048_work_report s_mid = Some (tt, s_end) /\
    max17048_work E s =
    Some (tt, {| chip := chip s_end;
                 trace := trace s_end ++
                   [ScheduleDelayedWork MAX17048_DELAY] |}).
Proof.
  intros Hm. unfold max17048_work.
  assert (R1 : runs
    (if machine_is_tegratab E || machine_is_tegranote7c E
     then temp <- max17048_thz_get_temp E ;; update (set_temperature temp)
     else ret tt)) by runs_tac.
  run_step R1 Hm a1 s1 E1 S1.
  unfold bind at 1. cbn [get_chip].
  assert (R2 : runs
    (if abs_long (to_s32 (temperature (chip s1)
                          - lasttime_temperature (chip s1))) >=? 1500
     then
       update (set_lasttime_temperature (temperature (chip s1))) ;;
       max17048_update_rcomp E (temperature (chip s1)) ;;
       power_supply_changed
     else ret tt)) by (unfold power_supply_changed; runs_tac).
  run_step R2 (proj1 S1) a2 s2 E2 S2.
  run_step runs_max17048_get_vcell (proj1 S2) a3 s3 E3 S3.
  run_step runs_max17048_get_soc (proj1 S3) a4 s4 E4 S4.
  run_step runs_max17048_set_current_threshold (proj1 S4) a5 s5 E5 S5.
  run_step runs_max17048_sysedp_throttle (proj1 S5) a6 s6 E6 S6.
  unfold bind at 1. cbn [get_chip].
  assert (R3 : runs
    (if temperature (chip s6) >? MAX17048_BATTERY_HOT
     then update (set_health POWER_SUPPLY_HEALTH_OVERHEAT) ;;
          power_supply_changed
     else if temperature (chip s6) <? MAX17048_BATTERY_COLD
          then update (set_health POWER_SUPPLY_HEALTH_COLD) ;;
               power_supply_changed
          else ret tt)) by (unfold power_supply_changed; runs_tac).
  run_step R3 (proj1 S6) a7 s7 E7 S7.
  destruct (runs_max17048_work_report s7 (proj1 S7)) as ([] & s8 & E8 & _).
  rewrite (bind_some _ _ _ _ _ E8).
  exists s7, s8. split; [|split; [exact E8|reflexivity]].
  apply (steady_trans _ _ _ S1). apply (steady_trans _ _ _ S2).
  apply (steady_trans _ _ _ S3). apply (steady_trans _ _ _ S4).
  apply (steady_trans _ _ _ S5). apply (steady_trans _ _ _ S6). exact S7.
Qed.

(** *** The current-threshold scan *)

Lemma skipn_nth_cons (l : list Z) :
  forall i, (i < length l)%nat -> skipn i l = nth i l 0 :: skipn (S i) l.
Proof.
  induction l as [|x l IH]; intros i Hi; simpl in Hi; [lia|].
  destruct i as [|i]; [reflexivity|].
  simpl. apply IH. lia.
Qed.

(** The loop of the source is the search of the specification on the
    table cut to its declared length. *)
Lemma current_threshold_loop_find (p : max17048_platform_data) (isoc : Z)
  (n : nat) :
  forall i,
    (i + n <= length (current_threshold_soc p))%nat ->
    (i + n <= length (current_threshold_tbl p))%nat ->
    current_threshold_loop p isoc n i =
    option_map snd
      (find (threshold_matches isoc)
         (combine (firstn n (skipn i (current_threshold_soc p)))
                  (firstn n (skipn i (current_threshold_tbl p))))).
Proof.
  induction n as [|n IH]; intros i H1 H2; [reflexivity|].
  rewrite (skipn_nth_cons (current_threshold_soc p) i) by lia.
  rewrite (skipn_nth_cons (current_threshold_tbl p) i) by lia.
  cbn [current_threshold_loop firstn combine find].
  unfold threshold_matches at 1. cbn [fst snd].
  destruct ((isoc <=? nth i (current_threshold_soc p) 0)
            && negb (nth i (current_threshold_tbl p) 0 =? 0)).
  - reflexivity.
  - apply IH; lia.
Qed.

Lemma current_threshold_loop_table (p : max17048_platform_data) (isoc : Z) :
  (Z.to_nat (current_threshold_num p)
   <= length (current_threshold_soc p))%nat ->
  (Z.to_nat (current_threshold_num p)
   <= length (current_threshold_tbl p))%nat ->
  current_threshold_loop p isoc (Z.to_nat (current_threshold_num p)) 0 =
  option_map snd (find (threshold_matches isoc) (threshold_table p)).
Proof.
  intros H1 H2.
  rewrite current_threshold_loop_find by (simpl; lia).
  reflexivity.
Qed.

(** C5, as the code has it: while the callback, a table length and a
    normal threshold are all configured, the threshold the driver selects is
    that of the first table entry whose SOC bound is at least the internal
    charge state and whose threshold is not zero, and the normal threshold
    when there is none; the callback is called, with the selection, only
    when the selection differs from the shadow threshold, and the shadow
    follows when the callback succeeds.  While one of the three is missing
    the driver selects nothing: it changes no field and calls nothing. *)
Theorem max17048_set_current_threshold_selects (s : state) :
  let p := pdata (chip s) in
  let isoc := internal_soc (chip s) in
  let table := threshold_table p in
  let selected := spec_selected_threshold table (current_normal p) isoc in
  (Z.to_nat (current_threshold_num p)
   <= length (current_threshold_soc p))%nat ->
  (Z.to_nat (current_threshold_num p)
   <= length (current_threshold_tbl p))%nat ->
  exists s',
    max17048_set_current_threshold s = Some (tt, s') /\
    (threshold_policy_enabled p = true ->
     current_threshold (chip s') = selected /\
     (selected = lasttime_current_threshold (chip s) ->
      trace s' = trace s /\
      lasttime_current_threshold (chip s') = selected) /\
     (selected <> lasttime_current_threshold (chip s) ->
      exists r,
        trace s' = trace s ++
          [SetCurrentThreshold selected (spec_min_cpu table isoc) r] /\
        (0 <= r -> lasttime_current_threshold (chip s') = selected) /\
        (r < 0 -> lasttime_current_threshold (chip s')
                  = lasttime_current_threshold (chip s)))) /\
    (threshold_policy_enabled p = false -> s' = s).
Proof.
  intros p isoc table selected H1 H2.
  unfold max17048_set_current_threshold. drv_step.
  unfold threshold_policy_enabled. fold p.
  destruct (set_current_threshold p) as [callback|];
    [|exists s; split; [reflexivity|]; split; [discriminate|reflexivity]].
  destruct (negb (current_threshold_num p =? 0)
            && negb (current_normal p =? 0));
    [|exists s; split; [reflexivity|]; split; [discriminate|reflexivity]].
  pose proof (current_threshold_loop_table p isoc H1 H2) as Hloop.
  fold p isoc. fold table in Hloop.
  set (found := current_threshold_loop p isoc
                  (Z.to_nat (current_threshold_num p)) 0) in *.
  clearbody found. subst found.
  unfold selected, spec_selected_threshold, spec_min_cpu.
  clear selected.
  destruct (find (threshold_matches isoc) table) as [entry|];
    cbn [option_map];
    [set (selected := snd entry); set (min_cpu := 1)
    |set (selected := current_normal p); set (min_cpu := 2)];
    clearbody selected min_cpu; drv_step;
    (destruct (Z.eqb_spec selected (lasttime_current_threshold (chip s)))
       as [Heq|Hne]; cbn [negb]; drv_step;
     [ eexists; split; [reflexivity|]; split; [|discriminate];
       intros _; drv_step; split; [reflexivity|]; split;
       [intros _; split; [reflexivity|symmetry; exact Heq]
       |intros K; contradiction]
     | unfold call_set_current_threshold; drv_step;
       set (r := to_s32 (callback (trace s) selected min_cpu));
       destruct (Z.ltb_spec r 0) as [Hr|Hr]; drv_step;
       (eexists; split; [reflexivity|]; split; [|discriminate]);
       intros _; drv_step; (split; [reflexivity|]);
       (split; [intros; contradiction|]); intros _; exists r;
       (split; [reflexivity|]); split; intros; try reflexivity; lia ]).
Qed.

(** *** Bytes of a register word *)

Lemma land_byte_shiftl (a n : Z) :
  0 <= a < 256 -> Z.land a (n * 2 ^ 8) = 0.
Proof.
  intros Ha. apply Z.bits_inj'. intros k Hk.
  rewrite Z.land_spec, Z.bits_0.
  destruct (Z.lt_ge_cases k 8) as [Hlt|Hge].
  - rewrite Z.mul_pow2_bits_low by lia. apply andb_false_r.
  - destruct (Z.eq_dec a 0) as [->|Hnz].
    + rewrite Z.bits_0. reflexivity.
    + rewrite (Z.bits_above_log2 a k); [reflexivity|lia|].
      assert (Z.log2 a < 8) by (apply Z.log2_lt_pow2; lia). lia.
Qed.

Lemma lor_byte_shiftl (a n : Z) :
  0 <= a < 256 -> Z.lor a (Z.shiftl n 8) = a + 256 * n.
Proof.
  intros Ha. rewrite Z.shiftl_mul_pow2 by lia.
  rewrite <- Z.lxor_lor by (apply land_byte_shiftl; exact Ha).
  rewrite <- Z.add_nocarry_lxor by (apply land_byte_shiftl; exact Ha).
  change (2 ^ 8) with 256. lia.
Qed.

Lemma land_0xff (x : Z) : Z.land x 0xff = x mod 256.
Proof. change 0xff with (Z.ones 8). rewrite Z.land_ones by lia. reflexivity. Qed.

Lemma shiftr_8 (x : Z) : Z.shiftr x 8 = x / 256.
Proof. rewrite Z.shiftr_div_pow2 by lia. reflexivity. Qed.

(** [swab16] exchanges the low byte [a] and the high byte [n]. *)
Lemma swab16_bytes (a n : Z) :
  0 <= a < 256 -> 0 <= n < 256 -> swab16 (a + 256 * n) = n + 256 * a.
Proof.
  intros Ha Hn. unfold swab16.
  rewrite !land_0xff, shiftr_8.
  assert (H1 : (a + 256 * n) mod 256 = a)
    by (Z.to_euclidean_division_equations; lia).
  assert (H2 : (a + 256 * n) / 256 = n)
    by (Z.to_euclidean_division_equations; lia).
  rewrite H1, H2, (Z.mod_small n) by exact Hn.
  rewrite Z.lor_comm. rewrite lor_byte_shiftl by exact Hn. lia.
Qed.

(** The word built from the low byte of [val] and a new high byte [n], as
    [max17048_update_rcomp] and [max17048_shutdown] build it. *)
Lemma config_word_bytes (val n : Z) :
  0 <= n < 256 ->
  let word := to_u16 (Z.lor (Z.land val 0xFF) (Z.shiftl n 8)) in
  register_word (swab16 word) = word /\
  Z.shiftr word 8 = n /\
  Z.land word 0xFF = Z.land val 0xFF.
Proof.
  intros Hn. cbv zeta.
  change 0xFF with 0xff. rewrite (land_0xff val).
  assert (Ha : 0 <= val mod 256 < 256) by (apply Z.mod_pos_bound; lia).
  rewrite lor_byte_shiftl by exact Ha.
  rewrite to_u16_small by lia.
  unfold register_word. rewrite swab16_bytes by assumption.
  rewrite swab16_bytes by assumption.
  rewrite land_0xff, shiftr_8.
  repeat split; Z.to_euclidean_division_equations; lia.
Qed.

(** *** The thermal compensator *)

Lemma clamp_range (x : Z) : 0 <= clamp x 0 255 <= 255.
Proof.
  unfold clamp. rewrite Z.gtb_ltb.
  destruct (Z.ltb_spec 255 x); [lia|].
  destruct (Z.ltb_spec x 0); lia.
Qed.

Lemma new_rcomp_range (mdata : max17048_battery_model) (temp : Z) :
  0 <= new_rcomp mdata temp <= 255.
Proof.
  unfold new_rcomp. cbv zeta.
  match goal with
  | |- 0 <= (if ?x >? _ then _ else _) <= _ => generalize x
  end.
  intros x. exact (clamp_range x).
Qed.

Lemma product_fits_s64 (d c : Z) :
  - 2 ^ 31 - 20000 <= d < 2 ^ 31 ->
  - 2 ^ 31 <= c < 2 ^ 31 ->
  - 2 ^ 63 <= d * c < 2 ^ 63.
Proof.
  intros Hd Hc.
  assert (Ha : Z.abs (d * c) <= (2 ^ 31 + 20000) * 2 ^ 31).
  { rewrite Z.abs_mul. apply Z.mul_le_mono_nonneg; lia. }
  assert (Hb : (2 ^ 31 + 20000) * 2 ^ 31 < 2 ^ 63) by reflexivity.
  lia.
Qed.

(** Where the exact compensation and its sum with the base fit an [int],
    the driver computes the clamp of the specification. *)
Lemma new_rcomp_spec (mdata : max17048_battery_model) (temp : Z) :
  - 2 ^ 31 <= temp < 2 ^ 31 ->
  - 2 ^ 31 <= t_co_hot mdata < 2 ^ 31 ->
  - 2 ^ 31 <= t_co_cold mdata < 2 ^ 31 ->
  0 <= rcomp mdata <= 255 ->
  - 2 ^ 31 <= spec_delta (t_co_hot mdata) (t_co_cold mdata) temp
    < 2 ^ 31 - 255 ->
  new_rcomp mdata temp = spec_rcomp mdata temp.
Proof.
  intros Ht Hh Hc Hr Hd.
  unfold new_rcomp, spec_rcomp, clamp, div64_s64. cbv zeta.
  unfold spec_delta in *.
  change 0xFF with 255.
  assert (Hsub : to_s64 (temp - 20000) = temp - 20000).
  { apply to_s64_small.
    change (2 ^ 63) with 9223372036854775808.
    change (2 ^ 31) with 2147483648 in Ht. lia. }
  rewrite Hsub.
  rewrite (to_s64_small ((temp - 20000) * t_co_hot mdata))
    by (apply product_fits_s64; lia).
  rewrite (to_s64_small ((temp - 20000) * t_co_cold mdata))
    by (apply product_fits_s64; lia).
  change (2 ^ 31) with 2147483648 in *.
  destruct (temp >? 20000).
  - rewrite (to_s64_small (_ ÷ _))
      by (change (2 ^ 63) with 9223372036854775808; lia).
    rewrite (to_s32_small (_ ÷ _))
      by (change (2 ^ 31) with 2147483648; lia).
    rewrite to_s32_small by (change (2 ^ 31) with 2147483648; lia).
    reflexivity.
  - destruct (temp <? 20000).
    + rewrite (to_s64_small (_ ÷ _))
        by (change (2 ^ 63) with 9223372036854775808; lia).
      rewrite (to_s32_small (_ ÷ _))
        by (change (2 ^ 31) with 2147483648; lia).
      rewrite to_s32_small by (change (2 ^ 31) with 2147483648; lia).
      reflexivity.
    + rewrite Z.add_0_r. reflexivity.
Qed.

(** A transport call that returned a value that is not negative found
    the fence down. *)
Lemma max17048_read_word_nonneg reg s r s1 :
  mutex (chip s) = false ->
  max17048_read_word E reg s = Some (r, s1) ->
  0 <= r ->
  shutdown_complete (chip s) = 0 /\ chip s1 = chip s /\
  trace s1 = trace s ++
    [I2cReadWord (to_u8 reg)
       (to_s32 (i2c_smbus_read_word_data E (trace s) (to_u8 reg)))].
Proof.
  intros Hm Hread Hr. rewrite (max17048_read_word_eq reg s Hm) in Hread.
  destruct (Z.eqb_spec (shutdown_complete (chip s)) 0) as [H0|H0];
    cbn [negb] in Hread; cbv zeta in Hread; inversion Hread; subst.
  - repeat split. exact H0.
  - unfold ENODEV in Hr. lia.
Qed.

(** C6, as the code has it: after a successful read of the config
    register the thermal compensator writes one word to it; the upper byte
    of that word is the RCOMP value the driver computed, which lies within
    [0,255] for every temperature, base and coefficients, and the lower byte
    is the lower byte that was read.  The RCOMP value is
    [clamp (rcompBase + delta) 0 255], with [delta] as the specification
    words it, whenever the temperature and the coefficients are 32-bit
    values and [delta], added to a base of at most 255, still fits the
    32-bit [int] through which the driver passes it. *)
Theorem max17048_update_rcomp_writes_clamped (s s1 : state) (r temp : Z) :
  mutex (chip s) = false ->
  max17048_read_word E MAX17048_CONFIG s = Some (r, s1) ->
  0 <= r ->
  let mdata := model_data (pdata (chip s)) in
  exists wire wret s',
    max17048_update_rcomp E temp s = Some (tt, s') /\
    trace s' = trace s1 ++ [I2cWriteWord MAX17048_CONFIG wire wret] /\
    0 <= Z.shiftr (register_word wire) 8 <= 255 /\
    Z.shiftr (register_word wire) 8 = new_rcomp mdata temp /\
    Z.land (register_word wire) 0xFF = Z.land r 0xFF /\
    (- 2 ^ 31 <= temp < 2 ^ 31 ->
     - 2 ^ 31 <= t_co_hot mdata < 2 ^ 31 ->
     - 2 ^ 31 <= t_co_cold mdata < 2 ^ 31 ->
     0 <= rcomp mdata <= 255 ->
     - 2 ^ 31 <= spec_delta (t_co_hot mdata) (t_co_cold mdata) temp
       < 2 ^ 31 - 255 ->
     Z.shiftr (register_word wire) 8 = spec_rcomp mdata temp).
Proof.
  intros Hm Hread Hr mdata.
  destruct (max17048_read_word_nonneg _ _ _ _ Hm Hread Hr)
    as (Hsd & Hc & Ht).
  unfold max17048_update_rcomp.
  unfold bind at 1. cbn [get_chip]. fold mdata.
  rewrite (bind_some _ _ _ _ _ Hread).
  destruct (Z.ltb_spec r 0) as [?|_]; [lia|].
  assert (Hm1 : mutex (chip s1) = false) by (rewrite Hc; exact Hm).
  pose proof (new_rcomp_range mdata temp) as Hrange.
  destruct (config_word_bytes r (new_rcomp mdata temp)) as (W1 & W2 & W3);
    [lia|].
  unfold bind at 1.
  rewrite (max17048_write_word_eq _ _ s1 Hm1), Hc, Hsd.
  cbn [Z.eqb negb]. cbv zeta. cbn [ret].
  eexists _, _, _. split; [reflexivity|]. cbn [trace].
  split; [reflexivity|].
  rewrite W1, W2, W3.
  repeat split; try lia.
  intros. apply new_rcomp_spec; assumption.
Qed.

(** *** The alert handler *)

Lemma swab16_involutive (v : Z) :
  0 <= v < 65536 -> register_word (swab16 v) = v.
Proof.
  intros Hv. unfold register_word.
  assert (Hd : v = v mod 256 + 256 * (v / 256))
    by (Z.to_euclidean_division_equations; lia).
  assert (Ha : 0 <= v mod 256 < 256) by (apply Z.mod_pos_bound; lia).
  assert (Hn : 0 <= v / 256 < 256)
    by (Z.to_euclidean_division_equations; lia).
  rewrite Hd at 1. rewrite swab16_bytes by assumption.
  rewrite swab16_bytes by assumption. lia.
Qed.

(** The word that mutes the low-voltage alert: the configured word with
    its upper byte cleared. *)
Lemma muted_valert_word (v : Z) :
  let wire := swab16 (to_u16 (to_u16 (Z.land v 0x00FF))) in
  register_word wire = Z.land v 0xFF /\
  Z.shiftr (register_word wire) 8 = 0 /\
  Z.land (register_word wire) 0xFF = Z.land v 0xFF.
Proof.
  cbv zeta. change 0x00FF with 0xff. change 0xFF with 0xff.
  rewrite (land_0xff v).
  assert (Ha : 0 <= v mod 256 < 256) by (apply Z.mod_pos_bound; lia).
  rewrite !(to_u16_small (v mod 256)) by lia.
  rewrite swab16_involutive by lia.
  rewrite land_0xff, shiftr_8.
  repeat split; Z.to_euclidean_division_equations; lia.
Qed.

Lemma max17048_irq_clear_irq_eq (s : state) :
  mutex (chip s) = false ->
  shutdown_complete (chip s) = 0 ->
  exists r1 w r2,
    max17048_irq_clear_irq E s =
    Some (IRQ_HANDLED,
          {| chip := chip s;
             trace := trace s ++ [I2cReadWord MAX17048_CONFIG r1;
                                  I2cWriteWord MAX17048_CONFIG w r2] |}).
Proof.
  intros Hm Hsd. unfold max17048_irq_clear_irq.
  unfold bind at 1. rewrite (max17048_read_word_eq _ s Hm), Hsd.
  cbn [Z.eqb negb]. cbv zeta. rewrite to_u16_ltb0.
  unfold bind. rewrite max17048_write_word_eq by exact Hm.
  cbn [chip trace]. rewrite Hsd. cbn [Z.eqb negb]. cbv zeta. cbn [ret].
  rewrite <- app_assoc. cbn [app].
  eexists _, _, _. reflexivity.
Qed.

(** The end of the handler: the status register is cleared, then the alert
    bit of the config register. *)
Lemma max17048_irq_tail_eq (s : state) :
  mutex (chip s) = false ->
  shutdown_complete (chip s) = 0 ->
  exists w1 r1 w r2,
    (r <- max17048_write_word E MAX17048_STATUS 0x0000 ;;
     max17048_irq_clear_irq E) s =
    Some (IRQ_HANDLED,
          {| chip := chip s;
             trace := trace s ++ [I2cWriteWord MAX17048_STATUS 0 w1;
                                  I2cReadWord MAX17048_CONFIG r1;
                                  I2cWriteWord MAX17048_CONFIG w r2] |}).
Proof.
  intros Hm Hsd. unfold bind at 1.
  rewrite (max17048_write_word_eq _ _ s Hm), Hsd.
  cbn [Z.eqb negb]. cbv zeta.
  match goal with
  | |- context [max17048_irq_clear_irq E ?s1] =>
      destruct (max17048_irq_clear_irq_eq s1 Hm Hsd) as (r1 & w & r2 & H)
  end.
  rewrite H. cbn [chip trace]. rewrite <- app_assoc. cbn [app].
  eexists _, _, _, _. reflexivity.
Qed.

Lemma max17048_irq_status_vl_eq (mdata : max17048_battery_model)
  (s : state) :
  mutex (chip s) = false ->
  shutdown_complete (chip s) = 0 ->
  exists wret,
    max17048_irq_status_vl E mdata s =
    Some (tt,
          {| chip :=
               set_capacity_level POWER_SUPPLY_CAPACITY_LEVEL_CRITICAL
                 (set_health POWER_SUPPLY_HEALTH_DEAD
                    (set_status (lasttime_status (chip s))
                       (set_lasttime_soc 0 (set_soc 0 (chip s)))));
             trace := trace s ++
               [PowerSupplyChanged;
                I2cWriteWord MAX17048_VALRT
                  (swab16 (to_u16 (to_u16 (Z.land (valert mdata) 0x00FF))))
                  wret] |}).
Proof.
  intros Hm Hsd. unfold max17048_irq_status_vl. drv_step.
  unfold bind. rewrite max17048_write_word_eq by exact Hm.
  drv_step. rewrite Hsd.
  cbn [Z.eqb negb]. cbv zeta. drv_step.
  rewrite <- app_assoc. cbn [app].
  eexists. reflexivity.
Qed.

Lemma max17048_irq_status_sc_run (mdata : max17048_battery_model)
  (s : state) :
  mutex (chip s) = false ->
  shutdown_complete (chip s) = 0 ->
  exists s',
    max17048_irq_status_sc E mdata s = Some (tt, s') /\
    steady s s' /\
    (1 <= internal_soc (chip s') ->
     exists pre wret,
       trace s' = pre ++
         [I2cWriteWord MAX17048_VALRT (swab16 (to_u16 (valert mdata)))
            wret]).
Proof.
  intros Hm Hsd. unfold max17048_irq_status_sc.
  run_step runs_max17048_get_vcell Hm a1 s1 E1 S1.
  run_step runs_max17048_get_soc (proj1 S1) a2 s2 E2 S2.
  run_step runs_max17048_set_current_threshold (proj1 S2) a3 s3 E3 S3.
  run_step runs_max17048_sysedp_throttle (proj1 S3) a4 s4 E4 S4.
  assert (S : steady s s4) by (repeat (eapply steady_trans; eauto)).
  clear E1 E2 E3 E4 S1 S2 S3 S4.
  destruct S as (Hm4 & Hsd4 & Hp4 & Hl4 & t4 & Ht4).
  drv_step.
  destruct (Z.geb_spec (internal_soc (chip s4)) 1) as [Hge|Hlt].
  - unfold bind. rewrite max17048_write_word_eq by exact Hm4.
    drv_step. rewrite Hsd4, Hsd. cbn [Z.eqb negb]. cbv zeta. drv_step.
    eexists. split; [reflexivity|]. split.
    + unfold steady. drv_step. repeat split; try congruence.
      rewrite Ht4, <- !app_assoc. eexists. reflexivity.
    + intros _. drv_step. eexists _, _. reflexivity.
  - eexists. split; [reflexivity|]. split.
    + unfold steady. drv_step. repeat split; try congruence.
      rewrite Ht4, <- !app_assoc. eexists. reflexivity.
    + drv_step. intros K. lia.
Qed.

(** The three tests of the dispatch, one at a time. *)
Lemma max17048_irq_dispatch_vl (mdata : max17048_battery_model)
  (val : Z) (s : state) :
  mutex (chip s) = false ->
  shutdown_complete (chip s) = 0 ->
  exists s',
    (if negb (Z.land val MAX17048_STATUS_VL =? 0)
     then max17048_irq_status_vl E mdata else ret tt) s = Some (tt, s') /\
    steady s s' /\
    (Z.land val MAX17048_STATUS_VL <> 0 ->
     exists wret,
       chip s' =
         set_capacity_level POWER_SUPPLY_CAPACITY_LEVEL_CRITICAL
           (set_health POWER_SUPPLY_HEALTH_DEAD
              (set_status (lasttime_status (chip s))
                 (set_lasttime_soc 0 (set_soc 0 (chip s))))) /\
       trace s' = trace s ++
         [PowerSupplyChanged;
          I2cWriteWord MAX17048_VALRT
            (swab16 (to_u16 (to_u16 (Z.land (valert mdata) 0x00FF))))
            wret]).
Proof.
  intros Hm Hsd.
  destruct (Z.eqb_spec (Z.land val MAX17048_STATUS_VL) 0) as [H0|H0];
    cbn [negb].
  - exists s. split; [reflexivity|]. split; [apply steady_refl; exact Hm|].
    intros K. contradiction.
  - destruct (max17048_irq_status_vl_eq mdata s Hm Hsd) as (wret & H).
    eexists. split; [exact H|]. split.
    + unfold steady. drv_step. repeat split; try assumption.
      eexists. reflexivity.
    + intros _. exists wret. split; reflexivity.
Qed.

Lemma max17048_irq_dispatch_hd (val : Z) (s : state) :
  mutex (chip s) = false ->
  exists s',
    (if negb (Z.land val MAX17048_STATUS_HD =? 0)
     then max17048_irq_status_hd E else ret tt) s = Some (tt, s') /\
    steady s s' /\
    (Z.land val MAX17048_STATUS_HD = 0 -> s' = s).
Proof.
  intros Hm.
  destruct (Z.eqb_spec (Z.land val MAX17048_STATUS_HD) 0) as [H0|H0];
    cbn [negb].
  - exists s. split; [reflexivity|]. split; [apply steady_refl; exact Hm|].
    reflexivity.
  - destruct (runs_max17048_irq_status_hd s Hm) as ([] & s' & H & S).
    exists s'. split; [exact H|]. split; [exact S|].
    intros K. contradiction.
Qed.

Lemma max17048_irq_dispatch_sc (mdata : max17048_battery_model)
  (val : Z) (s : state) :
  mutex (chip s) = false ->
  shutdown_complete (chip s) = 0 ->
  exists s',
    (if negb (Z.land val MAX17048_STATUS_SC =? 0)
     then max17048_irq_status_sc E mdata else ret tt) s = Some (tt, s') /\
    steady s s' /\
    (Z.land val MAX17048_STATUS_SC = 0 -> s' = s) /\
    (Z.land val MAX17048_STATUS_SC <> 0 ->
     1 <= internal_soc (chip s') ->
     exists pre wret,
       trace s' = pre ++
         [I2cWriteWord MAX17048_VALRT (swab16 (to_u16 (valert mdata)))
            wret]).
Proof.
  intros Hm Hsd.
  destruct (Z.eqb_spec (Z.land val MAX17048_STATUS_SC) 0) as [H0|H0];
    cbn [negb].
  - exists s. split; [reflexivity|]. split; [apply steady_refl; exact Hm|].
    split; [reflexivity|]. intros K. contradiction.
  - destruct (max17048_irq_status_sc_run mdata s Hm Hsd)
      as (s' & H & S & W).
    exists s'. split; [exact H|]. split; [exact S|].
    split; [intros K; contradiction|]. intros _. exact W.
Qed.

(** The dispatch as a whole, away from shutdown: it always ends by
    clearing the status register and the alert bit; a set VL flag mutes the
    low-voltage alert first; a set SC flag with a charge state of at least
    1 makes the full alert word the last thing written to the
    voltage-alert register. *)
Lemma max17048_irq_dispatch_run (mdata : max17048_battery_model) (val : Z)
  (s : state) :
  mutex (chip s) = false ->
  shutdown_complete (chip s) = 0 ->
  exists s',
    max17048_irq_dispatch E mdata val s = Some (IRQ_HANDLED, s') /\
    (exists pre w1 r1 w r2,
       trace s' = pre ++ [I2cWriteWord MAX17048_STATUS 0 w1;
                          I2cReadWord MAX17048_CONFIG r1;
                          I2cWriteWord MAX17048_CONFIG w r2]) /\
    (Z.land val MAX17048_STATUS_VL <> 0 ->
     exists wret rest,
       trace s' = trace s ++
         PowerSupplyChanged
         :: I2cWriteWord MAX17048_VALRT
              (swab16 (to_u16 (to_u16 (Z.land (valert mdata) 0x00FF))))
              wret
         :: rest /\
       (Z.land val MAX17048_STATUS_HD = 0 ->
        Z.land val MAX17048_STATUS_SC = 0 ->
        chip s' =
          set_capacity_level POWER_SUPPLY_CAPACITY_LEVEL_CRITICAL
            (set_health POWER_SUPPLY_HEALTH_DEAD
               (set_status (lasttime_status (chip s))
                  (set_lasttime_soc 0 (set_soc 0 (chip s))))))) /\
    (Z.land val MAX17048_STATUS_SC <> 0 ->
     1 <= internal_soc (chip s') ->
     exists pre wret w1 r1 w r2,
       trace s' = pre ++
         [I2cWriteWord MAX17048_VALRT (swab16 (to_u16 (valert mdata))) wret;
          I2cWriteWord MAX17048_STATUS 0 w1;
          I2cReadWord MAX17048_CONFIG r1;
          I2cWriteWord MAX17048_CONFIG w r2]).
Proof.
  intros Hm Hsd. unfold max17048_irq_dispatch.
  destruct (max17048_irq_dispatch_vl mdata val s Hm Hsd)
    as (s1 & E1 & S1 & V1).
  rewrite (bind_some _ _ _ _ _ E1).
  destruct (max17048_irq_dispatch_hd val s1 (proj1 S1))
    as (s2 & E2 & S2 & V2).
  rewrite (bind_some _ _ _ _ _ E2).
  assert (Hsd2 : shutdown_complete (chip s2) = 0).
  { destruct S1 as (_ & K1 & _). destruct S2 as (_ & K2 & _). congruence. }
  destruct (max17048_irq_dispatch_sc mdata val s2 (proj1 S2) Hsd2)
    as (s3 & E3 & S3 & V3 & W3).
  rewrite (bind_some _ _ _ _ _ E3).
  assert (Hsd3 : shutdown_complete (chip s3) = 0).
  { destruct S3 as (_ & K3 & _). congruence. }
  destruct (max17048_irq_tail_eq s3 (proj1 S3) Hsd3)
    as (w1 & r1 & w & r2 & E4).
  rewrite E4. eexists. split; [reflexivity|]. cbn [chip trace].
  split; [|split].
  - eexists _, _, _, _, _. reflexivity.
  - intros Hvl. destruct (V1 Hvl) as (wret & Hc1 & Ht1).
    destruct S2 as (_ & _ & _ & _ & t2 & Ht2).
    destruct S3 as (_ & _ & _ & _ & t3 & Ht3).
    exists wret. eexists. split.
    + rewrite Ht3, Ht2, Ht1, <- !app_assoc. cbn [app]. reflexivity.
    + intros Hhd Hsc. rewrite (V3 Hsc), (V2 Hhd). exact Hc1.
  - intros Hsc Hsoc. destruct (W3 Hsc Hsoc) as (pre & wret & Ht).
    exists pre, wret, w1, r1, w, r2.
    rewrite Ht, <- app_assoc. reflexivity.
Qed.

(** C7, as the code has it: the handler of a status word with the VL
    flag forces the reported charge and its shadow to 0, restores the status
    from its shadow, sets the health to dead and the level to critical,
    raises a change notification and writes to the voltage-alert register
    the configured alert word with its upper byte cleared to zero and its
    lower byte kept.  (The fields stand as said at the end of the handler
    when the same word has neither the HD nor the SC flag, whose branches
    sample the charge state again.)  The handler of a status word with the
    SC flag that ends with an internal charge state of at least 1 writes the
    full configured two-byte alert word back, as its last write to that
    register. *)
Theorem max17048_irq_voltage_low_mutes_min_alert (s s1 : state) (r : Z) :
  mutex (chip s) = false ->
  max17048_read_word E MAX17048_STATUS s = Some (r, s1) ->
  0 <= r ->
  let mdata := model_data (pdata (chip s)) in
  let val := to_u16 r in
  exists s',
    max17048_irq E s = Some (IRQ_HANDLED, s') /\
    (Z.land val MAX17048_STATUS_VL <> 0 ->
     exists wire wret rest,
       trace s' = trace s1 ++
         PowerSupplyChanged :: I2cWriteWord MAX17048_VALRT wire wret :: rest /\
       Z.shiftr (register_word wire) 8 = 0 /\
       Z.land (register_word wire) 0xFF = Z.land (valert mdata) 0xFF /\
       (Z.land val MAX17048_STATUS_HD = 0 ->
        Z.land val MAX17048_STATUS_SC = 0 ->
        soc (chip s') = 0 /\
        lasttime_soc (chip s') = 0 /\
        status (chip s') = lasttime_status (chip s) /\
        health (chip s') = POWER_SUPPLY_HEALTH_DEAD /\
        capacity_level (chip s') = POWER_SUPPLY_CAPACITY_LEVEL_CRITICAL)) /\
    (Z.land val MAX17048_STATUS_SC <> 0 ->
     1 <= internal_soc (chip s') ->
     exists pre wire wret w1 r1 w r2,
       trace s' = pre ++
         [I2cWriteWord MAX17048_VALRT wire wret;
          I2cWriteWord MAX17048_STATUS 0 w1;
          I2cReadWord MAX17048_CONFIG r1;
          I2cWriteWord MAX17048_CONFIG w r2] /\
       register_word wire = to_u16 (valert mdata)).
Proof.
  intros Hm Hread Hr mdata val.
  destruct (max17048_read_word_nonneg _ _ _ _ Hm Hread Hr)
    as (Hsd & Hc & Ht).
  unfold max17048_irq. unfold bind at 1. cbn [get_chip]. fold mdata.
  rewrite (bind_some _ _ _ _ _ Hread). fold val.
  unfold val at 1. rewrite to_u16_ltb0.
  assert (Hm1 : mutex (chip s1) = false) by (rewrite Hc; exact Hm).
  assert (Hsd1 : shutdown_complete (chip s1) = 0)
    by (rewrite Hc; exact Hsd).
  destruct (max17048_irq_dispatch_run mdata val s1 Hm1 Hsd1)
    as (s' & Hrun & _ & Hvl & Hsc).
  exists s'. split; [exact Hrun|]. split.
  - intros K. destruct (Hvl K) as (wret & rest & Htr & Hchip).
    destruct (muted_valert_word (valert mdata)) as (_ & B1 & B2).
    eexists _, wret, rest. split; [exact Htr|].
    split; [exact B1|]. split; [exact B2|].
    intros Khd Ksc. rewrite (Hchip Khd Ksc), Hc. repeat split.
  - intros K Ksoc.
    destruct (Hsc K Ksoc) as (pre & wret & w1 & r1 & w & r2 & Htr).
    eexists pre, _, wret, w1, r1, w, r2. split; [exact Htr|].
    apply swab16_involutive. apply to_u16_range.
Qed.

(** A program that begins by sampling the voltage begins, away from
    shutdown, with a read of the voltage register. *)
Lemma get_vcell_then_starts {A : Type} (k : M A) :
  runs k ->
  forall s, mutex (chip s) = false -> shutdown_complete (chip s) = 0 ->
    exists a s' v rest,
      (max17048_get_vcell E ;; k) s = Some (a, s') /\
      steady s s' /\
      trace s' = trace s ++ I2cReadWord MAX17048_VCELL v :: rest.
Proof.
  intros Hk s Hm Hsd.
  destruct (runs_max17048_get_vcell s Hm) as ([] & s1 & E1 & S1).
  assert (Ht1 : exists v,
             trace s1 = trace s ++ [I2cReadWord MAX17048_VCELL v]).
  { revert E1. unfold max17048_get_vcell, bind.
    rewrite (max17048_read_word_eq _ s Hm), Hsd.
    cbn [Z.eqb negb]. cbv zeta.
    match goal with
    | |- context [if ?b then ret tt else _] => destruct b
    end; intros K; inversion K; eexists; reflexivity. }
  destruct Ht1 as (v & Ht1).
  destruct (Hk s1 (proj1 S1)) as (a & s2 & E2 & S2).
  exists a, s2, v. destruct S2 as (M2 & D2 & P2 & L2 & t2 & Ht2).
  exists t2. rewrite (bind_some _ _ _ _ _ E1).
  split; [exact E2|]. split.
  - destruct S1 as (M1 & D1 & P1 & L1 & t1 & Ht1').
    unfold steady. repeat split; try congruence.
    exists (t1 ++ t2). rewrite Ht2, Ht1', app_assoc. reflexivity.
  - rewrite Ht2, Ht1, <- app_assoc. reflexivity.
Qed.

(** A flag of the status word that asks for a new sample: the branch
    [m] is run exactly when the flag is set, and then begins with a read of
    the voltage register. *)
Lemma max17048_irq_sampling_flag (flag val : Z) (k : M unit) (s : state) :
  runs k ->
  mutex (chip s) = false ->
  shutdown_complete (chip s) = 0 ->
  exists s' t,
    (if negb (Z.land val flag =? 0)
     then (max17048_get_vcell E ;; k) else ret tt) s = Some (tt, s') /\
    mutex (chip s') = false /\
    shutdown_complete (chip s') = 0 /\
    trace s' = trace s ++ t /\
    (Z.land val flag = 0 -> s' = s /\ t = []) /\
    (Z.land val flag <> 0 ->
     exists v t', t = I2cReadWord MAX17048_VCELL v :: t').
Proof.
  intros Hk Hm Hsd.
  destruct (Z.eqb_spec (Z.land val flag) 0) as [H0|H0]; cbn [negb].
  - exists s, []. split; [reflexivity|]. split; [exact Hm|].
    split; [exact Hsd|]. split; [symmetry; apply app_nil_r|].
    split; [intros _; split; reflexivity|]. intros K. contradiction.
  - destruct (get_vcell_then_starts k Hk s Hm Hsd)
      as ([] & s' & v & rest & Hrun & (M1 & D1 & _) & Ht).
    exists s', (I2cReadWord MAX17048_VCELL v :: rest).
    split; [exact Hrun|]. split; [exact M1|].
    split; [congruence|]. split; [exact Ht|].
    split; [intros K; contradiction|]. intros _. eexists _, _. reflexivity.
Qed.

(** An errno kept in a [u16] has the SOC-low and the SOC-change flags
    set. *)
Lemma errno_status_flags (a : Z) :
  - 4095 <= a < 0 ->
  to_u16 a = a + 65536 /\
  Z.land (to_u16 a) MAX17048_STATUS_HD <> 0 /\
  Z.land (to_u16 a) MAX17048_STATUS_SC <> 0.
Proof.
  intros Ha.
  assert (Hu : to_u16 a = a + 65536).
  { unfold to_u16. change (2 ^ 16) with 65536.
    symmetry. apply Z.mod_unique with (-1); lia. }
  rewrite Hu. split; [reflexivity|].
  assert (Hbit : forall n, 0 <= n ->
            Z.testbit (a + 65536) n = true ->
            Z.land (a + 65536) (2 ^ n) <> 0).
  { intros n Hn Hb K.
    assert (Hc : Z.testbit (Z.land (a + 65536) (2 ^ n)) n = true).
    { rewrite Z.land_spec, Hb, Z.pow2_bits_true by exact Hn. reflexivity. }
    rewrite K, Z.bits_0 in Hc. discriminate. }
  split.
  - apply (Hbit 12); [lia|]. apply Z.testbit_true; [lia|].
    change (2 ^ 12) with 4096.
    assert (Hq : (a + 65536) / 4096 = 15)
      by (Z.to_euclidean_division_equations; lia).
    rewrite Hq. reflexivity.
  - apply (Hbit 13); [lia|]. apply Z.testbit_true; [lia|].
    change (2 ^ 13) with 8192.
    assert (Hq : (a + 65536) / 8192 = 7)
      by (Z.to_euclidean_division_equations; lia).
    rewrite Hq. reflexivity.
Qed.

(** C9: the handler keeps what [max17048_read_word] returned in an
    unsigned 16-bit variable, so its test for a negative value is false for
    every returned value and the branch behind it is dead: whatever the read
    returned, the handler dispatches on the stored value as a status word.
    Away from shutdown it therefore always clears the status register,
    also when the read itself failed, and before that it acts on the flags
    of the stored value [val], in the order VL, HD, SC: the low-voltage
    alert is muted exactly when the VL flag of [val] is set, and the HD
    branch and the SC branch each take a new sample (beginning with a read
    of the voltage register) exactly when their flag of [val] is set; with
    none of the three flags the handler does nothing but clear.  When the
    read failed with an errno, [val] is the errno plus 65536, whose HD and
    SC flags are set: the handler samples twice. *)
Theorem max17048_irq_error_branch_dead (s : state) :
  mutex (chip s) = false ->
  (forall r, (to_u16 r <? 0) = false) /\
  max17048_irq E s =
    (r <- max17048_read_word E MAX17048_STATUS ;;
     max17048_irq_dispatch E (model_data (pdata (chip s))) (to_u16 r)) s /\
  (shutdown_complete (chip s) = 0 ->
   exists s' pre w1 r1 w r2,
     max17048_irq E s = Some (IRQ_HANDLED, s') /\
     trace s' = pre ++ [I2cWriteWord MAX17048_STATUS 0 w1;
                        I2cReadWord MAX17048_CONFIG r1;
                        I2cWriteWord MAX17048_CONFIG w r2]) /\
  (shutdown_complete (chip s) = 0 ->
   let mdata := model_data (pdata (chip s)) in
   let a := to_s32 (i2c_smbus_read_word_data E (trace s) MAX17048_STATUS) in
   let val :=
     to_u16 (if a <? 0 then a
             else swab16 (to_u16 (Z.land a 0x0000ffff))) in
   let muted :=
     set_capacity_level POWER_SUPPLY_CAPACITY_LEVEL_CRITICAL
       (set_health POWER_SUPPLY_HEALTH_DEAD
          (set_status (lasttime_status (chip s))
             (set_lasttime_soc 0 (set_soc 0 (chip s))))) in
   exists s' pre hd sc w1 r1 w r2,
     max17048_irq E s = Some (IRQ_HANDLED, s') /\
     trace s' =
       trace s ++ I2cReadWord MAX17048_STATUS a :: pre ++ hd ++ sc ++
       [I2cWriteWord MAX17048_STATUS 0 w1;
        I2cReadWord MAX17048_CONFIG r1;
        I2cWriteWord MAX17048_CONFIG w r2] /\
     (Z.land val MAX17048_STATUS_VL = 0 -> pre = []) /\
     (Z.land val MAX17048_STATUS_VL <> 0 ->
      exists wret,
        pre = [PowerSupplyChanged;
               I2cWriteWord MAX17048_VALRT
                 (swab16 (to_u16 (to_u16 (Z.land (valert mdata) 0x00FF))))
                 wret]) /\
     (Z.land val MAX17048_STATUS_HD = 0 -> hd = []) /\
     (Z.land val MAX17048_STATUS_HD <> 0 ->
      exists v t, hd = I2cReadWord MAX17048_VCELL v :: t) /\
     (Z.land val MAX17048_STATUS_SC = 0 -> sc = []) /\
     (Z.land val MAX17048_STATUS_SC <> 0 ->
      exists v t, sc = I2cReadWord MAX17048_VCELL v :: t) /\
     (Z.land val MAX17048_STATUS_HD = 0 ->
      Z.land val MAX17048_STATUS_SC = 0 ->
      chip s' = (if Z.land val MAX17048_STATUS_VL =? 0
                 then chip s else muted)) /\
     (- 4095 <= a < 0 ->
      val = a + 65536 /\
      Z.land val MAX17048_STATUS_HD <> 0 /\
      Z.land val MAX17048_STATUS_SC <> 0)).
Proof.
  intros Hm.
  assert (Heq : max17048_irq E s =
    (r <- max17048_read_word E MAX17048_STATUS ;;
     max17048_irq_dispatch E (model_data (pdata (chip s))) (to_u16 r)) s).
  { unfold max17048_irq. unfold bind at 1. cbn [get_chip].
    unfold bind. destruct (max17048_read_word E MAX17048_STATUS s)
      as [[r s1]|]; [|reflexivity].
    rewrite to_u16_ltb0. reflexivity. }
  split; [exact to_u16_ltb0|]. split; [exact Heq|]. split.
  - intros Hsd. rewrite Heq.
    destruct (runs_max17048_read_word MAX17048_STATUS s Hm)
      as (r & s1 & Hread & Hm1 & Hsd1 & _).
    rewrite (bind_some _ _ _ _ _ Hread).
    rewrite Hsd in Hsd1.
    destruct (max17048_irq_dispatch_run (model_data (pdata (chip s)))
                (to_u16 r) s1 Hm1 Hsd1)
      as (s' & Hrun & (pre & w1 & r1 & w & r2 & Htr) & _).
    exists s', pre, w1, r1, w, r2. split; [exact Hrun|exact Htr].
  - intros Hsd mdata a val muted. rewrite Heq. fold mdata.
    unfold bind at 1. rewrite (max17048_read_word_eq _ s Hm), Hsd.
    cbn [Z.eqb negb]. cbv zeta.
    change (to_u8 MAX17048_STATUS) with MAX17048_STATUS.
    fold a. fold val.
    set (s1 := {| chip := chip s;
                  trace := trace s ++ [I2cReadWord MAX17048_STATUS a] |}).
    assert (Hm1 : mutex (chip s1) = false) by exact Hm.
    assert (Hsd1 : shutdown_complete (chip s1) = 0) by exact Hsd.
    assert (HVL : exists s2 pre,
      (if negb (Z.land val MAX17048_STATUS_VL =? 0)
       then max17048_irq_status_vl E mdata else ret tt) s1
      = Some (tt, s2) /\
      mutex (chip s2) = false /\ shutdown_complete (chip s2) = 0 /\
      trace s2 = trace s1 ++ pre /\
      chip s2 = (if Z.land val MAX17048_STATUS_VL =? 0
                 then chip s else muted) /\
      (Z.land val MAX17048_STATUS_VL = 0 -> pre = []) /\
      (Z.land val MAX17048_STATUS_VL <> 0 ->
       exists wret,
         pre = [PowerSupplyChanged;
                I2cWriteWord MAX17048_VALRT
                  (swab16 (to_u16 (to_u16 (Z.land (valert mdata) 0x00FF))))
                  wret])).
    { destruct (Z.eqb_spec (Z.land val MAX17048_STATUS_VL) 0) as [H0|H0];
        cbn [negb].
      - exists s1, []. split; [reflexivity|]. split; [exact Hm1|].
        split; [exact Hsd1|]. split; [symmetry; apply app_nil_r|].
        split; [reflexivity|]. split; [reflexivity|].
        intros K. contradiction.
      - destruct (max17048_irq_status_vl_eq mdata s1 Hm1 Hsd1)
          as (wret & H).
        eexists _, _. split; [exact H|]. cbn [chip trace].
        split; [exact Hm|]. split; [exact Hsd|].
        split; [reflexivity|]. split; [reflexivity|].
        split; [intros K; contradiction|]. intros _. exists wret.
        reflexivity. }
    destruct HVL as (s2 & pre & E2 & M2 & D2 & T2 & C2 & V0 & V1).
    assert (Rhd : runs (max17048_get_soc E ;;
                        c <- get_chip ;;
                        update (set_lasttime_soc (soc c)) ;;
                        power_supply_changed))
      by (unfold power_supply_changed; runs_tac).
    destruct (max17048_irq_sampling_flag MAX17048_STATUS_HD val _ s2
                Rhd M2 D2)
      as (s3 & t3 & E3 & M3 & D3 & T3 & H0 & H1).
    assert (Rsc : runs (max17048_get_soc E ;;
                        max17048_set_current_threshold ;;
                        max17048_sysedp_throttle ;;
                        c <- get_chip ;;
                        update (set_lasttime_soc (soc c)) ;;
                        power_supply_changed ;;
                        c <- get_chip ;;
                        if internal_soc c >=? 1 then
                          r <- max17048_write_word E MAX17048_VALRT
                                 (valert mdata) ;;
                          ret tt
                        else ret tt))
      by (unfold power_supply_changed; runs_tac).
    destruct (max17048_irq_sampling_flag MAX17048_STATUS_SC val _ s3
                Rsc M3 D3)
      as (s4 & t4 & E4 & M4 & D4 & T4 & S0 & S1).
    destruct (max17048_irq_tail_eq s4 M4 D4) as (w1 & r1 & w & r2 & E5).
    unfold max17048_irq_dispatch.
    rewrite (bind_some _ _ _ _ _ E2).
    unfold max17048_irq_status_hd.
    rewrite (bind_some _ _ _ _ _ E3).
    unfold max17048_irq_status_sc.
    rewrite (bind_some _ _ _ _ _ E4).
    rewrite E5.
    eexists _, pre, t3, t4, w1, r1, w, r2.
    split; [reflexivity|]. cbn [chip trace].
    split.
    { rewrite T4, T3, T2. unfold s1. cbn [trace].
      rewrite <- !app_assoc. reflexivity. }
    split; [exact V0|]. split; [exact V1|].
    split; [intros K; apply (H0 K)|]. split; [exact H1|].
    split; [intros K; apply (S0 K)|]. split; [exact S1|]. split.
    + intros Z0 Z1. destruct (H0 Z0) as (-> & _).
      destruct (S0 Z1) as (-> & _). exact C2.
    + intros Ha. unfold val.
      rewrite (proj2 (Z.ltb_lt a 0) (proj2 Ha)).
      apply errno_status_flags. exact Ha.
Qed.

(** *** Initialization *)

(** C1, what the code does instead: whatever the six register writes of
    [max17048_initialize] and the model loader return, the function goes on
    to its last step, the 200 ms delay, and returns 0.  Every result is
    first narrowed to the [uint8_t] local, which is never negative, so none
    of the tests for a failure can fire. *)
Theorem max17048_initialize_never_fails (s : state) :
  mutex (chip s) = false ->
  exists s' pre,
    max17048_initialize E s = Some (0, s') /\
    trace s' = pre ++ [Mdelay 200].
Proof.
  intros Hm. unfold max17048_initialize.
  unfold bind at 1. cbn [get_chip]. cbv zeta.
  run_step (runs_max17048_write_word MAX17048_UNLOCK MAX17048_UNLOCK_VALUE)
    Hm a1 s1 E1 S1.
  rewrite to_u8_ltb0.
  run_step runs_max17048_load_model_data (proj1 S1) a2 s2 E2 S2.
  rewrite to_u8_ltb0.
  match goal with
  | |- context [bind (max17048_write_word E MAX17048_CONFIG ?v)] =>
      run_step (runs_max17048_write_word MAX17048_CONFIG v)
        (proj1 S2) a3 s3 E3 S3
  end.
  rewrite to_u8_ltb0.
  match goal with
  | |- context [bind (max17048_write_word E MAX17048_VALRT ?v)] =>
      run_step (runs_max17048_write_word MAX17048_VALRT v)
        (proj1 S3) a4 s4 E4 S4
  end.
  rewrite to_u8_ltb0.
  match goal with
  | |- context [bind (max17048_write_word E MAX17048_VRESET ?v)] =>
      run_step (runs_max17048_write_word MAX17048_VRESET v)
        (proj1 S4) a5 s5 E5 S5
  end.
  rewrite to_u8_ltb0.
  run_step (runs_max17048_write_word MAX17048_UNLOCK 0x0000)
    (proj1 S5) a6 s6 E6 S6.
  rewrite to_u8_ltb0.
  drv_step. eexists _, _. split; reflexivity.
Qed.

(** The model loader does notice a failed write. *)
Lemma max17048_load_model_data_notices_failure :
  outcome (max17048_load_model_data failing_board
             {| chip := sample_chip; trace := [] |})
  = Some (- EIO, [I2cReadWord MAX17048_OCV (- EIO)]).
Proof. vm_compute. reflexivity. Qed.

End Properties.

(** ** The driver on the sample boards *)

(** On a board whose adapter fails every transaction, initialization
    attempts the unlock, the model load (which gives up at its first read),
    the config, alert and reset writes and the lock, and reports success. *)
Lemma max17048_initialize_on_failing_board :
  outcome (max17048_initialize failing_board sample_state)
  = Some (0,
          [I2cWriteWord MAX17048_UNLOCK (swab16 MAX17048_UNLOCK_VALUE)
             (- EIO);
           I2cReadWord MAX17048_OCV (- EIO);
           I2cWriteWord MAX17048_CONFIG (swab16 0x6958) (- EIO);
           I2cWriteWord MAX17048_VALRT (swab16 0x96D7) (- EIO);
           I2cWriteWord MAX17048_VRESET (swab16 0x3c00) (- EIO);
           I2cWriteWord MAX17048_UNLOCK 0 (- EIO);
           Mdelay 200]).
Proof. vm_compute. reflexivity. Qed.

(** C2, what the code does instead: on a board whose charge-state
    register reads [0x0500] after the model is loaded, the high byte 5 is
    outside the window [240,242]; the model loader stops there, but the value
    it returns is the word it read, which is not negative, and
    initialization treats it as success: it goes on to write the config,
    alert and reset registers, locks the model and returns 0. *)
Theorem max17048_initialize_accepts_unverified_model :
  Z.shiftr 0x0500 8 < soccheck_A sample_model /\
  outcome (max17048_load_model_data (soc_board 0x0500) sample_state)
  = Some (0x0500,
          [I2cReadWord MAX17048_OCV 0;
           I2cWriteBlock 0x40 16 (repeat 0xAA 16) 0;
           I2cWriteBlock 0x50 16 (repeat 0xAA 16) 0;
           I2cWriteBlock 0x60 16 (repeat 0xAA 16) 0;
           I2cWriteBlock 0x70 16 (repeat 0xAA 16) 0;
           I2cWriteWord MAX17048_OCV (swab16 55952) 0;
           I2cWriteBlock MAX17048_RCOMPSEG1 16
             (concat (repeat [0; 0x80] 8)) 0;
           I2cWriteBlock MAX17048_RCOMPSEG2 16
             (concat (repeat [0; 0x80] 8)) 0;
           I2cWriteWord MAX17048_HIBRT 0 0;
           I2cWriteWord MAX17048_UNLOCK 0 0;
           Mdelay 200;
           I2cReadWord MAX17048_SOC (swab16 0x0500)]) /\
  outcome (max17048_initialize (soc_board 0x0500) sample_state)
  = Some (0,
          [I2cWriteWord MAX17048_UNLOCK (swab16 MAX17048_UNLOCK_VALUE) 0;
           I2cReadWord MAX17048_OCV 0;
           I2cWriteBlock 0x40 16 (repeat 0xAA 16) 0;
           I2cWriteBlock 0x50 16 (repeat 0xAA 16) 0;
           I2cWriteBlock 0x60 16 (repeat 0xAA 16) 0;
           I2cWriteBlock 0x70 16 (repeat 0xAA 16) 0;
           I2cWriteWord MAX17048_OCV (swab16 55952) 0;
           I2cWriteBlock MAX17048_RCOMPSEG1 16
             (concat (repeat [0; 0x80] 8)) 0;
           I2cWriteBlock MAX17048_RCOMPSEG2 16
             (concat (repeat [0; 0x80] 8)) 0;
           I2cWriteWord MAX17048_HIBRT 0 0;
           I2cWriteWord MAX17048_UNLOCK 0 0;
           Mdelay 200;
           I2cReadWord MAX17048_SOC (swab16 0x0500);
           I2cWriteWord MAX17048_CONFIG (swab16 0x6958) 0;
           I2cWriteWord MAX17048_VALRT (swab16 0x96D7) 0;
           I2cWriteWord MAX17048_VRESET (swab16 0x3c00) 0;
           I2cWriteWord MAX17048_UNLOCK 0 0;
           Mdelay 200]).
Proof. repeat split; vm_compute; reflexivity. Qed.

(** With the charge state inside the window the loader unlocks the model
    again and restores the open-circuit voltage it had read. *)
Lemma max17048_load_model_data_verified :
  outcome (max17048_load_model_data (soc_board 0xF100) sample_state)
  = Some (0,
          [I2cReadWord MAX17048_OCV 0;
           I2cWriteBlock 0x40 16 (repeat 0xAA 16) 0;
           I2cWriteBlock 0x50 16 (repeat 0xAA 16) 0;
           I2cWriteBlock 0x60 16 (repeat 0xAA 16) 0;
           I2cWriteBlock 0x70 16 (repeat 0xAA 16) 0;
           I2cWriteWord MAX17048_OCV (swab16 55952) 0;
           I2cWriteBlock MAX17048_RCOMPSEG1 16
             (concat (repeat [0; 0x80] 8)) 0;
           I2cWriteBlock MAX17048_RCOMPSEG2 16
             (concat (repeat [0; 0x80] 8)) 0;
           I2cWriteWord MAX17048_HIBRT 0 0;
           I2cWriteWord MAX17048_UNLOCK 0 0;
           Mdelay 200;
           I2cReadWord MAX17048_SOC (swab16 0xF100);
           I2cWriteWord MAX17048_UNLOCK (swab16 MAX17048_UNLOCK_VALUE) 0;
           I2cWriteWord MAX17048_OCV 0 0]).
Proof. vm_compute. reflexivity. Qed.

Lemma max17048_initialize_never_fails_witness :
  mutex (chip sample_state) = false /\
  exists s' pre,
    max17048_initialize failing_board sample_state = Some (0, s') /\
    trace s' = pre ++ [Mdelay 200].
Proof.
  split; [reflexivity|].
  apply (max17048_initialize_never_fails failing_board sample_state).
  reflexivity.
Defined.

Lemma transport_fenced_after_shutdown_witness :
  mutex (chip shutdown_state) = false /\
  shutdown_complete (chip shutdown_state) <> 0 /\
  max17048_read_word (soc_board 0xC800) MAX17048_SOC shutdown_state
  = Some (- ENODEV, shutdown_state) /\
  max17048_write_word (soc_board 0xC800) MAX17048_HIBRT 0xffff
    shutdown_state
  = Some (- ENODEV, shutdown_state) /\
  max17048_write_block (soc_board 0xC800) MAX17048_TABLE 16
    (repeat 0xAA 16) shutdown_state
  = Some (- ENODEV, shutdown_state).
Proof.
  assert (H1 : mutex (chip shutdown_state) = false) by reflexivity.
  assert (H2 : shutdown_complete (chip shutdown_state) <> 0)
    by (simpl; lia).
  destruct (transport_fenced_after_shutdown (soc_board 0xC800)
              shutdown_state H1 H2) as (R & W & B).
  split; [exact H1|]. split; [exact H2|]. split; [apply R|].
  split; [apply W|apply B].
Defined.

Lemma global_queries_guard_null_witness :
  max17048_check_vcell {| max17048_data := None; history := [] |}
  = (-1, {| max17048_data := None; history := [] |}) /\
  max17048_check_soc {| max17048_data := None; history := [] |}
  = (-1, {| max17048_data := None; history := [] |}) /\
  max17048_check_battery failing_board
    {| max17048_data := None; history := [] |}
  = Some (- ENODEV, {| max17048_data := None; history := [] |}).
Proof.
  apply (global_queries_guard_null failing_board
           {| max17048_data := None; history := [] |}).
  reflexivity.
Defined.

(** A charging battery whose charge-state register reads [0xC800], an
    internal charge state of 100 at 19 bits, is reported full. *)
Lemma max17048_get_soc_derived_state_witness :
  exists s',
    max17048_get_soc (soc_board 0xC800) charging_state = Some (tt, s') /\
    internal_soc (chip s') = 100 /\
    status (chip s') = POWER_SUPPLY_STATUS_FULL /\
    soc (chip s') = 100 /\
    capacity_level (chip s') = POWER_SUPPLY_CAPACITY_LEVEL_FULL /\
    health (chip s') = POWER_SUPPLY_HEALTH_GOOD.
Proof.
  destruct (max17048_get_soc_derived_state (soc_board 0xC800)
              charging_state
              {| chip := charging_chip;
                 trace := [I2cReadWord MAX17048_SOC (swab16 0xC800)] |}
              0xC800)
    as (s' & Hrun & _ & Hsoc & Hfull & _).
  - reflexivity.
  - vm_compute. reflexivity.
  - lia.
  - exists s'. split; [exact Hrun|]. split; [exact Hsoc|].
    assert (H100 : 100 <= 100) by lia.
    destruct (Hfull H100) as (Hst & _ & Hs & Hc & Hh).
    repeat split; try assumption. apply Hst. reflexivity.
Defined.

(** With the table [(30,500); (60,900)] and an internal charge state of
    45 the driver selects 900, the first and only bound that is at least 45,
    and calls the callback with it and the tightened priority. *)
Lemma max17048_set_current_threshold_selects_witness :
  exists s',
    max17048_set_current_threshold (state_at sample_pdata 45 1200)
    = Some (tt, s') /\
    current_threshold (chip s') = 900 /\
    trace s' = [SetCurrentThreshold 900 1 0] /\
    lasttime_current_threshold (chip s') = 900.
Proof.
  destruct (max17048_set_current_threshold_selects
              (state_at sample_pdata 45 1200))
    as (s' & Hrun & Hon & _).
  - simpl. lia.
  - simpl. lia.
  - destruct (Hon eq_refl) as (Hsel & _ & Hcall).
    destruct Hcall as (r & Htr & Hok & _); [vm_compute; discriminate|].
    exists s'. split; [exact Hrun|]. split; [exact Hsel|].
    assert (Hr : r = 0).
    { pose proof Hrun as Hc. vm_compute in Hc.
      inversion Hc as [Hs]. rewrite <- Hs in Htr.
      vm_compute in Htr. inversion Htr. reflexivity. }
    subst r. split; [exact Htr|]. apply Hok. lia.
Defined.

(** At an internal charge state of 70 no bound of that table is large
    enough and the selection is the normal threshold, which is the shadow
    value already: the callback is not called. *)
Lemma max17048_set_current_threshold_falls_back :
  max17048_set_current_threshold (state_at sample_pdata 70 1200)
  = Some (tt, state_at sample_pdata 70 1200).
Proof. reflexivity. Qed.

(** C5 does not hold as stated: with the same table and callback but no
    normal threshold configured, the first matching entry at an internal
    charge state of 45 is (60,900), yet the driver selects nothing: the
    threshold stays 0 and the callback is not called. *)
Lemma max17048_set_current_threshold_gated :
  exists s',
    max17048_set_current_threshold (state_at pdata_without_normal 45 0)
    = Some (tt, s') /\
    threshold_table pdata_without_normal = [(30, 500); (60, 900)] /\
    spec_selected_threshold (threshold_table pdata_without_normal)
      (current_normal pdata_without_normal) 45 = 900 /\
    current_threshold (chip s') = 0 /\
    current_threshold (chip s')
    <> spec_selected_threshold (threshold_table pdata_without_normal)
         (current_normal pdata_without_normal) 45 /\
    trace s' = [].
Proof.
  exists (state_at pdata_without_normal 45 0).
  repeat split. vm_compute. discriminate.
Qed.

(** At 40 degrees the sample model, with base 105 and hot coefficient
    -1125, is compensated by -22: the upper byte written is 83. *)
Lemma max17048_update_rcomp_writes_clamped_witness :
  exists wire wret s',
    max17048_update_rcomp (registers_board [(MAX17048_CONFIG, 0x6958)])
      40000 sample_state = Some (tt, s') /\
    trace s' = [I2cReadWord MAX17048_CONFIG (swab16 0x6958);
                I2cWriteWord MAX17048_CONFIG wire wret] /\
    Z.shiftr (register_word wire) 8 = 83 /\
    Z.shiftr (register_word wire) 8 = spec_rcomp sample_model 40000 /\
    Z.land (register_word wire) 0xFF = 0x58.
Proof.
  destruct (max17048_update_rcomp_writes_clamped
              (registers_board [(MAX17048_CONFIG, 0x6958)])
              sample_state
              {| chip := sample_chip;
                 trace := [I2cReadWord MAX17048_CONFIG (swab16 0x6958)] |}
              0x6958 40000)
    as (wire & wret & s' & Hrun & Htr & _ & Hnew & Hlow & Hspec).
  - reflexivity.
  - vm_compute. reflexivity.
  - lia.
  - exists wire, wret, s'. split; [exact Hrun|]. split; [exact Htr|].
    split; [exact Hnew|]. split; [|exact Hlow].
    apply Hspec; vm_compute; split; congruence.
Defined.

(** C6 does not hold as stated: with base 100 and hot coefficient
    -2147483648, at a temperature input of 2020000 the exact compensation is
    -4294967296 and the clamp of the specification is 0; the driver narrows
    the compensation to an [int], which leaves 0, and writes 100. *)
Lemma max17048_update_rcomp_wraps :
  spec_delta (t_co_hot steep_model) (t_co_cold steep_model) 2020000
  = - 4294967296 /\
  spec_rcomp steep_model 2020000 = 0 /\
  new_rcomp steep_model 2020000 = 100 /\
  outcome (max17048_update_rcomp
             (registers_board [(MAX17048_CONFIG, 0x6458)])
             2020000 steep_state)
  = Some (tt, [I2cReadWord MAX17048_CONFIG (swab16 0x6458);
               I2cWriteWord MAX17048_CONFIG (swab16 0x6458) 0]) /\
  Z.shiftr (register_word (swab16 0x6458)) 8 = 100 /\
  Z.shiftr (register_word (swab16 0x6458)) 8
  <> spec_rcomp steep_model 2020000.
Proof. repeat split; vm_compute; congruence. Qed.

(** On a board whose status register reads the VL flag alone, the handler
    of [sample_state], whose configured alert word is [0x96D7], writes
    [0x00D7] to the voltage-alert register. *)
Lemma max17048_irq_voltage_low_mutes_min_alert_witness :
  exists s' wire wret rest,
    max17048_irq (registers_board [(MAX17048_STATUS, 0x0400)]) sample_state
    = Some (IRQ_HANDLED, s') /\
    trace s' =
      I2cReadWord MAX17048_STATUS (swab16 0x0400)
      :: PowerSupplyChanged
      :: I2cWriteWord MAX17048_VALRT wire wret :: rest /\
    Z.shiftr (register_word wire) 8 = 0 /\
    Z.land (register_word wire) 0xFF = 0xD7 /\
    soc (chip s') = 0 /\
    lasttime_soc (chip s') = 0 /\
    status (chip s') = POWER_SUPPLY_STATUS_DISCHARGING /\
    health (chip s') = POWER_SUPPLY_HEALTH_DEAD /\
    capacity_level (chip s') = POWER_SUPPLY_CAPACITY_LEVEL_CRITICAL.
Proof.
  destruct (max17048_irq_voltage_low_mutes_min_alert
              (registers_board [(MAX17048_STATUS, 0x0400)])
              sample_state
              {| chip := sample_chip;
                 trace := [I2cReadWord MAX17048_STATUS (swab16 0x0400)] |}
              0x0400)
    as (s' & Hrun & Hvl & _).
  - reflexivity.
  - vm_compute. reflexivity.
  - lia.
  - destruct Hvl as (wire & wret & rest & Htr & Hhigh & Hlow & Hfields).
    { vm_compute. discriminate. }
    destruct Hfields as (F1 & F2 & F3 & F4 & F5);
      [reflexivity|reflexivity|].
    exists s', wire, wret, rest.
    repeat split; assumption.
Defined.

(** C7 does not hold as stated: the word written for the VL flag keeps
    the lower byte of the configured alert word [0x96D7] and clears its
    upper byte, where the claim has the lower byte change and the upper byte
    stay. *)
Lemma max17048_irq_voltage_low_clears_high_byte :
  outcome (max17048_irq (registers_board [(MAX17048_STATUS, 0x0400)])
             sample_state)
  = Some (IRQ_HANDLED,
          [I2cReadWord MAX17048_STATUS (swab16 0x0400);
           PowerSupplyChanged;
           I2cWriteWord MAX17048_VALRT (swab16 0x00D7) 0;
           I2cWriteWord MAX17048_STATUS 0 0;
           I2cReadWord MAX17048_CONFIG 0;
           I2cWriteWord MAX17048_CONFIG 0 0]) /\
  valert sample_model = 0x96D7 /\
  register_word (swab16 0x00D7) = 0x00D7 /\
  Z.shiftr (register_word (swab16 0x00D7)) 8
  <> Z.shiftr (valert sample_model) 8 /\
  Z.land (register_word (swab16 0x00D7)) 0xFF
  = Z.land (valert sample_model) 0xFF.
Proof. repeat split; vm_compute; congruence. Qed.

(** After the VL flag has muted the alert, a status word with the SC flag
    and a charge-state register reading [0x6400] (an internal charge state
    of 50) writes the full alert word back. *)
Lemma max17048_irq_soc_change_restores_alert :
  outcome (max17048_irq
             (registers_board [(MAX17048_STATUS, 0x2000);
                               (MAX17048_SOC, 0x6400)])
             sample_state)
  = Some (IRQ_HANDLED,
          [I2cReadWord MAX17048_STATUS (swab16 0x2000);
           I2cReadWord MAX17048_VCELL 0;
           I2cReadWord MAX17048_SOC (swab16 0x6400);
           SetCurrentThreshold 900 1 0;
           SysedpThrottle 900;
           PowerSupplyChanged;
           I2cWriteWord MAX17048_VALRT (swab16 0x96D7) 0;
           I2cWriteWord MAX17048_STATUS 0 0;
           I2cReadWord MAX17048_CONFIG 0;
           I2cWriteWord MAX17048_CONFIG 0 0]).
Proof. vm_compute. reflexivity. Qed.

(** The change report of a context whose status is full while its shadow
    status is charging: the shadow charge follows, the shadow status does
    not. *)
Lemma max17048_work_report_shadow_witness :
  exists s',
    max17048_work_report
      {| chip := set_soc 100 (set_status POWER_SUPPLY_STATUS_FULL
                                charging_chip);
         trace := [] |} = Some (tt, s') /\
    lasttime_soc (chip s') = 100 /\
    lasttime_status (chip s') = POWER_SUPPLY_STATUS_CHARGING /\
    trace s' = [PowerSupplyChanged].
Proof.
  destruct (max17048_work_report_shadow
              {| chip := set_soc 100 (set_status POWER_SUPPLY_STATUS_FULL
                                        charging_chip);
                 trace := [] |})
    as (s' & Hrun & Hls & _ & _ & Hdiff & _).
  exists s'. split; [exact Hrun|].
  destruct Hdiff as (H1 & H2); [left; simpl; lia|].
  repeat split; assumption.
Defined.

(** C8 does not hold as stated: a sampling pass over a charging battery
    whose charge-state register reads [0xC800] promotes the status to full;
    at its end the status differs from the shadow status, a notification is
    raised and the shadow charge is 100, but the shadow status is still
    charging, not the current status. *)
Lemma max17048_work_leaves_shadow_status :
  exists s',
    max17048_work (soc_board 0xC800) charging_state = Some (tt, s') /\
    soc (chip s') = 100 /\
    status (chip s') = POWER_SUPPLY_STATUS_FULL /\
    lasttime_soc (chip s') = 100 /\
    lasttime_status (chip s') = POWER_SUPPLY_STATUS_CHARGING /\
    lasttime_status (chip s') <> status (chip s') /\
    In PowerSupplyChanged (trace s').
Proof.
  eexists. split; [lazy; reflexivity|]. lazy.
  repeat split; try discriminate. tauto.
Qed.

(** On a board whose adapter fails every transaction the status read
    returns [-EIO]; the handler takes the stored [0xFFFB] for a status word
    with every flag set, mutes the alert, samples again and goes on to clear
    the status register. *)
Lemma max17048_irq_error_branch_dead_witness :
  mutex (chip sample_state) = false /\
  shutdown_complete (chip sample_state) = 0 /\
  to_u16 (- EIO) = 0xFFFB /\
  (exists s' pre w1 r1 w r2,
     max17048_irq failing_board sample_state = Some (IRQ_HANDLED, s') /\
     trace s' = pre ++ [I2cWriteWord MAX17048_STATUS 0 w1;
                        I2cReadWord MAX17048_CONFIG r1;
                        I2cWriteWord MAX17048_CONFIG w r2]) /\
  (exists s' wret v1 t1 v2 t2 w1 r1 w r2,
     max17048_irq failing_board sample_state = Some (IRQ_HANDLED, s') /\
     trace s' =
       I2cReadWord MAX17048_STATUS (- EIO)
       :: PowerSupplyChanged
       :: I2cWriteWord MAX17048_VALRT (swab16 0x00D7) wret
       :: (I2cReadWord MAX17048_VCELL v1 :: t1) ++
          (I2cReadWord MAX17048_VCELL v2 :: t2) ++
          [I2cWriteWord MAX17048_STATUS 0 w1;
           I2cReadWord MAX17048_CONFIG r1;
           I2cWriteWord MAX17048_CONFIG w r2]).
Proof.
  split; [reflexivity|]. split; [reflexivity|]. split; [reflexivity|].
  destruct (max17048_irq_error_branch_dead failing_board sample_state)
    as (_ & _ & H3 & H4); [reflexivity|].
  split; [apply H3; reflexivity|].
  pose proof (H4 eq_refl) as H5. cbv zeta in H5.
  destruct H5 as (s' & pre & hd & sc & w1 & r1 & w & r2 & Hrun & Htr & _
                  & Hvl & _ & Hhd & _ & Hsc & _).
  destruct Hvl as (wret & ->); [vm_compute; discriminate|].
  destruct Hhd as (v1 & t1 & ->); [vm_compute; discriminate|].
  destruct Hsc as (v2 & t2 & ->); [vm_compute; discriminate|].
  exists s', wret, v1, t1, v2, t2, w1, r1, w, r2.
  split; [exact Hrun|exact Htr].
Defined.

Lemma max17048_irq_on_failing_board :
  outcome (max17048_irq failing_board sample_state)
  = Some (IRQ_HANDLED,
          [I2cReadWord MAX17048_STATUS (- EIO);
           PowerSupplyChanged;
           I2cWriteWord MAX17048_VALRT (swab16 0x00D7) (- EIO);
           I2cReadWord MAX17048_VCELL (- EIO);
           I2cReadWord MAX17048_SOC (- EIO);
           PowerSupplyChanged;
           I2cReadWord MAX17048_VCELL (- EIO);
           I2cReadWord MAX17048_SOC (- EIO);
           SetCurrentThreshold 500 1 0;
           SysedpThrottle 500;
           PowerSupplyChanged;
           I2cWriteWord MAX17048_STATUS 0 (- EIO);
           I2cReadWord MAX17048_CONFIG (- EIO);
           I2cWriteWord MAX17048_CONFIG (swab16 0xFFDB) (- EIO)]).
Proof. vm_compute. reflexivity. Qed.

(** ** Further properties of the driver *)

(** *** Rules for [triple] *)

Lemma triple_ret {A : Type} (P Q : state -> Prop) (a : A) :
  (forall s, P s -> Q s) -> triple P (ret a) Q.
Proof.
  intros H s Hm Hp. exists a, s. split; [reflexivity|]. auto.
Qed.

Lemma triple_bind {A B : Type} (P Q R : state -> Prop) (m : M A)
  (k : A -> M B) :
  triple P m Q -> (forall a, triple Q (k a) R) -> triple P (bind m k) R.
Proof.
  intros Hm Hk s H Hp.
  destruct (Hm s H Hp) as (a & s1 & E1 & M1 & Q1).
  destruct (Hk a s1 M1 Q1) as (b & s2 & E2 & M2 & R2).
  exists b, s2. rewrite (bind_some _ _ _ _ _ E1). auto.
Qed.

Lemma triple_if {A : Type} (P Q : state -> Prop) (b : bool) (m1 m2 : M A) :
  triple P m1 Q -> triple P m2 Q -> triple P (if b then m1 else m2) Q.
Proof. destruct b; auto. Qed.

Lemma triple_get_chip (P : state -> Prop) : triple P get_chip P.
Proof.
  intros s Hm Hp. exists (chip s), s. split; [reflexivity|]. auto.
Qed.

Lemma triple_update (P Q : state -> Prop) f :
  (forall c, mutex (f c) = mutex c) ->
  (forall s, P s -> Q {| chip := f (chip s); trace := trace s |}) ->
  triple P (update f) Q.
Proof.
  intros Hf H s Hm Hp. eexists tt, _. split; [reflexivity|].
  cbn [chip]. rewrite Hf. auto.
Qed.

Lemma triple_emit (P Q : state -> Prop) e :
  (forall s, P s -> Q {| chip := chip s; trace := trace s ++ [e] |}) ->
  triple P (emit e) Q.
Proof.
  intros H s Hm Hp. eexists tt, _. split; [reflexivity|]. auto.
Qed.

(** *** The byte swap *)

Lemma swab16_range (x : Z) : 0 <= swab16 x < 65536.
Proof.
  unfold swab16. rewrite !land_0xff, shiftr_8.
  assert (Ha : 0 <= (x / 256) mod 256 < 256)
    by (apply Z.mod_pos_bound; lia).
  assert (Hn : 0 <= x mod 256 < 256) by (apply Z.mod_pos_bound; lia).
  rewrite Z.lor_comm, lor_byte_shiftl by exact Ha. lia.
Qed.

Lemma register_word_wire (v : Z) :
  0 <= v < 65536 ->
  swab16 (to_u16 (Z.land (to_s32 (swab16 v)) 0x0000ffff)) = v /\
  (to_s32 (swab16 v) <? 0) = false.
Proof.
  intros Hv. pose proof (swab16_range v) as Hr.
  rewrite to_s32_small by (change (2 ^ 31) with 2147483648; lia).
  change 0x0000ffff with (Z.ones 16). rewrite Z.land_ones by lia.
  change (2 ^ 16) with 65536.
  rewrite (Z.mod_small (swab16 v)) by exact Hr.
  rewrite to_u16_small by exact Hr.
  split; [apply swab16_involutive; exact Hv|].
  apply Z.ltb_ge. lia.
Qed.

Lemma triple_bind_inv {A B : Type} (P : state -> Prop) (m : M A)
  (k : A -> M B) :
  triple P m P -> (forall a, triple P (k a) P) -> triple P (bind m k) P.
Proof. apply triple_bind. Qed.

Create HintDb tri discriminated.

(** Follows the structure of a program to show that it keeps an
    invariant; [upd] settles what the invariant asks of a field update or
    of an event. *)
Ltac tri_tac upd :=
  repeat first
    [ solve [auto with tri]
    | match goal with
      | |- triple _ (bind _ _) _ => apply triple_bind_inv; [|intros ?]
      | |- triple _ (if _ then _ else _) _ => apply triple_if
      | |- triple _ (match ?x with _ => _ end) _ => destruct x
      | |- triple _ (let _ := _ in _) _ => cbv zeta
      | |- triple _ (update _) _ =>
          apply triple_update; [intros; reflexivity|upd]
      | |- triple _ (emit _) _ => apply triple_emit; upd
      | |- triple _ (ret _) _ => apply triple_ret; upd
      | |- triple _ get_chip _ => apply triple_get_chip
      end ].

(** The registers of the map are their own [u8] command. *)
Ltac reg8 :=
  change (to_u8 MAX17048_VCELL) with MAX17048_VCELL in *;
  change (to_u8 MAX17048_SOC) with MAX17048_SOC in *;
  change (to_u8 MAX17048_VER) with MAX17048_VER in *;
  change (to_u8 MAX17048_HIBRT) with MAX17048_HIBRT in *;
  change (to_u8 MAX17048_CONFIG) with MAX17048_CONFIG in *;
  change (to_u8 MAX17048_OCV) with MAX17048_OCV in *;
  change (to_u8 MAX17048_VALRT) with MAX17048_VALRT in *;
  change (to_u8 MAX17048_VRESET) with MAX17048_VRESET in *;
  change (to_u8 MAX17048_STATUS) with MAX17048_STATUS in *;
  change (to_u8 MAX17048_UNLOCK) with MAX17048_UNLOCK in *.

(** Symbolic execution of the primitives of the monad. *)
Ltac drv_run :=
  cbn [bind ret get_chip update emit power_supply_changed mdelay
       chip trace pdata vcell soc status health capacity_level temperature
       current_threshold internal_soc lasttime_soc lasttime_status
       lasttime_temperature lasttime_current_threshold shutdown_complete
       mutex set_vcell set_soc set_status set_health set_capacity_level
       set_temperature set_current_threshold_field set_internal_soc
       set_lasttime_soc set_lasttime_status set_lasttime_temperature
       set_lasttime_current_threshold set_shutdown_complete set_mutex].

Section Coverage.

Variable E : environment.

(** *** Register transport *)

(** X1: a word written with [max17048_write_word] and read back with
    [max17048_read_word] from a device that answers the read with the wire
    word it was last sent comes back as the 16-bit value that was written:
    the two byte swaps cancel.  The register the bus sees is the [u8]
    command, the low eight bits of [reg], in both transactions. *)
Theorem transport_round_trip (s : state) (reg value : Z) :
  mutex (chip s) = false ->
  shutdown_complete (chip s) = 0 ->
  (forall r,
      i2c_smbus_read_word_data E
        (trace s ++ [I2cWriteWord (to_u8 reg) (swab16 (to_u16 value)) r])
        (to_u8 reg)
      = swab16 (to_u16 value)) ->
  exists s',
    (max17048_write_word E reg value ;; max17048_read_word E reg) s
    = Some (to_u16 value, s') /\
    chip s' = chip s.
Proof.
  intros Hm Hsd Hdev. unfold bind.
  rewrite (max17048_write_word_eq E _ _ s Hm), Hsd.
  cbn [Z.eqb negb]. cbv zeta.
  rewrite max17048_read_word_eq by exact Hm.
  cbn [chip trace]. rewrite Hsd. cbn [Z.eqb negb]. cbv zeta.
  rewrite Hdev.
  destruct (register_word_wire (to_u16 value) (to_u16_range value))
    as (Hv & Hneg).
  rewrite Hneg, Hv. eexists. split; reflexivity.
Qed.

(** The cases of [max17048_read_word]. *)
Lemma max17048_read_word_cases (s : state) (reg : Z) :
  mutex (chip s) = false ->
  exists r s',
    max17048_read_word E reg s = Some (r, s') /\
    chip s' = chip s /\
    (r < 0 \/ 0 <= r < 65536) /\
    (shutdown_complete (chip s) <> 0 -> r = - ENODEV /\ s' = s) /\
    (shutdown_complete (chip s) = 0 ->
     let a := to_s32 (i2c_smbus_read_word_data E (trace s) (to_u8 reg)) in
     trace s' = trace s ++ [I2cReadWord (to_u8 reg) a] /\
     (a < 0 -> r = a) /\
     (0 <= a -> r = register_word (a mod 65536))).
Proof.
  intros Hm. rewrite (max17048_read_word_eq E reg s Hm).
  destruct (Z.eqb_spec (shutdown_complete (chip s)) 0) as [Hsd|Hsd];
    cbn [negb]; cbv zeta.
  - set (a := to_s32 (i2c_smbus_read_word_data E (trace s) (to_u8 reg))).
    eexists _, _. split; [reflexivity|]. cbn [chip trace].
    split; [reflexivity|].
    assert (Hland : Z.land a 0x0000ffff = a mod 65536).
    { change 0x0000ffff with (Z.ones 16). rewrite Z.land_ones by lia.
      reflexivity. }
    assert (Hu : to_u16 (a mod 65536) = a mod 65536).
    { apply to_u16_small. apply Z.mod_pos_bound. lia. }
    destruct (Z.ltb_spec a 0) as [Ha|Ha].
    + split; [left; exact Ha|]. split; [intros K; contradiction|].
      intros _. split; [reflexivity|]. split; [reflexivity|lia].
    + rewrite Hland, Hu.
      split; [right; apply swab16_range|].
      split; [intros K; contradiction|].
      intros _. split; [reflexivity|]. split; [lia|reflexivity].
  - exists (- ENODEV), s. split; [reflexivity|]. split; [reflexivity|].
    split; [left; unfold ENODEV; lia|].
    split; [intros _; split; reflexivity|]. intros K. contradiction.
Qed.

(** X2: [max17048_read_word] returns either a 16-bit value or a negative
    error.  Behind the fence the error is [-ENODEV]; otherwise a negative
    answer of the adapter is passed on unchanged, and any other answer
    yields the byte-swapped low 16 bits, with exactly one bus read in both
    cases, of the register that the [u8] command selects: the low eight
    bits of [reg].  The driver context is never changed. *)
Theorem max17048_read_word_result (s : state) (reg : Z) :
  mutex (chip s) = false ->
  exists r s',
    max17048_read_word E reg s = Some (r, s') /\
    chip s' = chip s /\
    (r < 0 \/ 0 <= r < 65536) /\
    (shutdown_complete (chip s) <> 0 -> r = - ENODEV /\ s' = s) /\
    (shutdown_complete (chip s) = 0 ->
     let a := to_s32 (i2c_smbus_read_word_data E (trace s) (to_u8 reg)) in
     trace s' = trace s ++ [I2cReadWord (to_u8 reg) a] /\
     (a < 0 -> r = a) /\
     (0 <= a -> r = register_word (a mod 65536))).
Proof. exact (max17048_read_word_cases s reg). Qed.

(** *** Voltage and charge sampling *)

(** X3: [max17048_get_vcell] changes nothing but the voltage.  When the
    read fails the voltage keeps its previous value; when it returns the
    register word [r] the voltage becomes [(r >> 4) * 125 / 100]
    millivolts, between 0 and 5118. *)
Theorem max17048_get_vcell_converts (s : state) :
  mutex (chip s) = false ->
  exists r s1 s',
    max17048_read_word E MAX17048_VCELL s = Some (r, s1) /\
    max17048_get_vcell E s = Some (tt, s') /\
    trace s' = trace s1 /\
    (r < 0 -> chip s' = chip s) /\
    (0 <= r ->
     chip s' = set_vcell (Z.shiftr r 4 * 125 / 100) (chip s) /\
     0 <= vcell (chip s') <= 5118).
Proof.
  intros Hm.
  destruct (max17048_read_word_cases s MAX17048_VCELL Hm)
    as (r & s1 & Hread & Hc & Hrange & _).
  exists r, s1. unfold max17048_get_vcell.
  rewrite (bind_some _ _ _ _ _ Hread).
  destruct (Z.ltb_spec r 0) as [Hr|Hr].
  - exists s1. split; [exact Hread|]. split; [reflexivity|].
    split; [reflexivity|]. split; [intros _; exact Hc|]. lia.
  - eexists. split; [exact Hread|]. split; [reflexivity|].
    cbn [chip trace]. split; [reflexivity|]. split; [lia|]. intros _.
    assert (H16 : 0 <= r < 65536) by lia.
    assert (Hsh : 0 <= Z.shiftr r 4 <= 4095).
    { rewrite Z.shiftr_div_pow2 by lia. change (2 ^ 4) with 16.
      Z.to_euclidean_division_equations. lia. }
    assert (Hq : Z.shiftr r 4 * 125 ÷ 100 = Z.shiftr r 4 * 125 / 100).
    { apply Z.quot_div_nonneg; lia. }
    assert (Hv : 0 <= Z.shiftr r 4 * 125 / 100 <= 5118).
    { Z.to_euclidean_division_equations. lia. }
    rewrite Hq, to_u16_small by lia. rewrite Hc.
    split; [reflexivity|]. cbn [vcell set_vcell]. exact Hv.
Qed.

(** Everything [max17048_get_soc] does, whatever the read returns: the
    internal charge state follows a successful read and is kept otherwise;
    the reported charge, health, level and status are derived from it. *)
Lemma max17048_get_soc_eq (s : state) :
  mutex (chip s) = false ->
  exists r s1,
    max17048_read_word E MAX17048_SOC s = Some (r, s1) /\
    let isoc :=
      if r <? 0 then internal_soc (chip s)
      else if bits (model_data (pdata (chip s))) =? 18
           then Z.shiftr (to_u16 r) 8
           else Z.shiftr (to_u16 r) 9 in
    max17048_get_soc E s =
    Some (tt,
          {| chip :=
               set_capacity_level (derived_capacity_level isoc)
                 (set_health (derived_health isoc)
                    (set_status
                       (if isoc >=? MAX17048_BATTERY_FULL
                        then if status_eqb (status (chip s))
                                  POWER_SUPPLY_STATUS_CHARGING
                             then POWER_SUPPLY_STATUS_FULL
                             else status (chip s)
                        else lasttime_status (chip s))
                       (set_soc (Z.min isoc 100)
                          (set_internal_soc isoc (chip s)))));
             trace := trace s1 |}).
Proof.
  intros Hm.
  destruct (max17048_read_word_cases s MAX17048_SOC Hm)
    as (r & s1 & Hread & Hc & _).
  exists r, s1. split; [exact Hread|]. cbv zeta.
  unfold max17048_get_soc. unfold bind at 1. cbn [get_chip].
  rewrite (bind_some _ _ _ _ _ Hread).
  destruct s1 as [c1 t1]. cbn [chip] in Hc. subst c1.
  set (isoc := if r <? 0 then internal_soc (chip s)
               else if bits (model_data (pdata (chip s))) =? 18
                    then Z.shiftr (to_u16 r) 8
                    else Z.shiftr (to_u16 r) 9).
  assert (Hrun : forall k : unit -> M unit,
    bind (if r <? 0 then ret tt
          else if bits (model_data (pdata (chip s))) =? 18
               then update (set_internal_soc (Z.shiftr (to_u16 r) 8))
               else update (set_internal_soc (Z.shiftr (to_u16 r) 9)))
      k {| chip := chip s; trace := t1 |}
    = k tt {| chip := set_internal_soc isoc (chip s); trace := t1 |}).
  { intros k. unfold isoc. destruct (r <? 0).
    - cbn [bind ret]. destruct s as [c t]. destruct c. reflexivity.
    - destruct (bits (model_data (pdata (chip s))) =? 18); reflexivity. }
  rewrite Hrun. clear Hrun. clearbody isoc.
  drv_run.
  unfold derived_capacity_level, derived_health,
    MAX17048_BATTERY_FULL, MAX17048_BATTERY_LOW.
  destruct (Z.geb_spec isoc 100) as [Hfull|Hfull].
  - rewrite Z.min_r by lia.
    destruct (Z.ltb_spec isoc 15) as [?|_]; [lia|].
    destruct (status_eqb (status (chip s)) POWER_SUPPLY_STATUS_CHARGING);
      drv_run; reflexivity.
  - rewrite Z.min_l by lia.
    destruct (Z.ltb_spec isoc 15); drv_run; reflexivity.
Qed.

(** X4: after [max17048_get_soc], whatever the read returned, the
    reported charge is the internal charge state capped at 100, the health
    is dead exactly below 15, and the capacity level is full from 100,
    critical below 15 and normal between; a failed read keeps the internal
    charge state, a successful one never makes it negative.  Voltage,
    temperature, thresholds and shadows are left alone. *)
Theorem max17048_get_soc_caps_charge (s : state) :
  mutex (chip s) = false ->
  exists r s1 s',
    max17048_read_word E MAX17048_SOC s = Some (r, s1) /\
    max17048_get_soc E s = Some (tt, s') /\
    let c := chip s in
    let c' := chip s' in
    soc c' = Z.min (internal_soc c') 100 /\
    health c' = derived_health (internal_soc c') /\
    capacity_level c' = derived_capacity_level (internal_soc c') /\
    (r < 0 -> internal_soc c' = internal_soc c) /\
    (0 <= r -> 0 <= internal_soc c' <= 255) /\
    vcell c' = vcell c /\
    temperature c' = temperature c /\
    current_threshold c' = current_threshold c /\
    lasttime_soc c' = lasttime_soc c /\
    lasttime_status c' = lasttime_status c /\
    lasttime_temperature c' = lasttime_temperature c /\
    lasttime_current_threshold c' = lasttime_current_threshold c.
Proof.
  intros Hm. destruct (max17048_get_soc_eq s Hm) as (r & s1 & Hread & Hrun).
  cbv zeta in Hrun.
  exists r, s1. eexists. split; [exact Hread|]. split; [exact Hrun|].
  cbv zeta. drv_run. repeat split.
  - intros Hr. destruct (Z.ltb_spec r 0); [reflexivity|lia].
  - destruct (Z.ltb_spec r 0); [lia|].
    destruct (bits (model_data (pdata (chip s))) =? 18);
      apply Z.shiftr_nonneg; apply to_u16_range.
  - destruct (Z.ltb_spec r 0); [lia|].
    pose proof (to_u16_range r) as Hu.
    destruct (bits (model_data (pdata (chip s))) =? 18);
      rewrite Z.shiftr_div_pow2 by lia;
      Z.to_euclidean_division_equations; lia.
Qed.

(** *** The percentage invariant *)

Lemma soc_in_range_read_word reg :
  triple (on_chip soc_in_range) (max17048_read_word E reg)
    (on_chip soc_in_range).
Proof.
  intros s Hm Hp.
  destruct (max17048_read_word_cases s reg Hm) as (r & s' & H & Hc & _).
  exists r, s'. split; [exact H|]. unfold on_chip in *. rewrite Hc. auto.
Qed.

Lemma soc_in_range_write_word reg value :
  triple (on_chip soc_in_range) (max17048_write_word E reg value)
    (on_chip soc_in_range).
Proof.
  intros s Hm Hp. rewrite (max17048_write_word_eq E reg value s Hm).
  destruct (negb (shutdown_complete (chip s) =? 0)); cbv zeta;
    eexists _, _; (split; [reflexivity|]); auto.
Qed.

Lemma soc_in_range_get_soc :
  triple (on_chip soc_in_range) (max17048_get_soc E)
    (on_chip soc_in_range).
Proof.
  intros s Hm (Hi & Hs).
  destruct (max17048_get_soc_eq s Hm) as (r & s1 & _ & Hrun).
  cbv zeta in Hrun. eexists tt, _. split; [exact Hrun|].
  split; [exact Hm|].
  unfold on_chip, soc_in_range. drv_run.
  assert (H0 : 0 <= (if r <? 0 then internal_soc (chip s)
                     else if bits (model_data (pdata (chip s))) =? 18
                          then Z.shiftr (to_u16 r) 8
                          else Z.shiftr (to_u16 r) 9)).
  { destruct (r <? 0); [exact Hi|].
    destruct (bits (model_data (pdata (chip s))) =? 18);
      apply Z.shiftr_nonneg; apply to_u16_range. }
  split; [exact H0|]. lia.
Qed.

Lemma soc_in_range_call callback threshold min_cpu :
  triple (on_chip soc_in_range)
    (call_set_current_threshold callback threshold min_cpu)
    (on_chip soc_in_range).
Proof. intros s Hm Hp. eexists _, _. split; [reflexivity|]. auto. Qed.

Lemma soc_in_range_thz_get_temp :
  triple (on_chip soc_in_range) (max17048_thz_get_temp E)
    (on_chip soc_in_range).
Proof. intros s Hm Hp. eexists _, _. split; [reflexivity|]. auto. Qed.

#[local] Hint Resolve soc_in_range_read_word soc_in_range_write_word
  soc_in_range_get_soc soc_in_range_call soc_in_range_thz_get_temp : tri.

(** What the percentage invariant asks of an update or an event. *)
Ltac soc_upd :=
  unfold on_chip, soc_in_range; drv_run; intros; auto; lia.

Lemma soc_in_range_get_vcell :
  triple (on_chip soc_in_range) (max17048_get_vcell E)
    (on_chip soc_in_range).
Proof. unfold max17048_get_vcell. tri_tac soc_upd. Qed.

Lemma soc_in_range_set_current_threshold :
  triple (on_chip soc_in_range) max17048_set_current_threshold
    (on_chip soc_in_range).
Proof. unfold max17048_set_current_threshold. tri_tac soc_upd. Qed.

Lemma soc_in_range_sysedp_throttle :
  triple (on_chip soc_in_range) max17048_sysedp_throttle
    (on_chip soc_in_range).
Proof. unfold max17048_sysedp_throttle. tri_tac soc_upd. Qed.

Lemma soc_in_range_update_rcomp temp :
  triple (on_chip soc_in_range) (max17048_update_rcomp E temp)
    (on_chip soc_in_range).
Proof. unfold max17048_update_rcomp. tri_tac soc_upd. Qed.

#[local] Hint Resolve soc_in_range_get_vcell
  soc_in_range_set_current_threshold soc_in_range_sysedp_throttle
  soc_in_range_update_rcomp : tri.

Lemma soc_in_range_work :
  triple (on_chip soc_in_range) (max17048_work E) (on_chip soc_in_range).
Proof.
  unfold max17048_work, max17048_work_report, power_supply_changed.
  tri_tac soc_upd.
Qed.

Lemma soc_in_range_irq :
  triple (on_chip soc_in_range) (max17048_irq E) (on_chip soc_in_range).
Proof.
  unfold max17048_irq, max17048_irq_dispatch, max17048_irq_clear_irq,
    max17048_irq_status_vl, max17048_irq_status_hd, max17048_irq_status_sc,
    power_supply_changed.
  tri_tac soc_upd.
Qed.

(** X5: the reported charge stays a percentage.  From a context whose
    internal charge state is not negative and whose reported charge lies in
    [0,100], as in a freshly zeroed context, a sampling pass and an alert
    handler run both end in such a context, whatever the bus answers. *)
Theorem soc_stays_a_percentage (s : state) :
  mutex (chip s) = false ->
  soc_in_range (chip s) ->
  (exists s', max17048_work E s = Some (tt, s') /\
              soc_in_range (chip s')) /\
  (exists r s', max17048_irq E s = Some (r, s') /\
                soc_in_range (chip s')).
Proof.
  intros Hm Hp. split.
  - destruct (soc_in_range_work s Hm Hp) as ([] & s' & H & _ & Q).
    exists s'. split; assumption.
  - destruct (soc_in_range_irq s Hm Hp) as (r & s' & H & _ & Q).
    exists r, s'. split; assumption.
Qed.

(** *** The throttle policy *)

Lemma sysedp_throttle_loop_find (p : max17048_platform_data) (isoc : Z)
  (n : nat) :
  forall i,
    (i + n <= length (sysedp_throttle_soc p))%nat ->
    (i + n <= length (sysedp_throttle_power p))%nat ->
    sysedp_throttle_loop p isoc n i =
    option_map snd
      (find (threshold_matches isoc)
         (combine (firstn n (skipn i (sysedp_throttle_soc p)))
                  (firstn n (skipn i (sysedp_throttle_power p))))).
Proof.
  induction n as [|n IH]; intros i H1 H2; [reflexivity|].
  rewrite (skipn_nth_cons (sysedp_throttle_soc p) i) by lia.
  rewrite (skipn_nth_cons (sysedp_throttle_power p) i) by lia.
  cbn [sysedp_throttle_loop firstn combine find].
  unfold threshold_matches at 1. cbn [fst snd].
  destruct ((isoc <=? nth i (sysedp_throttle_soc p) 0)
            && negb (nth i (sysedp_throttle_power p) 0 =? 0)).
  - reflexivity.
  - apply IH; lia.
Qed.

(** X6: with a throttle callback configured, [max17048_sysedp_throttle]
    calls it exactly once on every run, without any change suppression,
    with the power of the first table entry whose SOC bound is at least the
    internal charge state and whose power is not zero, and with
    [2^32 - 1] when there is none; without a callback it does nothing.  It
    never touches the driver context. *)
Theorem max17048_sysedp_throttle_always_calls (s : state) :
  let p := pdata (chip s) in
  (Z.to_nat (sysedp_throttle_num p)
   <= length (sysedp_throttle_soc p))%nat ->
  (Z.to_nat (sysedp_throttle_num p)
   <= length (sysedp_throttle_power p))%nat ->
  max17048_sysedp_throttle s =
  Some (tt,
        if sysedp_throttle p
        then {| chip := chip s;
                trace := trace s ++
                  [SysedpThrottle
                     (selected_power (throttle_table p)
                        (internal_soc (chip s)))] |}
        else s).
Proof.
  intros p H1 H2. unfold max17048_sysedp_throttle. drv_run. fold p.
  destruct (sysedp_throttle p); [|reflexivity].
  rewrite sysedp_throttle_loop_find by (simpl; lia).
  cbn [skipn]. fold (throttle_table p). unfold selected_power.
  destruct (find (threshold_matches (internal_soc (chip s)))
              (throttle_table p)); reflexivity.
Qed.

(** *** Invariants of the trace *)

Lemma since_start t0 test c : since t0 test {| chip := c; trace := t0 |}.
Proof. exists []. split; [symmetry; apply app_nil_r|reflexivity]. Qed.

Lemma since_chip t0 test s c :
  since t0 test s -> since t0 test {| chip := c; trace := trace s |}.
Proof. intros H. exact H. Qed.

Lemma since_emit t0 test s c e :
  test e = false ->
  since t0 test s -> since t0 test {| chip := c; trace := trace s ++ [e] |}.
Proof.
  intros He (t & Ht & Hn). exists (t ++ [e]). cbn [trace]. split.
  - rewrite Ht, app_assoc. reflexivity.
  - rewrite existsb_app, Hn. cbn. rewrite He. reflexivity.
Qed.

Lemma rearm_read_word t0 reg :
  triple (since t0 is_rearm) (max17048_read_word E reg)
    (since t0 is_rearm).
Proof.
  intros s Hm Hp. rewrite (max17048_read_word_eq E reg s Hm).
  destruct (negb (shutdown_complete (chip s) =? 0)); cbv zeta;
    eexists _, _; (split; [reflexivity|]); split; try exact Hm;
    try exact Hp.
  apply since_emit; [reflexivity|exact Hp].
Qed.

Lemma rearm_write_word t0 reg value :
  triple (since t0 is_rearm) (max17048_write_word E reg value)
    (since t0 is_rearm).
Proof.
  intros s Hm Hp. rewrite (max17048_write_word_eq E reg value s Hm).
  destruct (negb (shutdown_complete (chip s) =? 0)); cbv zeta;
    eexists _, _; (split; [reflexivity|]); split; try exact Hm;
    try exact Hp.
  apply since_emit; [reflexivity|exact Hp].
Qed.

Lemma rearm_call t0 callback threshold min_cpu :
  triple (since t0 is_rearm)
    (call_set_current_threshold callback threshold min_cpu)
    (since t0 is_rearm).
Proof.
  intros s Hm Hp. eexists _, _. split; [reflexivity|].
  split; [exact Hm|]. apply since_emit; [reflexivity|exact Hp].
Qed.

Lemma rearm_thz_get_temp t0 :
  triple (since t0 is_rearm) (max17048_thz_get_temp E) (since t0 is_rearm).
Proof.
  intros s Hm Hp. eexists _, _. split; [reflexivity|].
  split; [exact Hm|]. apply since_emit; [reflexivity|exact Hp].
Qed.

#[local] Hint Resolve rearm_read_word rearm_write_word rearm_call
  rearm_thz_get_temp : tri.

(** What an invariant of the trace asks of an update or an event. *)
Ltac since_upd :=
  intros;
  first [ assumption
        | apply since_emit; [reflexivity|assumption]
        | apply since_chip; assumption ].

Lemma rearm_get_vcell t0 :
  triple (since t0 is_rearm) (max17048_get_vcell E) (since t0 is_rearm).
Proof. unfold max17048_get_vcell. tri_tac since_upd. Qed.

Lemma rearm_get_soc t0 :
  triple (since t0 is_rearm) (max17048_get_soc E) (since t0 is_rearm).
Proof. unfold max17048_get_soc. tri_tac since_upd. Qed.

Lemma rearm_set_current_threshold t0 :
  triple (since t0 is_rearm) max17048_set_current_threshold
    (since t0 is_rearm).
Proof. unfold max17048_set_current_threshold. tri_tac since_upd. Qed.

Lemma rearm_sysedp_throttle t0 :
  triple (since t0 is_rearm) max17048_sysedp_throttle (since t0 is_rearm).
Proof. unfold max17048_sysedp_throttle. tri_tac since_upd. Qed.

Lemma rearm_update_rcomp t0 temp :
  triple (since t0 is_rearm) (max17048_update_rcomp E temp)
    (since t0 is_rearm).
Proof. unfold max17048_update_rcomp. tri_tac since_upd. Qed.

Lemma rearm_work_report t0 :
  triple (since t0 is_rearm) max17048_work_report (since t0 is_rearm).
Proof.
  unfold max17048_work_report, power_supply_changed. tri_tac since_upd.
Qed.

#[local] Hint Resolve rearm_get_vcell rearm_get_soc
  rearm_set_current_threshold rearm_sysedp_throttle rearm_update_rcomp
  rearm_work_report : tri.

(** X7: a sampling pass re-arms itself exactly once, as the last thing
    it does and with the fixed delay, whatever the bus, the thermal zone and
    the callbacks answered during the pass. *)
Theorem max17048_work_rearms_once (s : state) :
  mutex (chip s) = false ->
  exists s' t,
    max17048_work E s = Some (tt, s') /\
    trace s' = trace s ++ t ++ [ScheduleDelayedWork MAX17048_DELAY] /\
    existsb is_rearm t = false.
Proof.
  intros Hm.
  set (P := since (trace s) is_rearm).
  set (Q := fun s' : state =>
              exists t,
                trace s' = trace s ++ t ++
                  [ScheduleDelayedWork MAX17048_DELAY] /\
                existsb is_rearm t = false).
  assert (H : triple P (max17048_work E) Q).
  { unfold max17048_work, power_supply_changed.
    repeat (apply (triple_bind P P Q);
            [solve [unfold P; tri_tac since_upd]|intros ?]).
    apply triple_emit. intros s0 (t & Ht & Hn). exists t. cbn [trace].
    split; [rewrite Ht, app_assoc; reflexivity|exact Hn]. }
  destruct (H s Hm) as ([] & s' & Hrun & _ & t & Ht & Hn).
  { destruct s as [c t0]. apply since_start. }
  exists s', t. auto.
Qed.

(** *** Behind the fence *)

Lemma behind_fence_chip t0 s f :
  shutdown_complete (f (chip s)) = shutdown_complete (chip s) ->
  behind_fence t0 s ->
  behind_fence t0 {| chip := f (chip s); trace := trace s |}.
Proof.
  intros Hf (H1 & H2). split; [cbn [chip]; rewrite Hf; exact H1|exact H2].
Qed.

Lemma behind_fence_emit t0 s e :
  is_bus_event e = false ->
  behind_fence t0 s ->
  behind_fence t0 {| chip := chip s; trace := trace s ++ [e] |}.
Proof.
  intros He (H1 & t & Ht & Hn). split; [exact H1|].
  exists (t ++ [e]). cbn [trace]. split.
  - rewrite Ht, app_assoc. reflexivity.
  - rewrite existsb_app, Hn. cbn. rewrite He. reflexivity.
Qed.

Lemma fence_flag s :
  shutdown_complete (chip s) <> 0 ->
  negb (shutdown_complete (chip s) =? 0) = true.
Proof. intros H. apply negb_true_iff. apply Z.eqb_neq. exact H. Qed.

Lemma fence_read_word t0 reg :
  triple (behind_fence t0) (max17048_read_word E reg) (behind_fence t0).
Proof.
  intros s Hm Hp. rewrite (max17048_read_word_eq E reg s Hm).
  rewrite (fence_flag s (proj1 Hp)). eexists _, _. eauto.
Qed.

Lemma fence_write_word t0 reg value :
  triple (behind_fence t0) (max17048_write_word E reg value)
    (behind_fence t0).
Proof.
  intros s Hm Hp. rewrite (max17048_write_word_eq E reg value s Hm).
  rewrite (fence_flag s (proj1 Hp)). eexists _, _. eauto.
Qed.

Lemma fence_write_block t0 command length values :
  triple (behind_fence t0)
    (max17048_write_block E command length values) (behind_fence t0).
Proof.
  intros s Hm Hp.
  rewrite (max17048_write_block_eq E command length values s Hm).
  rewrite (fence_flag s (proj1 Hp)). eexists _, _. eauto.
Qed.

Lemma fence_call t0 callback threshold min_cpu :
  triple (behind_fence t0)
    (call_set_current_threshold callback threshold min_cpu)
    (behind_fence t0).
Proof.
  intros s Hm Hp. eexists _, _. split; [reflexivity|].
  split; [exact Hm|]. apply behind_fence_emit; [reflexivity|exact Hp].
Qed.

Lemma fence_thz_get_temp t0 :
  triple (behind_fence t0) (max17048_thz_get_temp E) (behind_fence t0).
Proof.
  intros s Hm Hp. eexists _, _. split; [reflexivity|].
  split; [exact Hm|]. apply behind_fence_emit; [reflexivity|exact Hp].
Qed.

#[local] Hint Resolve fence_read_word fence_write_word fence_write_block
  fence_call fence_thz_get_temp : tri.

Ltac fence_upd :=
  intros;
  first [ assumption
        | apply behind_fence_emit; [reflexivity|assumption]
        | apply behind_fence_chip; [reflexivity|assumption] ].

Lemma fence_get_vcell t0 :
  triple (behind_fence t0) (max17048_get_vcell E) (behind_fence t0).
Proof. unfold max17048_get_vcell. tri_tac fence_upd. Qed.

Lemma fence_get_soc t0 :
  triple (behind_fence t0) (max17048_get_soc E) (behind_fence t0).
Proof. unfold max17048_get_soc. tri_tac fence_upd. Qed.

Lemma fence_set_current_threshold t0 :
  triple (behind_fence t0) max17048_set_current_threshold
    (behind_fence t0).
Proof. unfold max17048_set_current_threshold. tri_tac fence_upd. Qed.

Lemma fence_sysedp_throttle t0 :
  triple (behind_fence t0) max17048_sysedp_throttle (behind_fence t0).
Proof. unfold max17048_sysedp_throttle. tri_tac fence_upd. Qed.

Lemma fence_update_rcomp t0 temp :
  triple (behind_fence t0) (max17048_update_rcomp E temp)
    (behind_fence t0).
Proof. unfold max17048_update_rcomp. tri_tac fence_upd. Qed.

Lemma fence_write_rcomp_seg t0 rcomp_seg :
  triple (behind_fence t0) (max17048_write_rcomp_seg E rcomp_seg)
    (behind_fence t0).
Proof. unfold max17048_write_rcomp_seg. tri_tac fence_upd. Qed.

Lemma fence_write_model_data_loop t0 mdata n :
  forall i,
    triple (behind_fence t0) (write_model_data_loop E mdata n i)
      (behind_fence t0).
Proof.
  induction n as [|n IH]; intros i; simpl; tri_tac fence_upd.
Qed.

Lemma fence_get_ocv t0 :
  triple (behind_fence t0) (max17048_get_ocv E) (behind_fence t0).
Proof. unfold max17048_get_ocv. tri_tac fence_upd. Qed.

#[local] Hint Resolve fence_get_vcell fence_get_soc
  fence_set_current_threshold fence_sysedp_throttle fence_update_rcomp
  fence_write_rcomp_seg fence_write_model_data_loop fence_get_ocv : tri.

Lemma fence_load_model_data t0 :
  triple (behind_fence t0) (max17048_load_model_data E) (behind_fence t0).
Proof. unfold max17048_load_model_data, mdelay. tri_tac fence_upd. Qed.

#[local] Hint Resolve fence_load_model_data : tri.

Lemma bus_silent_of_fence {A : Type} (m : M A) :
  (forall t0, triple (behind_fence t0) m (behind_fence t0)) ->
  bus_silent m.
Proof.
  intros H s Hm Hsd.
  destruct (H (trace s) s Hm) as (a & s' & Hrun & _ & _ & t & Ht & Hn).
  { split; [exact Hsd|]. exists []. split; [|reflexivity].
    symmetry. apply app_nil_r. }
  exists a, s', t. auto.
Qed.

(** X8: once the shutdown flag is set no entry point of the driver
    reaches the bus any more: the sampling pass, the alert handler,
    initialization, the open-circuit-voltage and property queries, the
    thermal compensator, suspend and resume all still return, and the
    events they add to the trace contain no bus transaction. *)
Theorem nothing_reaches_the_bus_after_shutdown :
  bus_silent (max17048_work E) /\
  bus_silent (max17048_irq E) /\
  bus_silent (max17048_initialize E) /\
  bus_silent (max17048_get_ocv E) /\
  (forall psp, bus_silent (max17048_get_property E psp)) /\
  (forall temp, bus_silent (max17048_update_rcomp E temp)) /\
  (forall may_wakeup, bus_silent (max17048_suspend E may_wakeup)) /\
  (forall may_wakeup, bus_silent (max17048_resume E may_wakeup)).
Proof.
  repeat split; intros; apply bus_silent_of_fence; intros t0.
  - unfold max17048_work, max17048_work_report, power_supply_changed.
    tri_tac fence_upd.
  - unfold max17048_irq, max17048_irq_dispatch, max17048_irq_clear_irq,
      max17048_irq_status_vl, max17048_irq_status_hd,
      max17048_irq_status_sc, power_supply_changed.
    tri_tac fence_upd.
  - unfold max17048_initialize, mdelay. tri_tac fence_upd.
  - auto with tri.
  - unfold max17048_get_property. tri_tac fence_upd.
  - auto with tri.
  - unfold max17048_suspend. tri_tac fence_upd.
  - unfold max17048_resume. tri_tac fence_upd.
Qed.

(** *** The state a sampling pass ends in *)

Lemma triple_bind_chip {B : Type} (P Q : state -> Prop)
  (k : max17048_chip -> M B) :
  (forall c, triple (fun s => P s /\ chip s = c) (k c) Q) ->
  triple P (bind get_chip k) Q.
Proof.
  intros H s Hm Hp. exact (H (chip s) s Hm (conj Hp eq_refl)).
Qed.

Lemma triple_weaken {A : Type} (P P' Q : state -> Prop) (m : M A) :
  (forall s, P' s -> P s) -> triple P m Q -> triple P' m Q.
Proof. intros H Ht s Hm Hp. apply Ht; auto. Qed.

Lemma on_chip_read_word P reg :
  triple (on_chip P) (max17048_read_word E reg) (on_chip P).
Proof.
  intros s Hm Hp.
  destruct (max17048_read_word_cases s reg Hm) as (r & s' & H & Hc & _).
  exists r, s'. split; [exact H|]. unfold on_chip in *. rewrite Hc. auto.
Qed.

Lemma on_chip_write_word P reg value :
  triple (on_chip P) (max17048_write_word E reg value) (on_chip P).
Proof.
  intros s Hm Hp. rewrite (max17048_write_word_eq E reg value s Hm).
  destruct (negb (shutdown_complete (chip s) =? 0)); cbv zeta;
    eexists _, _; (split; [reflexivity|]); auto.
Qed.

Lemma on_chip_call P callback threshold min_cpu :
  triple (on_chip P)
    (call_set_current_threshold callback threshold min_cpu) (on_chip P).
Proof. intros s Hm Hp. eexists _, _. split; [reflexivity|]. auto. Qed.

(** What an invariant that only reads fields the program leaves alone asks
    of an update or an event. *)
Ltac field_upd := unfold on_chip; drv_run; intros; assumption.

(** X9: how a sampling pass leaves the driver context, whatever the bus
    answered.  The temperature is the one the pass worked with.  The health
    is overheat above 60 degrees, cold below -10 degrees, and otherwise dead
    or good as the internal charge state is below 15 or not.  The capacity
    level follows the internal charge state, the reported charge is the
    internal charge state capped at 100, and the shadow charge equals the
    reported charge. *)
Theorem max17048_work_final_state (s : state) :
  mutex (chip s) = false ->
  exists s',
    max17048_work E s = Some (tt, s') /\
    let c' := chip s' in
    temperature c' = pass_temperature E s /\
    health c' = pass_health (pass_temperature E s) (internal_soc c') /\
    capacity_level c' = derived_capacity_level (internal_soc c') /\
    soc c' = Z.min (internal_soc c') 100 /\
    lasttime_soc c' = soc c'.
Proof.
  intros Hm.
  set (T := pass_temperature E s).
  set (P1 := on_chip (fun c => temperature c = T)).
  set (P2 := on_chip (fun c =>
                temperature c = T /\
                health c = derived_health (internal_soc c) /\
                capacity_level c = derived_capacity_level (internal_soc c) /\
                soc c = Z.min (internal_soc c) 100)).
  set (P3 := on_chip (fun c =>
                temperature c = T /\
                health c = pass_health T (internal_soc c) /\
                capacity_level c = derived_capacity_level (internal_soc c) /\
                soc c = Z.min (internal_soc c) 100)).
  set (P4 := on_chip (fun c =>
                (temperature c = T /\
                 health c = pass_health T (internal_soc c) /\
                 capacity_level c = derived_capacity_level (internal_soc c) /\
                 soc c = Z.min (internal_soc c) 100) /\
                lasttime_soc c = soc c)).
  assert (H : triple (fun s0 => s0 = s) (max17048_work E) P4).
  { unfold max17048_work.
    apply (triple_bind _ P1).
    { intros s0 _ E0. subst s0. unfold P1, on_chip, T, pass_temperature.
      destruct (machine_is_tegratab E || machine_is_tegranote7c E).
      - eexists tt, _. split; [reflexivity|]. split; [exact Hm|reflexivity].
      - exists tt, s. split; [reflexivity|]. split; [exact Hm|reflexivity]. }
    intros _. apply (triple_bind _ P1); [apply triple_get_chip|].
    intros c0. apply (triple_bind _ P1).
    { unfold P1, max17048_update_rcomp, power_supply_changed.
      pose proof on_chip_read_word. pose proof on_chip_write_word.
      tri_tac field_upd. }
    intros _. apply (triple_bind _ P1).
    { unfold P1, max17048_get_vcell.
      pose proof on_chip_read_word. tri_tac field_upd. }
    intros _. apply (triple_bind _ P2).
    { intros s0 Hm0 Ht.
      destruct (max17048_get_soc_eq s0 Hm0) as (r & s1 & _ & Hrun).
      cbv zeta in Hrun. eexists tt, _. split; [exact Hrun|].
      split; [exact Hm0|]. unfold P2, on_chip. drv_run.
      repeat split. exact Ht. }
    intros _. apply (triple_bind _ P2).
    { unfold P2, max17048_set_current_threshold.
      pose proof on_chip_call. tri_tac field_upd. }
    intros _. apply (triple_bind _ P2).
    { unfold P2, max17048_sysedp_throttle. tri_tac field_upd. }
    intros _. apply triple_bind_chip. intros c.
    apply (triple_bind _ P3).
    { intros s0 Hm0 ((Ht & Hh & Hc & Hs) & <-).
      unfold P3, on_chip, pass_health, power_supply_changed.
      rewrite Ht.
      destruct (T >? MAX17048_BATTERY_HOT);
        [|destruct (T <? MAX17048_BATTERY_COLD)];
        eexists tt, _; (split; [reflexivity|]); drv_run;
        (split; [exact Hm0|]); repeat split; assumption. }
    intros _. apply (triple_bind _ P4).
    { intros s0 Hm0 Hp. unfold max17048_work_report, power_supply_changed.
      drv_run.
      destruct (Z.eqb_spec (soc (chip s0)) (lasttime_soc (chip s0)))
        as [Hs|Hs];
        [destruct (status_eqb (status (chip s0))
                     (lasttime_status (chip s0)))|];
        cbn [negb orb]; drv_run; eexists tt, _;
        (split; [reflexivity|]); unfold P4, on_chip; drv_run;
        (split; [exact Hm0|]); split; try exact Hp; auto. }
    intros _. apply triple_emit. unfold P4, on_chip. intros; assumption. }
  destruct (H s Hm eq_refl) as ([] & s' & Hrun & _ & (Q1 & Q2)).
  exists s'. split; [exact Hrun|]. cbv zeta.
  destruct Q1 as (A1 & A2 & A3 & A4). auto.
Qed.

(** *** Shutdown *)

Lemma max17048_shutdown_tail (s : state) :
  mutex (chip s) = false ->
  (mutex_lock ;; update (set_shutdown_complete 1) ;; mutex_unlock) s
  = Some (tt, {| chip := set_shutdown_complete 1 (chip s);
                 trace := trace s |}).
Proof.
  destruct s as [c t]. destruct c. cbn [chip mutex]. intros ->.
  reflexivity.
Qed.

(** X10: [max17048_shutdown], run before the fence is up, ends with the
    flag set, the mutex free and every other field of the context as it
    was; the periodic work is cancelled last.  When the config register
    could be read and the base RCOMP is a byte, the word written back has
    the base RCOMP as its upper byte and the lower byte that was read; when
    the read failed nothing is written.  From the state it leaves, every
    register read returns [-ENODEV]. *)
Theorem max17048_shutdown_resets_and_fences (client_irq : Z) (s : state) :
  mutex (chip s) = false ->
  shutdown_complete (chip s) = 0 ->
  let mdata := model_data (pdata (chip s)) in
  let a := to_s32 (i2c_smbus_read_word_data E (trace s) MAX17048_CONFIG) in
  exists s' written,
    max17048_shutdown E client_irq s = Some (tt, s') /\
    chip s' = set_shutdown_complete 1 (chip s) /\
    trace s' =
      trace s ++ I2cReadWord MAX17048_CONFIG a :: written ++
      (if negb (client_irq =? 0) then [DisableIrq] else []) ++
      [CancelDelayedWorkSync] /\
    (a < 0 -> written = []) /\
    (0 <= a -> 0 <= rcomp mdata <= 255 ->
     exists wire wret,
       written = [I2cWriteWord MAX17048_CONFIG wire wret] /\
       Z.shiftr (register_word wire) 8 = rcomp mdata /\
       Z.land (register_word wire) 0xFF
       = Z.land (register_word (a mod 65536)) 0xFF) /\
    (forall reg, max17048_read_word E reg s' = Some (- ENODEV, s')).
Proof.
  intros Hm Hsd mdata a.
  unfold max17048_shutdown. unfold bind at 1. cbn [get_chip]. fold mdata.
  unfold bind at 1. rewrite (max17048_read_word_eq E _ s Hm), Hsd.
  reg8. cbn [Z.eqb negb]. cbv zeta. fold a.
  assert (Hfence : forall t reg,
    max17048_read_word E reg
      {| chip := set_shutdown_complete 1 (chip s); trace := t |}
    = Some (- ENODEV,
            {| chip := set_shutdown_complete 1 (chip s); trace := t |})).
  { intros t reg. rewrite max17048_read_word_eq by exact Hm.
    reflexivity. }
  assert (Hland : Z.land a 0x0000ffff = a mod 65536).
  { change 0x0000ffff with (Z.ones 16). rewrite Z.land_ones by lia.
    reflexivity. }
  assert (Hend : forall t,
    ((if negb (client_irq =? 0) then emit DisableIrq else ret tt) ;;
     emit CancelDelayedWorkSync ;;
     mutex_lock ;; update (set_shutdown_complete 1) ;; mutex_unlock)
      {| chip := chip s; trace := t |}
    = Some (tt, {| chip := set_shutdown_complete 1 (chip s);
                   trace := t ++
                     (if negb (client_irq =? 0) then [DisableIrq] else [])
                     ++ [CancelDelayedWorkSync] |})).
  { intros t. destruct (negb (client_irq =? 0)); drv_run;
      rewrite max17048_shutdown_tail by exact Hm; cbn [chip trace];
      rewrite <- ?app_assoc; reflexivity. }
  destruct (Z.ltb_spec a 0) as [Ha|Ha].
  - rewrite (proj2 (Z.ltb_lt a 0) Ha).
    unfold bind at 1. cbn [ret]. rewrite Hend.
    eexists _, []. split; [reflexivity|]. cbn [chip trace].
    split; [reflexivity|].
    split; [rewrite <- app_assoc; reflexivity|].
    split; [reflexivity|]. split; [lia|]. intros reg. apply Hfence.
  - rewrite (proj2 (Z.ltb_ge _ 0) (proj1 (swab16_range _))).
    unfold bind at 1. unfold bind at 1.
    rewrite max17048_write_word_eq by exact Hm.
    cbn [chip trace]. rewrite Hsd. cbn [Z.eqb negb]. cbv zeta. cbn [ret].
    rewrite Hend.
    eexists _, [_]. split; [reflexivity|]. cbn [chip trace].
    split; [reflexivity|].
    split; [rewrite <- !app_assoc; reflexivity|].
    split; [intros; lia|].
    split; [|intros reg; apply Hfence].
    intros _ Hr. eexists _, _. split; [reflexivity|].
    rewrite Hland, (to_u16_small (a mod 65536))
      by (apply Z.mod_pos_bound; lia).
    destruct (config_word_bytes (swab16 (a mod 65536)) (rcomp mdata))
      as (W1 & W2 & W3); [lia|].
    rewrite W1. split; assumption.
Qed.

(** *** The model loader *)

(** X11: the model loader writes nothing when its first read tells it not
    to.  If the read of the open-circuit-voltage register fails, the error
    is returned; if it reads all ones, the model is still locked and -1 is
    returned; in both cases the read is the only bus transaction. *)
Theorem max17048_load_model_data_guards (s : state) :
  mutex (chip s) = false ->
  shutdown_complete (chip s) = 0 ->
  let a := to_s32 (i2c_smbus_read_word_data E (trace s) MAX17048_OCV) in
  let s1 := {| chip := chip s;
               trace := trace s ++ [I2cReadWord MAX17048_OCV a] |} in
  (a < 0 -> max17048_load_model_data E s = Some (a, s1)) /\
  (0 <= a -> register_word (a mod 65536) = 0xffff ->
   max17048_load_model_data E s = Some (-1, s1)).
Proof.
  intros Hm Hsd a s1.
  assert (Hland : Z.land a 0x0000ffff = a mod 65536).
  { change 0x0000ffff with (Z.ones 16). rewrite Z.land_ones by lia.
    reflexivity. }
  split; intros Ha;
    unfold max17048_load_model_data; unfold bind at 1; cbn [get_chip];
    unfold bind at 1; rewrite (max17048_read_word_eq E _ s Hm), Hsd;
    reg8; cbn [Z.eqb negb]; cbv zeta; fold a.
  - rewrite (proj2 (Z.ltb_lt a 0) Ha). cbv beta iota.
    rewrite (proj2 (Z.ltb_lt a 0) Ha). reflexivity.
  - intros Hones. rewrite (proj2 (Z.ltb_ge a 0) Ha). cbv beta iota.
    rewrite Hland, (to_u16_small (a mod 65536))
      by (apply Z.mod_pos_bound; lia).
    unfold register_word in Hones. rewrite Hones.
    reflexivity.
Qed.

(** X12: [max17048_write_rcomp_seg] sends the same 16-byte table to both
    segment regions: the high byte of the segment word at the even offsets
    and its low byte at the odd ones.  It stops at the first failing write,
    returning that error without attempting the second region, and it never
    returns a positive value: the result is 0 exactly when neither write
    reported an error. *)
Theorem max17048_write_rcomp_seg_pattern (s : state) (seg : Z) :
  mutex (chip s) = false ->
  shutdown_complete (chip s) = 0 ->
  let table := concat (repeat [(seg / 256) mod 256; seg mod 256] 8) in
  let r1 := to_s32 (i2c_smbus_write_i2c_block_data E (trace s)
                      MAX17048_RCOMPSEG1 16 table) in
  exists r s',
    max17048_write_rcomp_seg E seg s = Some (r, s') /\
    chip s' = chip s /\
    r <= 0 /\
    (r1 < 0 ->
     r = r1 /\
     trace s' = trace s ++ [I2cWriteBlock MAX17048_RCOMPSEG1 16 table r1]) /\
    (0 <= r1 ->
     exists r2,
       trace s' = trace s ++
         [I2cWriteBlock MAX17048_RCOMPSEG1 16 table r1;
          I2cWriteBlock MAX17048_RCOMPSEG2 16 table r2] /\
       r = (if r2 <? 0 then r2 else 0)).
Proof.
  intros Hm Hsd table r1.
  unfold max17048_write_rcomp_seg. cbv zeta.
  assert (Hhi : to_u8 (Z.land (Z.shiftr seg 8) 0xff) = (seg / 256) mod 256).
  { rewrite land_0xff, shiftr_8. apply Z.mod_small.
    apply Z.mod_pos_bound. lia. }
  assert (Hlo : to_u8 (Z.land seg 0xff) = seg mod 256).
  { rewrite land_0xff. apply Z.mod_small. apply Z.mod_pos_bound. lia. }
  rewrite Hhi, Hlo.
  change [(seg / 256) mod 256; seg mod 256; (seg / 256) mod 256;
          seg mod 256; (seg / 256) mod 256; seg mod 256;
          (seg / 256) mod 256; seg mod 256; (seg / 256) mod 256;
          seg mod 256; (seg / 256) mod 256; seg mod 256;
          (seg / 256) mod 256; seg mod 256; (seg / 256) mod 256;
          seg mod 256] with table.
  unfold bind at 1. rewrite (max17048_write_block_eq E _ _ _ s Hm), Hsd.
  cbn [Z.eqb negb]. cbv zeta.
  change (to_u8 MAX17048_RCOMPSEG1) with MAX17048_RCOMPSEG1.
  change (to_u8 16) with 16. fold r1.
  destruct (Z.ltb_spec r1 0) as [H1|H1].
  - eexists _, _. split; [reflexivity|]. cbn [chip trace].
    split; [reflexivity|]. split; [lia|].
    split; [intros _; split; reflexivity|lia].
  - unfold bind at 1. rewrite max17048_write_block_eq by exact Hm.
    cbn [chip trace]. rewrite Hsd. cbn [Z.eqb negb]. cbv zeta.
    change (to_u8 MAX17048_RCOMPSEG2) with MAX17048_RCOMPSEG2.
    change (to_u8 16) with 16.
    match goal with
    | |- context [I2cWriteBlock MAX17048_RCOMPSEG2 16 table ?x] =>
        set (r2 := x)
    end.
    destruct (Z.ltb_spec r2 0) as [H2|H2];
      eexists _, _; (split; [reflexivity|]); cbn [chip trace];
      (split; [reflexivity|]); (split; [lia|]);
      (split; [lia|]); intros _; exists r2;
      rewrite <- app_assoc; (split; [reflexivity|]).
    + rewrite (proj2 (Z.ltb_lt r2 0) H2). reflexivity.
    + rewrite (proj2 (Z.ltb_ge r2 0) H2). reflexivity.
Qed.

(** *** The version probe *)

(** X13: with a device attached and the fence down,
    [max17048_check_battery] reads the version register once and leaves
    the driver context alone.  It returns 0 exactly when the register holds
    [0x11] or [0x12]; a read that fails with an errno is reported as
    [-ENODEV]. *)
Theorem max17048_check_battery_versions (d : driver) (c : max17048_chip) :
  max17048_data d = Some c ->
  mutex c = false ->
  shutdown_complete c = 0 ->
  let a := to_s32 (i2c_smbus_read_word_data E (history d) MAX17048_VER) in
  exists r,
    max17048_check_battery E d =
    Some (r, {| max17048_data := Some c;
                history := history d ++ [I2cReadWord MAX17048_VER a] |}) /\
    (r = 0 \/ r = - ENODEV) /\
    (0 <= a ->
     (r = 0 <-> register_word (a mod 65536) = 0x11
                \/ register_word (a mod 65536) = 0x12)) /\
    (- 4095 <= a < 0 -> r = - ENODEV).
Proof.
  intros Hd Hm Hsd a.
  unfold max17048_check_battery, max17048_get_version. rewrite Hd.
  unfold bind. rewrite max17048_read_word_eq by exact Hm.
  cbn [chip trace]. rewrite Hsd. cbn [Z.eqb negb]. cbv zeta. reg8. fold a.
  cbn [ret chip trace].
  unfold MAX17048_VERSION_NO_11, MAX17048_VERSION_NO_12, ENODEV.
  eexists. split; [reflexivity|].
  assert (Hland : Z.land a 0x0000ffff = a mod 65536).
  { change 0x0000ffff with (Z.ones 16). rewrite Z.land_ones by lia.
    reflexivity. }
  destruct (Z.ltb_spec a 0) as [Ha|Ha].
  - assert (Hv : to_u16 a = a + 65536 \/ a < - 4095).
    { destruct (Z.lt_ge_cases a (- 4095)) as [K|K]; [right; exact K|].
      left. unfold to_u16. change (2 ^ 16) with 65536.
      symmetry. apply Z.mod_unique with (-1); lia. }
    destruct (Z.eqb_spec (to_u16 a) 17) as [K1|K1];
      destruct (Z.eqb_spec (to_u16 a) 18) as [K2|K2]; cbn [negb andb];
      (split; [auto|]); (split; [lia|]); intros; lia.
  - rewrite Hland, (to_u16_small (a mod 65536))
      by (apply Z.mod_pos_bound; lia).
    rewrite (to_u16_small (swab16 _)) by apply swab16_range.
    unfold register_word.
    destruct (Z.eqb_spec (swab16 (a mod 65536)) 17) as [K1|K1];
      destruct (Z.eqb_spec (swab16 (a mod 65536)) 18) as [K2|K2];
      cbn [negb andb]; (split; [auto|]); (split; [|lia]); intros _;
      split; intros; try lia; auto.
Qed.

(** *** Property queries *)

(** X14: [max17048_get_ocv] away from shutdown.  If the unlock write does
    not answer 0 its answer is returned and nothing else is sent.  Otherwise
    the register is read and the model is locked again whatever the read
    returned; after a successful read the result is the upper twelve bits of
    the register word times 1250 microvolts, at most 5118750. *)
Theorem max17048_get_ocv_relocks (s : state) :
  mutex (chip s) = false ->
  shutdown_complete (chip s) = 0 ->
  let unlock :=
    I2cWriteWord MAX17048_UNLOCK (swab16 MAX17048_UNLOCK_VALUE) in
  let r1 := to_s32 (i2c_smbus_write_word_data E (trace s) MAX17048_UNLOCK
                      (swab16 MAX17048_UNLOCK_VALUE)) in
  let a := to_s32 (i2c_smbus_read_word_data E (trace s ++ [unlock r1])
                     MAX17048_OCV) in
  (r1 <> 0 ->
   max17048_get_ocv E s =
   Some (r1, {| chip := chip s; trace := trace s ++ [unlock r1] |})) /\
  (r1 = 0 ->
   exists v r3,
     max17048_get_ocv E s =
     Some (v, {| chip := chip s;
                 trace := trace s ++
                   [unlock r1; I2cReadWord MAX17048_OCV a;
                    I2cWriteWord MAX17048_UNLOCK 0 r3] |}) /\
     (0 <= a ->
      v = Z.shiftr (register_word (a mod 65536)) 4 * 1250 /\
      0 <= v <= 5118750)).
Proof.
  intros Hm Hsd unlock r1 a.
  split; intros H1;
    unfold max17048_get_ocv;
    unfold bind at 1; rewrite (max17048_write_word_eq E _ _ s Hm), Hsd;
    cbn [Z.eqb negb]; cbv zeta;
    change (swab16 (to_u16 MAX17048_UNLOCK_VALUE))
      with (swab16 MAX17048_UNLOCK_VALUE);
    reg8; fold r1; fold (unlock r1).
  - rewrite (proj2 (Z.eqb_neq r1 0) H1). reflexivity.
  - rewrite (proj2 (Z.eqb_eq r1 0) H1). cbn [negb].
    unfold bind at 1. rewrite max17048_read_word_eq by exact Hm.
    cbn [chip trace]. rewrite Hsd. cbn [Z.eqb negb]. cbv zeta. reg8. fold a.
    unfold bind. rewrite max17048_write_word_eq by exact Hm.
    cbn [chip trace]. rewrite Hsd. cbn [Z.eqb negb]. cbv zeta.
    cbn [ret]. rewrite <- !app_assoc. cbn [app].
    change (swab16 (to_u16 0)) with 0.
    eexists _, _. split; [reflexivity|].
    intros Ha. rewrite (proj2 (Z.ltb_ge a 0) Ha).
    assert (Hland : Z.land a 0x0000ffff = a mod 65536).
    { change 0x0000ffff with (Z.ones 16). rewrite Z.land_ones by lia.
      reflexivity. }
    rewrite Hland, (to_u16_small (a mod 65536))
      by (apply Z.mod_pos_bound; lia).
    unfold register_word.
    pose proof (swab16_range (a mod 65536)) as Hw.
    assert (Hsh : 0 <= Z.shiftr (swab16 (a mod 65536)) 4 <= 4095).
    { rewrite Z.shiftr_div_pow2 by lia. change (2 ^ 4) with 16.
      Z.to_euclidean_division_equations. lia. }
    rewrite to_s32_small by (change (2 ^ 31) with 2147483648; lia).
    split; [reflexivity|lia].
Qed.

(** X15: [max17048_get_property] answers every property but the
    open-circuit voltage from the driver context alone: the state is left
    exactly as it was, mutex and trace included.  An unknown property
    returns [-EINVAL] and stores nothing; every listed property returns 0
    and stores a value: the voltage in microvolts, the reported charge, the
    temperature in tenths of a degree, truncated toward zero.  The
    open-circuit-voltage query returns 0 even behind the fence, where the
    value it stores is the error [-ENODEV]. *)
Theorem max17048_get_property_reads_context (s : state)
  (psp : power_supply_property) :
  (psp <> POWER_SUPPLY_PROP_VOLTAGE_OCV ->
   exists r v,
     max17048_get_property E psp s = Some ((r, v), s) /\
     (psp = POWER_SUPPLY_PROP_OTHER -> r = - EINVAL /\ v = None) /\
     (psp <> POWER_SUPPLY_PROP_OTHER -> r = 0 /\ v <> None) /\
     (psp = POWER_SUPPLY_PROP_VOLTAGE_NOW ->
      0 <= vcell (chip s) <= 5118 -> v = Some (vcell (chip s) * 1000)) /\
     (psp = POWER_SUPPLY_PROP_CAPACITY -> v = Some (soc (chip s))) /\
     (psp = POWER_SUPPLY_PROP_TEMP \/ psp = POWER_SUPPLY_PROP_TEMP_AMBIENT ->
      - 2 ^ 31 <= temperature (chip s) < 2 ^ 31 ->
      v = Some (temperature (chip s) ÷ 100))) /\
  (psp = POWER_SUPPLY_PROP_VOLTAGE_OCV ->
   mutex (chip s) = false ->
   shutdown_complete (chip s) <> 0 ->
   max17048_get_property E psp s = Some ((0, Some (- ENODEV)), s)).
Proof.
  split.
  - intros Hocv. unfold max17048_get_property. unfold bind at 1.
    cbn [get_chip].
    assert (Hq : - 2 ^ 31 <= temperature (chip s) < 2 ^ 31 ->
                 to_s32 (temperature (chip s) ÷ 100)
                 = temperature (chip s) ÷ 100).
    { intros Ht. apply to_s32_small.
      change (2 ^ 31) with 2147483648 in *.
      destruct (Z.le_gt_cases 0 (temperature (chip s))) as [Hp|Hn].
      - rewrite Z.quot_div_nonneg by lia.
        Z.to_euclidean_division_equations. lia.
      - assert (Hopp : temperature (chip s) ÷ 100
                       = - ((- temperature (chip s)) / 100)).
        { rewrite <- (Z.opp_involutive (temperature (chip s))) at 1.
          rewrite Z.quot_opp_l by lia.
          rewrite Z.quot_div_nonneg by lia. reflexivity. }
        rewrite Hopp. Z.to_euclidean_division_equations. lia. }
    destruct psp; try contradiction; cbn [ret];
      eexists _, _; (split; [reflexivity|]);
      repeat split; try discriminate; try (intros; congruence);
      try (intros [K|K]; discriminate).
    + intros _ Hv. rewrite to_s32_small
        by (change (2 ^ 31) with 2147483648; lia). reflexivity.
    + intros _ Ht. rewrite (Hq Ht). reflexivity.
    + intros _ Ht. rewrite (Hq Ht). reflexivity.
  - intros -> Hm Hsd. unfold max17048_get_property, max17048_get_ocv.
    unfold bind at 1. cbn [get_chip].
    unfold bind. rewrite (max17048_write_word_eq E _ _ s Hm).
    rewrite (fence_flag s Hsd). reflexivity.
Qed.

(** *** Bits of the config register *)

Lemma u16_land (w n : Z) :
  0 <= w < 65536 -> to_u16 (Z.land w n) = Z.land w n.
Proof.
  intros Hw. unfold to_u16. rewrite <- Z.land_ones by lia.
  rewrite <- Z.land_assoc, (Z.land_comm n), Z.land_assoc.
  rewrite Z.land_ones by lia. change (2 ^ 16) with 65536.
  rewrite (Z.mod_small w) by exact Hw. reflexivity.
Qed.

Lemma u16_lor (w n : Z) :
  0 <= w < 65536 -> 0 <= n < 65536 -> to_u16 (Z.lor w n) = Z.lor w n.
Proof.
  intros Hw Hn. unfold to_u16. rewrite <- Z.land_ones by lia.
  rewrite Z.land_lor_distr_l, !Z.land_ones by lia.
  change (2 ^ 16) with 65536.
  rewrite (Z.mod_small w), (Z.mod_small n) by assumption. reflexivity.
Qed.

(** The word [max17048_read_word] makes of a bus answer that is not
    negative. *)
Lemma read_word_value (a : Z) :
  0 <= a ->
  (a <? 0) = false /\
  swab16 (to_u16 (Z.land a 0x0000ffff)) = register_word (a mod 65536) /\
  0 <= register_word (a mod 65536) < 65536.
Proof.
  intros Ha. split; [apply Z.ltb_ge; exact Ha|].
  change 0x0000ffff with (Z.ones 16). rewrite Z.land_ones by lia.
  change (2 ^ 16) with 65536.
  rewrite to_u16_small by (apply Z.mod_pos_bound; lia).
  split; [reflexivity|apply swab16_range].
Qed.

(** X16: the end of the alert handler, away from shutdown: one read and
    one write of the config register, with the context left alone.  After a
    successful read the word written is the word read with the alert bit
    (bit 5) cleared and every other bit kept.  A failed read goes unnoticed,
    because the result is kept in an unsigned variable: the low 16 bits of
    the error code, with bit 5 cleared, are written to the register. *)
Theorem max17048_irq_clear_irq_bits (s : state) :
  mutex (chip s) = false ->
  shutdown_complete (chip s) = 0 ->
  let a := to_s32 (i2c_smbus_read_word_data E (trace s) MAX17048_CONFIG) in
  exists wire wret,
    max17048_irq_clear_irq E s =
    Some (IRQ_HANDLED,
          {| chip := chip s;
             trace := trace s ++ [I2cReadWord MAX17048_CONFIG a;
                                  I2cWriteWord MAX17048_CONFIG wire wret] |})
    /\
    (0 <= a ->
     register_word wire
     = Z.land (register_word (a mod 65536)) (Z.lnot MAX17048_CONFIG_ALRT) /\
     forall i, 0 <= i ->
       Z.testbit (register_word wire) i
       = if i =? 5 then false
         else Z.testbit (register_word (a mod 65536)) i) /\
    (a < 0 ->
     register_word wire
     = Z.land (a mod 65536) (Z.lnot MAX17048_CONFIG_ALRT)).
Proof.
  intros Hm Hsd a. unfold max17048_irq_clear_irq.
  unfold bind at 1. rewrite (max17048_read_word_eq E _ s Hm), Hsd.
  cbn [Z.eqb negb]. cbv zeta. reg8. fold a. rewrite to_u16_ltb0.
  unfold bind. rewrite max17048_write_word_eq by exact Hm.
  cbn [chip trace]. rewrite Hsd. cbn [Z.eqb negb]. cbv zeta. cbn [ret].
  rewrite <- app_assoc. cbn [app].
  eexists _, _. split; [reflexivity|].
  split.
  - intros Ha. destruct (read_word_value a Ha) as (H1 & H2 & H3).
    rewrite H1, H2.
    rewrite (to_u16_small (register_word _)) by exact H3.
    rewrite u16_land by exact H3. rewrite u16_land by exact H3.
    assert (Hw : register_word
                   (swab16 (Z.land (register_word (a mod 65536))
                              (Z.lnot MAX17048_CONFIG_ALRT)))
                 = Z.land (register_word (a mod 65536))
                     (Z.lnot MAX17048_CONFIG_ALRT)).
    { apply swab16_involutive. rewrite <- u16_land by exact H3.
      apply to_u16_range. }
    rewrite Hw. split; [reflexivity|].
    intros i Hi. rewrite Z.land_spec, Z.lnot_spec by exact Hi.
    unfold MAX17048_CONFIG_ALRT. change 0x0020 with (2 ^ 5).
    rewrite Z.pow2_bits_eqb by lia.
    rewrite (Z.eqb_sym 5 i).
    destruct (i =? 5); [apply andb_false_r|apply andb_true_r].
  - intros Ha. rewrite (proj2 (Z.ltb_lt a 0) Ha).
    assert (Hu : 0 <= to_u16 a < 65536) by apply to_u16_range.
    rewrite u16_land by exact Hu. rewrite u16_land by exact Hu.
    apply swab16_involutive. rewrite <- u16_land by exact Hu.
    apply to_u16_range.
Qed.

(** *** Suspend and resume *)

(** X17: [max17048_suspend] away from shutdown.  It leaves the context
    alone, arms the interrupt as a wake source when the device may wake the
    system, cancels the periodic work and then writes [0xffff] to the
    hibernate register; it returns the error of that write, or 0.  With
    1% alerts configured it first reads the config register and, after a
    successful read, writes it back with the alert bits cleared; without
    them the config register is not touched. *)
Theorem max17048_suspend_hibernates (s : state) (may_wakeup : bool) :
  mutex (chip s) = false ->
  shutdown_complete (chip s) = 0 ->
  let alerts := one_percent_alerts (model_data (pdata (chip s))) in
  exists r s' cfg w,
    max17048_suspend E may_wakeup s
    = Some ((r, if may_wakeup then [EnableIrqWake] else []), s') /\
    chip s' = chip s /\
    trace s' = trace s ++ cfg ++
      [CancelDelayedWorkSync; I2cWriteWord MAX17048_HIBRT 0xffff w] /\
    r = (if w <? 0 then w else 0) /\
    (alerts = 0 -> cfg = []) /\
    (alerts <> 0 ->
     exists a wire wret,
       cfg = [I2cReadWord MAX17048_CONFIG a;
              I2cWriteWord MAX17048_CONFIG wire wret] /\
       (0 <= a ->
        register_word wire
        = Z.land (register_word (a mod 65536)) (Z.lnot alerts))).
Proof.
  intros Hm Hsd alerts.
  set (wake := if may_wakeup then [EnableIrqWake] else []).
  assert (Htail : forall t, exists w,
    (emit CancelDelayedWorkSync ;;
     r <- max17048_write_word E MAX17048_HIBRT 0xffff ;;
     if r <? 0 then ret (r, wake) else ret (0, wake))
      {| chip := chip s; trace := t |}
    = Some ((if w <? 0 then w else 0, wake),
            {| chip := chip s;
               trace := t ++ [CancelDelayedWorkSync;
                              I2cWriteWord MAX17048_HIBRT 0xffff w] |})).
  { intros t. drv_run. unfold bind.
    rewrite max17048_write_word_eq by exact Hm.
    cbn [chip trace]. rewrite Hsd. cbn [Z.eqb negb]. cbv zeta.
    change (swab16 (to_u16 0xffff)) with 0xffff. reg8.
    rewrite <- app_assoc. cbn [app].
    match goal with
    | |- context [I2cWriteWord MAX17048_HIBRT 0xffff ?x] => exists x
    end.
    destruct (_ <? 0); reflexivity. }
  unfold max17048_suspend. unfold bind at 1. cbn [get_chip]. cbv zeta.
  fold alerts. fold wake.
  destruct (Z.eqb_spec alerts 0) as [H0|H0]; cbn [negb].
  - unfold bind at 1. cbn [ret].
    destruct s as [c t]. cbn [chip trace] in *.
    destruct (Htail t) as (w & Hw). rewrite Hw.
    exists (if w <? 0 then w else 0). eexists. exists [], w.
    cbn [chip trace app]. repeat split. intros K. contradiction.
  - unfold bind at 1. unfold bind at 1.
    rewrite (max17048_read_word_eq E _ s Hm), Hsd.
    cbn [Z.eqb negb]. cbv zeta. rewrite to_u16_ltb0.
    unfold bind at 1. rewrite max17048_write_word_eq by exact Hm.
    cbn [chip trace]. rewrite Hsd. cbn [Z.eqb negb]. cbv zeta. cbn [ret].
    match goal with
    | |- context [{| chip := chip s; trace := ?t |}] =>
        destruct (Htail t) as (w & Hw)
    end.
    rewrite Hw.
    exists (if w <? 0 then w else 0). eexists. eexists [_; _]. exists w.
    cbn [chip trace]. split; [reflexivity|]. split; [reflexivity|].
    split; [rewrite <- !app_assoc; reflexivity|].
    split; [reflexivity|]. split; [intros K; contradiction|].
    intros _. eexists _, _, _. split; [reflexivity|].
    intros Ha. destruct (read_word_value _ Ha) as (H1 & H2 & H3).
    rewrite H1, H2.
    rewrite (to_u16_small (register_word _)) by exact H3.
    rewrite u16_land by exact H3. rewrite u16_land by exact H3.
    apply swab16_involutive. rewrite <- u16_land by exact H3.
    apply to_u16_range.
Qed.

(** X18: [max17048_resume] away from shutdown.  If the write that
    restores the hibernate register fails, the error is returned and
    nothing else happens: the periodic work is not scheduled again, the
    wake source is not disarmed and the config register is not touched.
    Otherwise the work is scheduled with the fixed delay, the wake source
    is disarmed when the device may wake the system, and 0 is returned
    whatever happens to the config register, whose alert bits are set
    again after a successful read when 1% alerts are configured. *)
Theorem max17048_resume_rearms (s : state) (may_wakeup : bool) :
  mutex (chip s) = false ->
  shutdown_complete (chip s) = 0 ->
  let mdata := model_data (pdata (chip s)) in
  let alerts := one_percent_alerts mdata in
  let wire0 := swab16 (to_u16 (hibernate mdata)) in
  let w := to_s32 (i2c_smbus_write_word_data E (trace s) MAX17048_HIBRT
                     wire0) in
  let s1 := {| chip := chip s;
               trace := trace s ++ [I2cWriteWord MAX17048_HIBRT wire0 w] |} in
  (w < 0 -> max17048_resume E may_wakeup s = Some ((w, []), s1)) /\
  (0 <= w ->
   exists s' cfg,
     max17048_resume E may_wakeup s
     = Some ((0, if may_wakeup then [DisableIrqWake] else []), s') /\
     chip s' = chip s /\
     trace s' = trace s1 ++ ScheduleDelayedWork MAX17048_DELAY :: cfg /\
     (alerts = 0 -> cfg = []) /\
     (alerts <> 0 ->
      exists a wire wret,
        cfg = [I2cReadWord MAX17048_CONFIG a;
               I2cWriteWord MAX17048_CONFIG wire wret] /\
        (0 <= a -> 0 <= alerts < 65536 ->
         register_word wire
         = Z.lor (register_word (a mod 65536)) alerts))).
Proof.
  intros Hm Hsd mdata alerts wire0 w s1.
  split; intros Hw;
    unfold max17048_resume; unfold bind at 1; cbn [get_chip]; cbv zeta;
    fold mdata; fold alerts;
    unfold bind at 1; rewrite (max17048_write_word_eq E _ _ s Hm), Hsd;
    cbn [Z.eqb negb]; cbv zeta; reg8; fold wire0; fold w; fold s1.
  - rewrite (proj2 (Z.ltb_lt w 0) Hw). reflexivity.
  - rewrite (proj2 (Z.ltb_ge w 0) Hw). unfold s1.
    unfold bind at 1. cbn [emit chip trace].
    destruct (Z.eqb_spec alerts 0) as [H0|H0]; cbn [negb].
    + cbn [bind ret]. eexists _, []. split; [reflexivity|].
      cbn [chip trace]. repeat split. intros K. contradiction.
    + unfold bind at 1. unfold bind at 1.
      rewrite max17048_read_word_eq by exact Hm.
      cbn [chip trace]. rewrite Hsd. cbn [Z.eqb negb]. cbv zeta.
      rewrite to_u16_ltb0.
      unfold bind at 1. rewrite max17048_write_word_eq by exact Hm.
      cbn [chip trace]. rewrite Hsd. cbn [Z.eqb negb]. cbv zeta.
      cbn [ret].
      eexists _, [_; _]. split; [reflexivity|]. cbn [chip trace].
      split; [reflexivity|].
      split; [rewrite <- !app_assoc; reflexivity|].
      split; [intros K; contradiction|].
      intros _. eexists _, _, _. split; [reflexivity|].
      intros Ha Hal. destruct (read_word_value _ Ha) as (H1 & H2 & H3).
      rewrite H1, H2.
      rewrite (to_u16_small (register_word _)) by exact H3.
      rewrite u16_lor by assumption. rewrite u16_lor by assumption.
      apply swab16_involutive. rewrite <- u16_lor by assumption.
      apply to_u16_range.
Qed.

(** *** Temperature tracking *)

Lemma triple_conj {A : Type} (P1 P2 Q1 Q2 : state -> Prop) (m : M A) :
  triple P1 m Q1 -> triple P2 m Q2 ->
  triple (fun s => P1 s /\ P2 s) m (fun s => Q1 s /\ Q2 s).
Proof.
  intros H1 H2 s Hm (p1 & p2).
  destruct (H1 s Hm p1) as (a & s' & E1 & M1 & q1).
  destruct (H2 s Hm p2) as (a' & s'' & E2 & M2 & q2).
  rewrite E1 in E2. inversion E2; subst.
  exists a', s''. auto.
Qed.

Lemma config_free_read_word t0 reg :
  (to_u8 reg =? MAX17048_CONFIG) = false ->
  triple (since t0 is_config_access) (max17048_read_word E reg)
    (since t0 is_config_access).
Proof.
  intros Hreg s Hm Hp. rewrite (max17048_read_word_eq E reg s Hm).
  destruct (negb (shutdown_complete (chip s) =? 0)); cbv zeta;
    eexists _, _; (split; [reflexivity|]); split; try exact Hm;
    try exact Hp.
  apply since_emit; [exact Hreg|exact Hp].
Qed.

Lemma config_free_read_vcell t0 :
  triple (since t0 is_config_access)
    (max17048_read_word E MAX17048_VCELL) (since t0 is_config_access).
Proof. apply config_free_read_word. reflexivity. Qed.

Lemma config_free_read_soc t0 :
  triple (since t0 is_config_access)
    (max17048_read_word E MAX17048_SOC) (since t0 is_config_access).
Proof. apply config_free_read_word. reflexivity. Qed.

Lemma config_free_call t0 callback threshold min_cpu :
  triple (since t0 is_config_access)
    (call_set_current_threshold callback threshold min_cpu)
    (since t0 is_config_access).
Proof.
  intros s Hm Hp. eexists _, _. split; [reflexivity|].
  split; [exact Hm|]. apply since_emit; [reflexivity|exact Hp].
Qed.

(** What [max17048_update_rcomp] does to the bus: behind the fence
    nothing; otherwise one read of the config register and, when the read
    succeeds, one write that carries the new RCOMP byte and keeps the low
    byte. *)
Lemma max17048_update_rcomp_run (temp : Z) (s : state) :
  mutex (chip s) = false ->
  exists written,
    max17048_update_rcomp E temp s =
    Some (tt, {| chip := chip s; trace := trace s ++ written |}) /\
    (shutdown_complete (chip s) = 0 ->
     let a :=
       to_s32 (i2c_smbus_read_word_data E (trace s) MAX17048_CONFIG) in
     let mdata := model_data (pdata (chip s)) in
     exists after,
       written = I2cReadWord MAX17048_CONFIG a :: after /\
       (a < 0 -> after = []) /\
       (0 <= a ->
        exists wire wret,
          after = [I2cWriteWord MAX17048_CONFIG wire wret] /\
          Z.shiftr (register_word wire) 8 = new_rcomp mdata temp /\
          Z.land (register_word wire) 0xFF
          = Z.land (register_word (a mod 65536)) 0xFF)).
Proof.
  intros Hm. unfold max17048_update_rcomp.
  unfold bind at 1. cbn [get_chip]. cbv zeta. unfold bind at 1.
  rewrite (max17048_read_word_eq E _ s Hm).
  destruct (Z.eqb_spec (shutdown_complete (chip s)) 0) as [Hsd|Hsd];
    cbn [negb]; cbv zeta.
  - reg8.
    set (a := to_s32 (i2c_smbus_read_word_data E (trace s)
                        MAX17048_CONFIG)).
    destruct (Z.ltb_spec a 0) as [Ha|Ha].
    + rewrite (proj2 (Z.ltb_lt a 0) Ha). cbn [ret].
      exists [I2cReadWord MAX17048_CONFIG a]. split; [reflexivity|].
      intros _. exists []. split; [reflexivity|].
      split; [reflexivity|]. intros K. lia.
    + destruct (read_word_value a Ha) as (_ & R2 & R3).
      rewrite R2. rewrite (proj2 (Z.ltb_ge _ 0) (proj1 R3)).
      unfold bind. rewrite max17048_write_word_eq by exact Hm.
      cbn [chip trace]. rewrite Hsd. cbn [Z.eqb negb]. cbv zeta.
      cbn [ret]. reg8. rewrite <- app_assoc. cbn [app].
      eexists [_; _]. split; [reflexivity|].
      intros _. eexists [_]. split; [reflexivity|].
      split; [intros K; lia|]. intros _.
      eexists _, _. split; [reflexivity|].
      pose proof (new_rcomp_range (model_data (pdata (chip s))) temp)
        as Hrange.
      destruct (config_word_bytes (register_word (a mod 65536))
                  (new_rcomp (model_data (pdata (chip s))) temp))
        as (W1 & W2 & W3); [lia|].
      rewrite W1. split; assumption.
  - change (- ENODEV <? 0) with true. cbn [ret].
    exists []. split; [rewrite app_nil_r; destruct s; reflexivity|].
    intros K. contradiction.
Qed.

(** X19: a sampling pass keeps the compensation temperature fresh.  The
    shadow temperature takes the temperature of the pass exactly when the
    driver finds the two 1500 or more apart; the compensation is then
    recomputed for the new temperature, with one read of the config
    register and, when it succeeds, one write that carries the new RCOMP
    byte, followed by a notification.  Otherwise the config register is
    not touched, and in neither case does the rest of the pass touch it.
    The driver measures the distance in a [long]: where the true
    difference fits one, the test is the test on the absolute difference
    and the pass ends with temperature and shadow less than 1500 apart. *)
Theorem max17048_work_tracks_temperature (s : state) :
  mutex (chip s) = false ->
  let T := pass_temperature E s in
  let L := lasttime_temperature (chip s) in
  let mdata := model_data (pdata (chip s)) in
  let stale := abs_long (to_s32 (T - L)) >=? 1500 in
  let pre :=
    if machine_is_tegratab E || machine_is_tegranote7c E
    then [ThermalZoneGetTemp] else [] in
  let a :=
    to_s32 (i2c_smbus_read_word_data E (trace s ++ pre) MAX17048_CONFIG) in
  exists s' comp rest,
    max17048_work E s = Some (tt, s') /\
    temperature (chip s') = T /\
    lasttime_temperature (chip s') = (if stale then T else L) /\
    trace s' = trace s ++ pre ++ comp ++ rest /\
    existsb is_config_access rest = false /\
    (stale = false -> comp = []) /\
    (stale = true -> shutdown_complete (chip s) = 0 ->
     exists written,
       comp = I2cReadWord MAX17048_CONFIG a
              :: written ++ [PowerSupplyChanged] /\
       (a < 0 -> written = []) /\
       (0 <= a ->
        exists wire wret,
          written = [I2cWriteWord MAX17048_CONFIG wire wret] /\
          Z.shiftr (register_word wire) 8 = new_rcomp mdata T /\
          Z.land (register_word wire) 0xFF
          = Z.land (register_word (a mod 65536)) 0xFF)) /\
    (Z.abs (T - L) < 2 ^ 31 ->
     stale = (Z.abs (T - L) >=? 1500) /\
     Z.abs (temperature (chip s') - lasttime_temperature (chip s'))
     < 1500).
Proof.
  intros Hm T L mdata stale pre a.
  set (L' := if stale then T else L).
  set (c1 := if machine_is_tegratab E || machine_is_tegranote7c E
             then set_temperature T (chip s) else chip s).
  set (s1 := {| chip := c1; trace := trace s ++ pre |}).
  assert (F1 : temperature c1 = T /\ lasttime_temperature c1 = L /\
               mutex c1 = false /\ pdata c1 = pdata (chip s) /\
               shutdown_complete c1 = shutdown_complete (chip s)).
  { unfold c1, T, L, pass_temperature.
    destruct (machine_is_tegratab E || machine_is_tegranote7c E);
      repeat split; try exact Hm. }
  destruct F1 as (HT1 & HL1 & Hm1 & Hp1 & Hd1).
  assert (H1 :
    (if machine_is_tegratab E || machine_is_tegranote7c E
     then temp <- max17048_thz_get_temp E ;; update (set_temperature temp)
     else ret tt) s = Some (tt, s1)).
  { unfold s1, c1, pre, T, pass_temperature.
    destruct (machine_is_tegratab E || machine_is_tegranote7c E).
    - reflexivity.
    - rewrite app_nil_r. destruct s. reflexivity. }
  (* the compensation step *)
  assert (H2 : exists comp s3,
    (if stale
     then update (set_lasttime_temperature T) ;;
          max17048_update_rcomp E T ;; power_supply_changed
     else ret tt) s1 = Some (tt, s3) /\
    mutex (chip s3) = false /\
    temperature (chip s3) = T /\ lasttime_temperature (chip s3) = L' /\
    trace s3 = trace s1 ++ comp /\
    (stale = false -> comp = []) /\
    (stale = true -> shutdown_complete (chip s) = 0 ->
     exists written,
       comp = I2cReadWord MAX17048_CONFIG a
              :: written ++ [PowerSupplyChanged] /\
       (a < 0 -> written = []) /\
       (0 <= a ->
        exists wire wret,
          written = [I2cWriteWord MAX17048_CONFIG wire wret] /\
          Z.shiftr (register_word wire) 8 = new_rcomp mdata T /\
          Z.land (register_word wire) 0xFF
          = Z.land (register_word (a mod 65536)) 0xFF))).
  { unfold L'. destruct stale.
    - set (s2 := {| chip := set_lasttime_temperature T c1;
                    trace := trace s ++ pre |}).
      assert (Hm2 : mutex (chip s2) = false)
        by (unfold s2; destruct c1; exact Hm1).
      destruct (max17048_update_rcomp_run T s2 Hm2) as (written & Hrc & Hw).
      exists (written ++ [PowerSupplyChanged]). eexists.
      split.
      { unfold bind at 1. cbn [update]. fold s1. unfold s1. cbn [chip trace].
        fold s2. rewrite (bind_some _ _ _ _ _ Hrc). reflexivity. }
      cbn [chip trace]. unfold s2. cbn [chip trace].
      split; [destruct c1; exact Hm1|].
      split; [destruct c1; exact HT1|].
      split; [destruct c1; reflexivity|].
      split; [unfold s1; cbn [trace]; rewrite app_assoc; reflexivity|].
      split; [intros K; discriminate|].
      intros _ Hsd.
      assert (Hsd2 : shutdown_complete (chip s2) = 0)
        by (unfold s2; destruct c1; cbn in *; congruence).
      destruct (Hw Hsd2) as (after & -> & A1 & A2).
      exists after. split; [reflexivity|]. split; [exact A1|].
      intros Ha. destruct (A2 Ha) as (wire & wret & -> & B1 & B2).
      exists wire, wret. split; [reflexivity|]. split; [|exact B2].
      rewrite B1. unfold mdata. rewrite <- Hp1. unfold s2.
      destruct c1. reflexivity.
    - exists [], s1. split; [reflexivity|]. unfold s1. cbn [chip trace].
      split; [exact Hm1|]. split; [exact HT1|]. split; [exact HL1|].
      split; [symmetry; apply app_nil_r|]. split; [reflexivity|].
      intros K. discriminate. }
  destruct H2 as (comp & s3 & H2 & Hm3 & HT3 & HL3 & Ht3 & Hc0 & Hc1).
  unfold max17048_work.
  rewrite (bind_some _ _ _ _ _ H1).
  unfold bind at 1. cbn [get_chip]. change (chip s1) with c1.
  rewrite HT1, HL1. fold stale.
  rewrite (bind_some _ _ _ _ _ H2).
  match goal with
  | |- context [bind (max17048_get_vcell E) ?k] =>
      set (tail := bind (max17048_get_vcell E) k)
  end.
  assert (Hfree : triple (since (trace s3) is_config_access) tail
                    (since (trace s3) is_config_access)).
  { unfold tail, max17048_get_vcell, max17048_get_soc,
      max17048_set_current_threshold, max17048_sysedp_throttle,
      max17048_work_report, power_supply_changed.
    pose proof (config_free_read_vcell (trace s3)).
    pose proof (config_free_read_soc (trace s3)).
    pose proof (config_free_call (trace s3)).
    tri_tac since_upd. }
  assert (Hkeep :
    triple (on_chip (fun c => temperature c = T /\
                              lasttime_temperature c = L')) tail
      (on_chip (fun c => temperature c = T /\
                         lasttime_temperature c = L'))).
  { unfold tail, max17048_get_vcell, max17048_get_soc,
      max17048_set_current_threshold, max17048_sysedp_throttle,
      max17048_work_report, power_supply_changed.
    pose proof on_chip_read_word. pose proof on_chip_call.
    tri_tac field_upd. }
  destruct (triple_conj _ _ _ _ _ Hfree Hkeep s3 Hm3)
    as ([] & s' & Hrun & _ & (rest & Hrest & Hnone) & (Q1 & Q2)).
  { split; [destruct s3; apply since_start|]. split; assumption. }
  exists s', comp, rest. split; [exact Hrun|]. split; [exact Q1|].
  split; [exact Q2|].
  split.
  { rewrite Hrest, Ht3. unfold s1. cbn [trace].
    rewrite <- !app_assoc. reflexivity. }
  split; [exact Hnone|]. split; [exact Hc0|]. split; [exact Hc1|].
  intros Hfit. rewrite Q1, Q2. unfold L', stale.
  change (2 ^ 31) with 2147483648 in Hfit.
  assert (Habs : abs_long (to_s32 (T - L)) = Z.abs (T - L)).
  { rewrite to_s32_small by (change (2 ^ 31) with 2147483648; lia).
    unfold abs_long. destruct (Z.ltb_spec (T - L) 0) as [K|K].
    - rewrite to_s32_small by (change (2 ^ 31) with 2147483648; lia). lia.
    - lia. }
  rewrite Habs. split; [reflexivity|].
  destruct (Z.geb_spec (Z.abs (T - L)) 1500) as [K|K].
  - rewrite Z.sub_diag. reflexivity.
  - exact K.
Qed.

(** *** The model table *)

(** X20: the loop that loads the model, away from shutdown and with every
    block write answering 0, sends the four 16-byte blocks to [0x40],
    [0x50], [0x60] and [0x70] in this order; for a table of 64 bytes the
    blocks put together are the table. *)
Theorem write_model_data_loop_blocks (s : state)
  (mdata : max17048_battery_model) :
  mutex (chip s) = false ->
  shutdown_complete (chip s) = 0 ->
  (forall t command len values,
      i2c_smbus_write_i2c_block_data E t command len values = 0) ->
  length (data_tbl mdata) = 64%nat ->
  exists b0 b1 b2 b3,
    write_model_data_loop E mdata 4 0 s =
    Some (true,
          {| chip := chip s;
             trace := trace s ++
               [I2cWriteBlock 0x40 16 b0 0; I2cWriteBlock 0x50 16 b1 0;
                I2cWriteBlock 0x60 16 b2 0; I2cWriteBlock 0x70 16 b3 0] |})
    /\ b0 ++ b1 ++ b2 ++ b3 = data_tbl mdata
    /\ length b0 = 16%nat /\ length b1 = 16%nat
    /\ length b2 = 16%nat /\ length b3 = 16%nat.
Proof.
  intros Hm Hsd Hok Hlen.
  assert (Hstep : forall t command values (k : Z -> M bool),
    bind (max17048_write_block E command 16 values) k
      {| chip := chip s; trace := t |}
    = k 0 {| chip := chip s;
             trace := t ++ [I2cWriteBlock (to_u8 command) 16 values 0] |}).
  { intros t command values k. unfold bind.
    rewrite max17048_write_block_eq by exact Hm.
    cbn [chip trace]. rewrite Hsd, Hok. reflexivity. }
  destruct s as [c t]. cbn [chip trace] in *.
  cbn [write_model_data_loop]. rewrite !Hstep.
  cbn [Z.ltb Z.compare]. rewrite !Hstep. cbn [Z.ltb Z.compare].
  rewrite !Hstep. cbn [Z.ltb Z.compare]. rewrite !Hstep.
  cbn [Z.ltb Z.compare ret]. rewrite <- !app_assoc. cbn [app].
  eexists _, _, _, _. split; [reflexivity|].
  remember (data_tbl mdata) as l eqn:Hl. clear Hl.
  do 64 (destruct l as [|? l]; [discriminate Hlen|]).
  destruct l; [|discriminate Hlen].
  repeat split.
Qed.

(** X21: the model loader on a bus that accepts every write, away from
    shutdown.  When the register read back after the load shows a charge
    inside the check window of the model, the loader returns 0, leaves the
    driver context alone, and its last two transactions unlock the model
    and put back the open-circuit voltage: the word sent is the very word
    the first read received. *)
Theorem max17048_load_model_data_restores_ocv (s : state)
  (raw socraw : Z) :
  let mdata := model_data (pdata (chip s)) in
  mutex (chip s) = false ->
  shutdown_complete (chip s) = 0 ->
  (forall t reg data, i2c_smbus_write_word_data E t reg data = 0) ->
  (forall t command len values,
      i2c_smbus_write_i2c_block_data E t command len values = 0) ->
  i2c_smbus_read_word_data E (trace s) MAX17048_OCV = raw ->
  0 <= raw < 65535 ->
  (forall t, i2c_smbus_read_word_data E t MAX17048_SOC = socraw) ->
  0 <= socraw < 65536 ->
  soccheck_A mdata <= Z.shiftr (register_word socraw) 8
    <= soccheck_B mdata ->
  exists t,
    max17048_load_model_data E s =
    Some (0,
          {| chip := chip s;
             trace := trace s ++ I2cReadWord MAX17048_OCV raw :: t ++
               [I2cWriteWord MAX17048_UNLOCK (swab16 MAX17048_UNLOCK_VALUE)
                  0;
                I2cWriteWord MAX17048_OCV raw 0] |}).
Proof.
  intros mdata Hm Hsd Hw Hb Hocv Hraw Hsoc Hsocraw Hwin.
  destruct s as [c t0]. cbn [chip trace] in *.
  assert (HW : forall t reg value (k : Z -> M Z),
    bind (max17048_write_word E reg value) k {| chip := c; trace := t |}
    = k 0 {| chip := c;
             trace := t ++
               [I2cWriteWord (to_u8 reg) (swab16 (to_u16 value)) 0] |}).
  { intros t reg value k. unfold bind.
    rewrite max17048_write_word_eq by exact Hm.
    cbn [chip trace]. rewrite Hsd, Hw. reflexivity. }
  assert (HB : forall t command values (A : Type) (k : Z -> M A),
    bind (max17048_write_block E command 16 values) k
      {| chip := c; trace := t |}
    = k 0 {| chip := c;
             trace := t ++ [I2cWriteBlock (to_u8 command) 16 values 0] |}).
  { intros t command values A k. unfold bind.
    rewrite max17048_write_block_eq by exact Hm.
    cbn [chip trace]. rewrite Hsd, Hb. reflexivity. }
  assert (HR : forall t (k : Z -> M Z),
    bind (max17048_read_word E MAX17048_SOC) k {| chip := c; trace := t |}
    = k (register_word socraw)
        {| chip := c; trace := t ++ [I2cReadWord MAX17048_SOC socraw] |}).
  { intros t k. unfold bind.
    rewrite max17048_read_word_eq by exact Hm.
    cbn [chip trace]. reg8. rewrite Hsd, Hsoc. cbn [Z.eqb negb]. cbv zeta.
    rewrite to_s32_small by (change (2 ^ 31) with 2147483648; lia).
    destruct (read_word_value socraw) as (R1 & R2 & _); [lia|].
    rewrite R1, R2, Z.mod_small by exact Hsocraw. reflexivity. }
  assert (HO : forall k : Z -> M Z,
    bind (max17048_read_word E MAX17048_OCV) k
      {| chip := c; trace := t0 |}
    = k (register_word raw)
        {| chip := c; trace := t0 ++ [I2cReadWord MAX17048_OCV raw] |}).
  { intros k. unfold bind.
    rewrite max17048_read_word_eq by exact Hm.
    cbn [chip trace]. reg8. rewrite Hsd, Hocv. cbn [Z.eqb negb]. cbv zeta.
    rewrite to_s32_small by (change (2 ^ 31) with 2147483648; lia).
    destruct (read_word_value raw) as (R1 & R2 & _); [lia|].
    rewrite R1, R2, Z.mod_small by lia. reflexivity. }
  pose proof (swab16_range raw) as Hrange.
  assert (Hinv : swab16 (register_word raw) = raw)
    by (apply (swab16_involutive raw); lia).
  assert (Hne : register_word raw <> 65535).
  { intros K. rewrite K in Hinv. vm_compute in Hinv. lia. }
  unfold max17048_load_model_data. unfold bind at 1. cbn [get_chip].
  cbn [chip]. fold mdata. rewrite HO.
  unfold register_word in *.
  rewrite (proj2 (Z.ltb_ge (swab16 raw) 0) (proj1 Hrange)).
  rewrite (to_u16_small (swab16 raw)) by exact Hrange.
  rewrite (proj2 (Z.eqb_neq (swab16 raw) 0xffff) Hne).
  cbn [write_model_data_loop]. unfold bind at 1. rewrite !HB.
  cbn [Z.ltb Z.compare]. rewrite !HB. cbn [Z.ltb Z.compare].
  rewrite !HB. cbn [Z.ltb Z.compare]. rewrite !HB.
  cbn [Z.ltb Z.compare ret negb]. rewrite HW. cbn [Z.ltb Z.compare].
  unfold max17048_write_rcomp_seg. cbv zeta. unfold bind at 1.
  rewrite !HB. cbn [Z.ltb Z.compare]. rewrite !HB.
  cbn [Z.ltb Z.compare ret]. rewrite HW. cbn [Z.ltb Z.compare].
  rewrite HW. cbn [Z.ltb Z.compare].
  unfold mdelay at 1. unfold bind at 1. cbn [emit chip trace].
  rewrite HR. unfold register_word.
  pose proof (swab16_range socraw) as Hsr.
  rewrite (proj2 (Z.ltb_ge (swab16 socraw) 0) (proj1 Hsr)).
  rewrite (to_u16_small (swab16 socraw)) by exact Hsr.
  rewrite (proj2 (Z.geb_le _ _) (proj1 Hwin)).
  rewrite (proj2 (Z.leb_le _ _) (proj2 Hwin)).
  cbn [andb negb]. rewrite HW. cbn [Z.ltb Z.compare].
  rewrite HW. cbn [Z.ltb Z.compare ret].
  rewrite (to_u16_small (swab16 raw)) by exact Hrange.
  rewrite Hinv. rewrite <- !app_assoc. cbn [app].
  eexists [_; _; _; _; _; _; _; _; _; _; _]. cbn [app].
  rewrite (to_u16_small MAX17048_UNLOCK_VALUE) by (vm_compute; split; congruence).
  reflexivity.
Qed.

(** *** The charger interface *)

(** X22: what the charger reports survives sampling.  After
    [max17048_battery_status], the status and its shadow are Charging when
    the reported state is [progress] and Discharging otherwise, and one
    notification is raised; a later reading of the charge keeps the shadow
    and leaves the status as reported, except that Charging is shown as
    Full while the charge is at its maximum. *)
Theorem max17048_battery_status_survives_sampling
  (progress status_arg : Z) (d : driver) (c : max17048_chip)
  (t : list event) :
  max17048_data d = Some c ->
  mutex c = false ->
  let reported :=
    if status_arg =? progress then POWER_SUPPLY_STATUS_CHARGING
    else POWER_SUPPLY_STATUS_DISCHARGING in
  exists c1 s',
    max17048_battery_status progress status_arg d =
      {| max17048_data := Some c1;
         history := history d ++ [PowerSupplyChanged] |} /\
    status c1 = reported /\ lasttime_status c1 = reported /\
    max17048_get_soc E {| chip := c1; trace := t |} = Some (tt, s') /\
    lasttime_status (chip s') = reported /\
    status (chip s') =
      (if (status_arg =? progress)
          && (internal_soc (chip s') >=? MAX17048_BATTERY_FULL)
       then POWER_SUPPLY_STATUS_FULL else reported).
Proof.
  intros Hd Hm reported.
  unfold max17048_battery_status. rewrite Hd.
  set (c0 := if status_arg =? progress
             then set_status POWER_SUPPLY_STATUS_CHARGING c
             else set_status POWER_SUPPLY_STATUS_DISCHARGING c).
  set (c1 := set_lasttime_status (status c0) c0).
  assert (H0 : status c0 = reported /\ mutex c0 = false).
  { unfold c0, reported. destruct (status_arg =? progress);
      (split; [reflexivity|exact Hm]). }
  destruct H0 as (Hst0 & Hm0).
  assert (H1 : status c1 = reported /\ lasttime_status c1 = reported /\
               mutex c1 = false).
  { unfold c1. destruct c0. cbn in *. auto. }
  destruct H1 as (Hst & Hlst & Hm1).
  destruct (max17048_get_soc_eq {| chip := c1; trace := t |} Hm1)
    as (r & s1 & _ & Hrun).
  cbv zeta in Hrun. cbn [chip] in Hrun.
  eexists c1, _. split; [reflexivity|].
  split; [exact Hst|]. split; [exact Hlst|].
  split; [exact Hrun|]. cbn [chip].
  set (isoc := if r <? 0 then internal_soc c1
               else if bits (model_data (pdata c1)) =? 18
                    then Z.shiftr (to_u16 r) 8
                    else Z.shiftr (to_u16 r) 9).
  assert (Hproj : forall cl h st so i0 c',
    lasttime_status
      (set_capacity_level cl
         (set_health h (set_status st (set_soc so
            (set_internal_soc i0 c'))))) = lasttime_status c' /\
    status
      (set_capacity_level cl
         (set_health h (set_status st (set_soc so
            (set_internal_soc i0 c'))))) = st /\
    internal_soc
      (set_capacity_level cl
         (set_health h (set_status st (set_soc so
            (set_internal_soc i0 c'))))) = i0).
  { intros. destruct c'. repeat split. }
  match goal with
  | |- context [set_capacity_level ?cl (set_health ?h (set_status ?st
                  (set_soc ?so (set_internal_soc ?i0 ?c')))) ] =>
      destruct (Hproj cl h st so i0 c') as (P1 & P2 & P3)
  end.
  rewrite P1, P2, P3, Hst, Hlst.
  split; [reflexivity|].
  destruct (isoc >=? MAX17048_BATTERY_FULL);
    [|rewrite Bool.andb_false_r; reflexivity].
  rewrite Bool.andb_true_r. unfold reported.
  destruct (status_arg =? progress); reflexivity.
Qed.

(** *** The compensation as a function of the temperature *)

Lemma quot_million_mono (a b : Z) :
  a <= b -> a ÷ 1000000 <= b ÷ 1000000.
Proof. intros H. apply Z.quot_le_mono; lia. Qed.

Lemma quot_million_bound (a m : Z) :
  - (m * 1000000) <= a <= m * 1000000 -> - m <= a ÷ 1000000 <= m.
Proof.
  intros [H1 H2]. split.
  - rewrite <- (Z.quot_mul (- m) 1000000) by lia.
    apply quot_million_mono. lia.
  - rewrite <- (Z.quot_mul m 1000000) by lia.
    apply quot_million_mono. exact H2.
Qed.

Lemma spec_delta_antitone (h c t1 t2 : Z) :
  h <= 0 -> c <= 0 -> t1 <= t2 ->
  spec_delta h c t2 <= spec_delta h c t1.
Proof.
  intros Hh Hc Ht. unfold spec_delta.
  rewrite !Z.gtb_ltb.
  assert (Z0 : 0 ÷ 1000000 = 0) by reflexivity.
  destruct (Z.ltb_spec 20000 t2) as [A|A];
    destruct (Z.ltb_spec 20000 t1) as [B|B];
    try destruct (Z.ltb_spec t2 20000) as [A'|A'];
    try destruct (Z.ltb_spec t1 20000) as [B'|B'];
    try lia;
    try (apply quot_million_mono; nia);
    try (rewrite <- Z0 at 1; apply quot_million_mono; nia);
    try (rewrite <- Z0; apply quot_million_mono; nia).
Qed.

Lemma spec_delta_bound (h c t : Z) :
  - 2 ^ 31 <= t < 2 ^ 31 ->
  - 100000 <= h <= 100000 -> - 100000 <= c <= 100000 ->
  - 220000000 <= spec_delta h c t <= 220000000.
Proof.
  change (2 ^ 31) with 2147483648.
  intros Ht Hh Hc. unfold spec_delta.
  destruct (t >? 20000); [apply (quot_million_bound _ 220000000); nia|].
  destruct (t <? 20000); [apply (quot_million_bound _ 220000000); nia|lia].
Qed.

(** X23: a warmer battery never gets a larger compensation.  With
    coefficients that are not positive (and not below -100000), a base
    within a byte and temperatures that fit a 32-bit [long], the value
    [max17048_update_rcomp] computes for the RCOMP byte does not increase
    when the temperature does. *)
Theorem new_rcomp_antitone (mdata : max17048_battery_model) (t1 t2 : Z) :
  - 100000 <= t_co_hot mdata <= 0 ->
  - 100000 <= t_co_cold mdata <= 0 ->
  0 <= rcomp mdata <= 255 ->
  - 2 ^ 31 <= t1 -> t1 <= t2 -> t2 < 2 ^ 31 ->
  new_rcomp mdata t2 <= new_rcomp mdata t1.
Proof.
  intros Hh Hc Hr H1 H12 H2.
  pose proof (spec_delta_bound (t_co_hot mdata) (t_co_cold mdata) t1)
    as B1.
  pose proof (spec_delta_bound (t_co_hot mdata) (t_co_cold mdata) t2)
    as B2.
  pose proof (spec_delta_antitone (t_co_hot mdata) (t_co_cold mdata)
                t1 t2) as Hanti.
  change (2 ^ 31) with 2147483648 in *.
  rewrite !new_rcomp_spec;
    try (change (2 ^ 31) with 2147483648; lia).
  unfold spec_rcomp, clamp. rewrite !Z.gtb_ltb.
  repeat match goal with
         | |- context [?a <? ?b] => destruct (Z.ltb_spec a b)
         end; lia.
Qed.
End Coverage.

(** ** The further properties on concrete boards *)

(** The hibernate word written to its register is read back. *)
Lemma transport_round_trip_witness :
  exists s',
    bind (max17048_write_word (registers_board [(MAX17048_HIBRT, 0x3080)])
            MAX17048_HIBRT 0x3080)
         (fun _ => max17048_read_word
                     (registers_board [(MAX17048_HIBRT, 0x3080)])
                     MAX17048_HIBRT) sample_state
    = Some (0x3080, s') /\
    chip s' = sample_chip.
Proof.
  apply (transport_round_trip (registers_board [(MAX17048_HIBRT, 0x3080)])
           sample_state MAX17048_HIBRT 0x3080).
  - reflexivity.
  - reflexivity.
  - intros r. reflexivity.
Defined.

(** A register number beyond a byte selects the register of its low
    eight bits: [0x104] reads the charge-state register [0x04]. *)
Lemma max17048_read_word_result_witness :
  exists s',
    max17048_read_word (soc_board 0xC800) 0x104 sample_state
    = Some (0xC800, s') /\
    chip s' = sample_chip /\
    trace s' = [I2cReadWord MAX17048_SOC (swab16 0xC800)].
Proof.
  destruct (max17048_read_word_result (soc_board 0xC800) sample_state
              0x104) as (r & s' & H1 & H2 & _ & _ & H5).
  - reflexivity.
  - pose proof (H5 eq_refl) as K. cbv zeta in K.
    destruct K as (Htr & _ & Hr).
    assert (Hr' : r = 0xC800) by (apply Hr; vm_compute; discriminate).
    rewrite Hr' in H1.
    exists s'. split; [exact H1|]. split; [exact H2|exact Htr].
Defined.

Lemma max17048_get_vcell_converts_witness :
  exists r s1 s',
    max17048_read_word (registers_board [(MAX17048_VCELL, 0xC800)])
      MAX17048_VCELL sample_state = Some (r, s1) /\
    max17048_get_vcell (registers_board [(MAX17048_VCELL, 0xC800)])
      sample_state = Some (tt, s') /\
    trace s' = trace s1.
Proof.
  destruct (max17048_get_vcell_converts
              (registers_board [(MAX17048_VCELL, 0xC800)]) sample_state)
    as (r & s1 & s' & H1 & H2 & H3 & _).
  - reflexivity.
  - exists r, s1, s'. split; [exact H1|]. split; [exact H2|exact H3].
Defined.

Lemma max17048_get_soc_caps_charge_witness :
  exists s',
    max17048_get_soc (soc_board 0xC800) charging_state = Some (tt, s') /\
    soc (chip s') = Z.min (internal_soc (chip s')) 100 /\
    health (chip s') = derived_health (internal_soc (chip s')).
Proof.
  destruct (max17048_get_soc_caps_charge (soc_board 0xC800) charging_state)
    as (r & s1 & s' & _ & H2 & H3 & H4 & _).
  - reflexivity.
  - exists s'. split; [exact H2|]. split; [exact H3|exact H4].
Defined.

Lemma soc_stays_a_percentage_witness :
  soc_in_range (chip sample_state) /\
  (exists s', max17048_work (soc_board 0xC800) sample_state = Some (tt, s') /\
              soc_in_range (chip s')) /\
  (exists r s', max17048_irq (soc_board 0xC800) sample_state = Some (r, s') /\
                soc_in_range (chip s')).
Proof.
  assert (H : soc_in_range (chip sample_state))
    by (unfold soc_in_range; simpl; lia).
  split; [exact H|].
  apply (soc_stays_a_percentage (soc_board 0xC800) sample_state);
    [reflexivity|exact H].
Defined.

(** At a charge state of 45 the second entry of the throttle table is the
    first whose bound is at least 45. *)
Lemma max17048_sysedp_throttle_always_calls_witness :
  max17048_sysedp_throttle (state_at sample_pdata 45 0) =
  Some (tt, {| chip := chip_at sample_pdata 45 0;
               trace := [SysedpThrottle 900] |}).
Proof.
  apply (max17048_sysedp_throttle_always_calls (state_at sample_pdata 45 0));
    simpl; lia.
Defined.

Lemma max17048_work_rearms_once_witness :
  exists s' t,
    max17048_work (soc_board 0xC800) sample_state = Some (tt, s') /\
    trace s' = t ++ [ScheduleDelayedWork MAX17048_DELAY] /\
    existsb is_rearm t = false.
Proof.
  destruct (max17048_work_rearms_once (soc_board 0xC800) sample_state)
    as (s' & t & H1 & H2 & H3).
  - reflexivity.
  - exists s', t. split; [exact H1|]. split; [exact H2|exact H3].
Defined.

Lemma nothing_reaches_the_bus_after_shutdown_witness :
  exists a s' t,
    max17048_work (soc_board 0xC800) shutdown_state = Some (a, s') /\
    trace s' = trace shutdown_state ++ t /\
    existsb is_bus_event t = false.
Proof.
  apply (proj1 (nothing_reaches_the_bus_after_shutdown (soc_board 0xC800))).
  - reflexivity.
  - simpl. lia.
Defined.

Lemma max17048_work_final_state_witness :
  exists s',
    max17048_work (soc_board 0xC800) sample_state = Some (tt, s') /\
    temperature (chip s') = 20000 /\
    soc (chip s') = Z.min (internal_soc (chip s')) 100 /\
    lasttime_soc (chip s') = soc (chip s').
Proof.
  destruct (max17048_work_final_state (soc_board 0xC800) sample_state)
    as (s' & H1 & H2 & _ & _ & H5 & H6).
  - reflexivity.
  - exists s'. split; [exact H1|]. split; [exact H2|].
    split; [exact H5|exact H6].
Defined.

Lemma max17048_shutdown_resets_and_fences_witness :
  exists s',
    max17048_shutdown (soc_board 0xC800) 1 sample_state = Some (tt, s') /\
    chip s' = set_shutdown_complete 1 sample_chip /\
    (forall reg,
        max17048_read_word (soc_board 0xC800) reg s'
        = Some (- ENODEV, s')).
Proof.
  destruct (max17048_shutdown_resets_and_fences (soc_board 0xC800) 1
              sample_state) as (s' & written & H1 & H2 & _ & _ & _ & H6).
  - reflexivity.
  - reflexivity.
  - exists s'. split; [exact H1|]. split; [exact H2|exact H6].
Defined.

(** On a bus that fails, the loader stops after its first read. *)
Lemma max17048_load_model_data_guards_witness :
  max17048_load_model_data failing_board sample_state =
  Some (- EIO, {| chip := sample_chip;
                  trace := [I2cReadWord MAX17048_OCV (- EIO)] |}).
Proof.
  apply (proj1 (max17048_load_model_data_guards failing_board sample_state
                  eq_refl eq_refl)).
  reflexivity.
Defined.

Lemma max17048_write_rcomp_seg_pattern_witness :
  exists r s',
    max17048_write_rcomp_seg (soc_board 0xC800) 0x0080 sample_state
    = Some (r, s') /\
    chip s' = sample_chip /\ r <= 0.
Proof.
  destruct (max17048_write_rcomp_seg_pattern (soc_board 0xC800)
              sample_state 0x0080) as (r & s' & H1 & H2 & H3 & _).
  - reflexivity.
  - reflexivity.
  - exists r, s'. split; [exact H1|]. split; [exact H2|exact H3].
Defined.

Lemma max17048_check_battery_versions_witness :
  exists r,
    max17048_check_battery (registers_board [(MAX17048_VER, 0x0012)])
      {| max17048_data := Some sample_chip; history := [] |} =
    Some (r, {| max17048_data := Some sample_chip;
                history := [I2cReadWord MAX17048_VER (swab16 0x0012)] |}) /\
    (r = 0 \/ r = - ENODEV).
Proof.
  destruct (max17048_check_battery_versions
              (registers_board [(MAX17048_VER, 0x0012)])
              {| max17048_data := Some sample_chip; history := [] |}
              sample_chip) as (r & H1 & H2 & _).
  - reflexivity.
  - reflexivity.
  - reflexivity.
  - exists r. split; [exact H1|exact H2].
Defined.

Lemma max17048_get_ocv_relocks_witness :
  exists v r3,
    max17048_get_ocv (registers_board [(MAX17048_OCV, 0xD000)]) sample_state
    = Some (v, {| chip := sample_chip;
                  trace :=
                    [I2cWriteWord MAX17048_UNLOCK
                       (swab16 MAX17048_UNLOCK_VALUE) 0;
                     I2cReadWord MAX17048_OCV (swab16 0xD000);
                     I2cWriteWord MAX17048_UNLOCK 0 r3] |}).
Proof.
  destruct (proj2 (max17048_get_ocv_relocks
                     (registers_board [(MAX17048_OCV, 0xD000)])
                     sample_state eq_refl eq_refl))
    as (v & r3 & H1 & _).
  - reflexivity.
  - exists v, r3. exact H1.
Defined.

Lemma max17048_get_property_reads_context_witness :
  exists r v,
    max17048_get_property (soc_board 0xC800) POWER_SUPPLY_PROP_CAPACITY
      sample_state = Some ((r, v), sample_state) /\
    v = Some 0.
Proof.
  destruct (proj1 (max17048_get_property_reads_context (soc_board 0xC800)
                     sample_state POWER_SUPPLY_PROP_CAPACITY))
    as (r & v & H1 & _ & _ & _ & H5 & _).
  - discriminate.
  - exists r, v. split; [exact H1|]. apply H5. reflexivity.
Defined.

(** A config register that reads [0x697C], with the alert bit set, is
    written back as [0x695C]. *)
Lemma max17048_irq_clear_irq_bits_witness :
  exists wire wret,
    max17048_irq_clear_irq (registers_board [(MAX17048_CONFIG, 0x697C)])
      sample_state =
    Some (IRQ_HANDLED,
          {| chip := sample_chip;
             trace := [I2cReadWord MAX17048_CONFIG (swab16 0x697C);
                       I2cWriteWord MAX17048_CONFIG wire wret] |}) /\
    register_word wire = 0x695C.
Proof.
  destruct (max17048_irq_clear_irq_bits
              (registers_board [(MAX17048_CONFIG, 0x697C)]) sample_state)
    as (wire & wret & H1 & H2 & _).
  - reflexivity.
  - reflexivity.
  - exists wire, wret. split; [exact H1|].
    destruct H2 as (H2 & _); [vm_compute; discriminate|].
    rewrite H2. reflexivity.
Defined.

Lemma max17048_suspend_hibernates_witness :
  exists r s',
    max17048_suspend (soc_board 0xC800) true sample_state
    = Some ((r, [EnableIrqWake]), s') /\
    chip s' = sample_chip.
Proof.
  destruct (max17048_suspend_hibernates (soc_board 0xC800) sample_state
              true) as (r & s' & cfg & w & H1 & H2 & _).
  - reflexivity.
  - reflexivity.
  - exists r, s'. split; [exact H1|exact H2].
Defined.

Lemma max17048_resume_rearms_witness :
  exists s',
    max17048_resume (soc_board 0xC800) true sample_state
    = Some ((0, [DisableIrqWake]), s') /\
    chip s' = sample_chip.
Proof.
  destruct (proj2 (max17048_resume_rearms (soc_board 0xC800) sample_state
                     true eq_refl eq_refl))
    as (s' & cfg & H1 & H2 & _).
  - vm_compute. discriminate.
  - exists s'. split; [exact H1|exact H2].
Defined.

(** A thermal zone at 25 degrees, against a shadow of 0: the pass takes
    the new temperature into the shadow and rewrites the config register
    with the compensation for 25 degrees. *)
Lemma max17048_work_tracks_temperature_witness :
  exists s' wire wret rest,
    max17048_work (board (fun _ => 0) 0 (Some 25000)) sample_state
    = Some (tt, s') /\
    temperature (chip s') = 25000 /\
    lasttime_temperature (chip s') = 25000 /\
    trace s' =
      ThermalZoneGetTemp
      :: I2cReadWord MAX17048_CONFIG 0
      :: I2cWriteWord MAX17048_CONFIG wire wret
      :: PowerSupplyChanged :: rest /\
    Z.shiftr (register_word wire) 8 = new_rcomp sample_model 25000 /\
    existsb is_config_access rest = false.
Proof.
  pose proof (max17048_work_tracks_temperature
                (board (fun _ => 0) 0 (Some 25000)) sample_state eq_refl)
    as H.
  cbv zeta in H.
  destruct H as (s' & comp & rest & Hrun & Ht & Hl & Htr & Hnone & _
                 & Hst & _).
  destruct Hst as (written & -> & _ & Hw); [reflexivity|reflexivity|].
  destruct Hw as (wire & wret & -> & B1 & _); [vm_compute; discriminate|].
  exists s', wire, wret, rest. split; [exact Hrun|]. split; [exact Ht|].
  split; [exact Hl|]. split; [exact Htr|]. split; [exact B1|exact Hnone].
Defined.

Lemma write_model_data_loop_blocks_witness :
  exists b0 b1 b2 b3,
    write_model_data_loop (soc_board 0xC800) sample_model 4 0 sample_state =
    Some (true,
          {| chip := sample_chip;
             trace :=
               [I2cWriteBlock 0x40 16 b0 0; I2cWriteBlock 0x50 16 b1 0;
                I2cWriteBlock 0x60 16 b2 0; I2cWriteBlock 0x70 16 b3 0] |})
    /\ b0 ++ b1 ++ b2 ++ b3 = repeat 0xAA 64.
Proof.
  destruct (write_model_data_loop_blocks (soc_board 0xC800) sample_state
              sample_model) as (b0 & b1 & b2 & b3 & H1 & H2 & _).
  - reflexivity.
  - reflexivity.
  - intros. reflexivity.
  - reflexivity.
  - exists b0, b1, b2, b3. split; [exact H1|exact H2].
Defined.

(** The open-circuit voltage reads [0xD000] and the charge after the load
    reads [0xF100], inside the window from 240 to 242. *)
Lemma max17048_load_model_data_restores_ocv_witness :
  exists t,
    max17048_load_model_data
      (registers_board [(MAX17048_SOC, 0xF100); (MAX17048_OCV, 0xD000)])
      sample_state =
    Some (0,
          {| chip := sample_chip;
             trace := I2cReadWord MAX17048_OCV (swab16 0xD000) :: t ++
               [I2cWriteWord MAX17048_UNLOCK (swab16 MAX17048_UNLOCK_VALUE)
                  0;
                I2cWriteWord MAX17048_OCV (swab16 0xD000) 0] |}).
Proof.
  apply (max17048_load_model_data_restores_ocv
           (registers_board [(MAX17048_SOC, 0xF100); (MAX17048_OCV, 0xD000)])
           sample_state (swab16 0xD000) (swab16 0xF100)).
  - reflexivity.
  - reflexivity.
  - intros. reflexivity.
  - intros. reflexivity.
  - reflexivity.
  - vm_compute. split; [discriminate|reflexivity].
  - intros. reflexivity.
  - vm_compute. split; [discriminate|reflexivity].
  - vm_compute. split; discriminate.
Defined.

(** A charger that reports charging to a battery whose charge reads 100:
    the shadow stays Charging through the next reading. *)
Lemma max17048_battery_status_survives_sampling_witness :
  exists c1 s',
    max17048_battery_status 1 1
      {| max17048_data := Some sample_chip; history := [] |} =
      {| max17048_data := Some c1; history := [PowerSupplyChanged] |} /\
    status c1 = POWER_SUPPLY_STATUS_CHARGING /\
    max17048_get_soc (soc_board 0xC800) {| chip := c1; trace := [] |}
    = Some (tt, s') /\
    lasttime_status (chip s') = POWER_SUPPLY_STATUS_CHARGING.
Proof.
  destruct (max17048_battery_status_survives_sampling (soc_board 0xC800)
              1 1 {| max17048_data := Some sample_chip; history := [] |}
              sample_chip [])
    as (c1 & s' & H1 & H2 & _ & H4 & H5 & _).
  - reflexivity.
  - reflexivity.
  - exists c1, s'. split; [exact H1|]. split; [exact H2|].
    split; [exact H4|exact H5].
Defined.

(** The sample model at 0 and at 40 degrees. *)
Lemma new_rcomp_antitone_witness :
  new_rcomp sample_model 40000 <= new_rcomp sample_model 0.
Proof.
  apply (new_rcomp_antitone sample_model 0 40000);
    try (vm_compute; split; discriminate);
    vm_compute; discriminate.
Defined.
